(** * BaZi (four pillars) calculators: a shallow embedding

    The development follows the TypeScript sources of the repository:

    - [Js]        the few pieces of the JavaScript runtime the code relies on
                  (remainder, array indexing, [Date], template literals, a
                  regular-expression matcher);
    - [Bazi]      [src/lib/bazi-calculator.ts];
    - [Complete]  [src/lib/complete-bazi-calculator.ts];
    - [Astro]     [src/lib/astronomical-time.ts];
    - [Tz]        [src/lib/timezone-calculator.ts];
    - [Terms]     the vocabulary of the statements proved afterwards.

    Conventions.  A JavaScript number that is always an integer in the code
    is a [Z]; a number that may carry a fraction is a [Q] (exact rational
    arithmetic stands for IEEE doubles: every fractional quantity below is
    either a multiple of one half or is compared against bounds that it
    misses by minutes, far more than any rounding).  A value that may be [undefined] (or a
    number that may be [NaN]) is an [option].  A call that may throw returns
    an [option] whose [None] is the exception.  Strings are UTF-8 byte
    strings, so that the tables read exactly as in the source. *)

From Stdlib Require Import ZArith QArith Qround Lia Lqa Ascii String.
From stdpp Require Import gmap strings list fin_maps pretty.

Open Scope string_scope.
Open Scope Z_scope.

(* ===================================================================== *)
(** * The JavaScript runtime, as far as the calculators use it *)
(* ===================================================================== *)

Module Js.

(** [a % b] on integers: the remainder takes the sign of the dividend. *)
Definition rem (a b : Z) : Z := Z.rem a b.

(** [Math.floor (a / b)] on integers with [b > 0]. *)
Definition floorDiv (a b : Z) : Z := a / b.

(** [arr[i]]: [undefined] outside [0 .. length-1], in particular for a
    negative index. *)
Definition index {A} (arr : list A) (i : Z) : option A :=
  if i <? 0 then None else arr !! Z.to_nat i.

(** [arr.indexOf(x)], [-1] when absent; [undefined] is never an element of
    the string arrays of this code. *)
Fixpoint indexOf_from (arr : list string) (x : string) (i : Z) : Z :=
  match arr with
  | [] => -1
  | y :: rest => if decide (y = x) then i else indexOf_from rest x (i + 1)
  end.

Definition indexOf (arr : list string) (x : option string) : Z :=
  match x with
  | Some s => indexOf_from arr s 0
  | None => -1
  end.

(** [`${v}`] in a template literal, and [a + b] on strings. *)
Definition show (v : option string) : string := default "undefined" v.

(** [!!v] for a string-or-undefined value. *)
Definition truthy (v : option string) : bool :=
  match v with
  | Some s => negb (String.eqb s "")
  | None => false
  end.

(** ** Dates

    A [Date] is its time value: milliseconds since the epoch, or [NaN] for
    an invalid date.  Local time is taken in a zone of constant offset, so
    that the offset cancels in differences and local fields are read off
    the time value directly. *)

Definition msPerDay : Z := 1000 * 60 * 60 * 24.

(** Days from 1970-01-01 to the civil date [y]-[m]-[d], [m] in 1..12; the
    expression is affine in [d], as ECMAScript's [MakeDay] is. *)
Definition daysFromCivil (y m d : Z) : Z :=
  let y' := if m <=? 2 then y - 1 else y in
  let era := y' / 400 in
  let yoe := y' - era * 400 in
  let mp := if m >? 2 then m - 3 else m + 9 in
  let doy := (153 * mp + 2) / 5 + d - 1 in
  let doe := yoe * 365 + yoe / 4 - yoe / 100 + doy in
  era * 146097 + doe - 719468.

(** [MakeDay (year, month, date)] with a zero-based, possibly overflowing
    month. *)
Definition MakeDay (year month date : Z) : Z :=
  daysFromCivil (year + month / 12) (month mod 12 + 1) 1 + date - 1.

Inductive Date := InvalidDate | DateAt (ms : Z).

(** [new Date(year, monthIndex, day, hours, minutes)]; years 0..99 stand
    for 1900..1999. *)
Definition Date_new (year monthIndex day hours minutes : Z) : Date :=
  let yr := if (0 <=? year) && (year <=? 99) then 1900 + year else year in
  DateAt (MakeDay yr monthIndex day * msPerDay
          + hours * 3600000 + minutes * 60000).

Definition getTime (d : Date) : option Z :=
  match d with
  | InvalidDate => None
  | DateAt ms => Some ms
  end.

(** The civil date (year, month 1..12, day) of a day number. *)
Definition civilFromDays (days : Z) : Z * Z * Z :=
  let z := days + 719468 in
  let era := z / 146097 in
  let doe := z - era * 146097 in
  let yoe := (doe - doe / 1460 + doe / 36524 - doe / 146096) / 365 in
  let doy := doe - (365 * yoe + yoe / 4 - yoe / 100) in
  let mp := (5 * doy + 2) / 153 in
  let d := doy - (153 * mp + 2) / 5 + 1 in
  let m := if mp <? 10 then mp + 3 else mp - 9 in
  (yoe + era * 400 + (if m <=? 2 then 1 else 0), m, d).

(** [d.getFullYear()], [d.getMonth()], [d.getHours()]: [NaN] for an
    invalid date. *)
Definition getFullYear (d : Date) : option Z :=
  ms ← getTime d; Some (civilFromDays (ms / msPerDay)).1.1.

Definition getMonth (d : Date) : option Z :=
  ms ← getTime d; Some ((civilFromDays (ms / msPerDay)).1.2 - 1).

Definition getHours (d : Date) : option Z :=
  ms ← getTime d; Some (ms mod msPerDay / 3600000).

(** [d.setHours(hours, minutes, 0, 0)] with integer arguments. *)
Definition setHours (d : Date) (hours minutes : Z) : Date :=
  match d with
  | InvalidDate => InvalidDate
  | DateAt ms =>
      DateAt (ms / msPerDay * msPerDay + hours * 3600000 + minutes * 60000)
  end.

(** [d.getDay()]: 0 is Sunday; 1970-01-01 was a Thursday. *)
Definition getDay (d : Date) : option Z :=
  ms ← getTime d; Some ((ms / msPerDay + 4) mod 7).

(** ** Regular expressions

    The fragment used by the code: character classes, concatenation,
    alternation and [?].  [test] is the anchored match [/^r$/.test(s)]. *)

Inductive regex :=
| Void
| Eps
| Class (p : ascii → bool)
| Cat (r1 r2 : regex)
| Alt (r1 r2 : regex).

Definition Opt (r : regex) : regex := Alt r Eps.

Fixpoint nullable (r : regex) : bool :=
  match r with
  | Void => false
  | Eps => true
  | Class _ => false
  | Cat r1 r2 => nullable r1 && nullable r2
  | Alt r1 r2 => nullable r1 || nullable r2
  end.

Fixpoint deriv (c : ascii) (r : regex) : regex :=
  match r with
  | Void => Void
  | Eps => Void
  | Class p => if p c then Eps else Void
  | Cat r1 r2 =>
      if nullable r1 then Alt (Cat (deriv c r1) r2) (deriv c r2)
      else Cat (deriv c r1) r2
  | Alt r1 r2 => Alt (deriv c r1) (deriv c r2)
  end.

Fixpoint test (r : regex) (s : string) : bool :=
  match s with
  | EmptyString => nullable r
  | String c rest => test (deriv c r) rest
  end.

(** The language of a regular expression, for reasoning about [test]. *)
Inductive matches : regex → string → Prop :=
| m_eps : matches Eps ""
| m_class p c : p c = true → matches (Class p) (String c "")
| m_cat r1 r2 s1 s2 :
    matches r1 s1 → matches r2 s2 → matches (Cat r1 r2) (s1 ++ s2)
| m_alt_l r1 r2 s : matches r1 s → matches (Alt r1 r2) s
| m_alt_r r1 r2 s : matches r2 s → matches (Alt r1 r2) s.

(** [[a-b]] and a literal character. *)
Definition range (a b : ascii) : regex :=
  Class (λ c, (nat_of_ascii a <=? nat_of_ascii c)%nat
              && (nat_of_ascii c <=? nat_of_ascii b)%nat).

Definition lit (a : ascii) : regex := Class (Ascii.eqb a).

End Js.

(* ===================================================================== *)
(** * [bazi-calculator.ts] *)
(* ===================================================================== *)

Module Bazi.

(** [{ stem: string; branch: string }]; either field is [undefined] when
    the array lookup that produced it missed. *)
Record Pillar := mkPillar { stem : option string; branch : option string }.

Definition HEAVENLY_STEMS : list string :=
  ["甲"; "乙"; "丙"; "丁"; "戊"; "己"; "庚"; "辛"; "壬"; "癸"].

Definition EARTHLY_BRANCHES : list string :=
  ["子"; "丑"; "寅"; "卯"; "辰"; "巳"; "午"; "未"; "申"; "酉"; "戌"; "亥"].

Definition STEM_ELEMENTS : gmap string string :=
  list_to_map
    [("甲", "木"); ("乙", "木"); ("丙", "火"); ("丁", "火"); ("戊", "土");
     ("己", "土"); ("庚", "金"); ("辛", "金"); ("壬", "水"); ("癸", "水")].

Definition BRANCH_ELEMENTS : gmap string string :=
  list_to_map
    [("子", "水"); ("丑", "土"); ("寅", "木"); ("卯", "木"); ("辰", "土");
     ("巳", "火"); ("午", "火"); ("未", "土"); ("申", "金"); ("酉", "金");
     ("戌", "土"); ("亥", "水")].

Definition HIDDEN_STEMS : gmap string (list string) :=
  list_to_map
    [("子", ["癸"]);
     ("丑", ["己"; "癸"; "辛"]);
     ("寅", ["甲"; "丙"; "戊"]);
     ("卯", ["乙"]);
     ("辰", ["戊"; "乙"; "癸"]);
     ("巳", ["丙"; "戊"; "庚"]);
     ("午", ["丁"; "己"]);
     ("未", ["己"; "丁"; "乙"]);
     ("申", ["庚"; "戊"; "壬"]);
     ("酉", ["辛"]);
     ("戌", ["戊"; "辛"; "丁"]);
     ("亥", ["壬"; "甲"])].

(** One row of [TEN_GODS]: the labels of 甲 .. 癸 in this order. *)
Definition row (l : list string) : gmap string string :=
  list_to_map (zip HEAVENLY_STEMS l).

Definition TEN_GODS : gmap string (gmap string string) :=
  list_to_map
    [("甲", row ["比肩"; "劫财"; "食神"; "伤官"; "偏财"; "正财"; "七杀"; "正官"; "偏印"; "正印"]);
     ("乙", row ["劫财"; "比肩"; "伤官"; "食神"; "正财"; "偏财"; "正官"; "七杀"; "正印"; "偏印"]);
     ("丙", row ["偏印"; "正印"; "比肩"; "劫财"; "食神"; "伤官"; "偏财"; "正财"; "七杀"; "正官"]);
     ("丁", row ["正印"; "偏印"; "劫财"; "比肩"; "伤官"; "食神"; "正财"; "偏财"; "正官"; "七杀"]);
     ("戊", row ["七杀"; "正官"; "偏印"; "正印"; "比肩"; "劫财"; "食神"; "伤官"; "偏财"; "正财"]);
     ("己", row ["正官"; "七杀"; "正印"; "偏印"; "劫财"; "比肩"; "伤官"; "食神"; "正财"; "偏财"]);
     ("庚", row ["偏财"; "正财"; "七杀"; "正官"; "偏印"; "正印"; "比肩"; "劫财"; "食神"; "伤官"]);
     ("辛", row ["正财"; "偏财"; "正官"; "七杀"; "正印"; "偏印"; "劫财"; "比肩"; "伤官"; "食神"]);
     ("壬", row ["食神"; "伤官"; "偏财"; "正财"; "七杀"; "正官"; "偏印"; "正印"; "比肩"; "劫财"]);
     ("癸", row ["伤官"; "食神"; "正财"; "偏财"; "正官"; "七杀"; "正印"; "偏印"; "劫财"; "比肩"])].

(** The ten relationship labels that occur in [TEN_GODS]. *)
Definition TEN_GOD_LABELS : list string :=
  ["比肩"; "劫财"; "食神"; "伤官"; "偏财"; "正财"; "七杀"; "正官"; "偏印"; "正印"].

(** [calculateYearPillar(year)] *)
Definition calculateYearPillar (year : Z) : Pillar :=
  let baseYear := 1984 in
  let offset := Js.rem (year - baseYear) 60 in
  let stemIndex := Js.rem offset 10 in
  let branchIndex := Js.rem offset 12 in
  {| stem := Js.index HEAVENLY_STEMS stemIndex;
     branch := Js.index EARTHLY_BRANCHES branchIndex |}.

(** [calculateMonthPillar(year, month)] *)
Definition calculateMonthPillar (year month : Z) : Pillar :=
  let yearPillar := calculateYearPillar year in
  let yearStemIndex := Js.indexOf HEAVENLY_STEMS (stem yearPillar) in
  let monthStemStart := Js.rem (yearStemIndex * 2 + 2) 10 in
  let monthStemIndex := Js.rem (monthStemStart + month - 1) 10 in
  let monthBranchIndex := Js.rem (month + 1) 12 in
  {| stem := Js.index HEAVENLY_STEMS monthStemIndex;
     branch := Js.index EARTHLY_BRANCHES monthBranchIndex |}.

(** [calculateDayPillar(date)]; an invalid date makes every number [NaN]
    and both lookups [undefined]. *)
Definition calculateDayPillar (date : Js.Date) : Pillar :=
  let baseDate := Js.Date_new 1900 0 31 0 0 in
  let offset :=
    t ← Js.getTime date;
    b ← Js.getTime baseDate;
    let daysDiff := Js.floorDiv (t - b) (1000 * 60 * 60 * 24) in
    Some (Js.rem (daysDiff + 36) 60) in
  {| stem := o ← offset; Js.index HEAVENLY_STEMS (Js.rem o 10);
     branch := o ← offset; Js.index EARTHLY_BRANCHES (Js.rem o 12) |}.

(** [calculateHourPillar(dayStem, hour)], [hour] an integer as returned
    by [getHours()]. *)
Definition calculateHourPillar (dayStem : option string) (hour : Z) : Pillar :=
  let dayStemIndex := Js.indexOf HEAVENLY_STEMS dayStem in
  let hourBranchIndex := Js.rem (Js.floorDiv (hour + 1) 2) 12 in
  let hourStemStart := Js.rem (dayStemIndex * 2 + 2) 10 in
  let hourStemIndex := Js.rem (hourStemStart + Js.floorDiv (hour + 1) 2) 10 in
  {| stem := Js.index HEAVENLY_STEMS hourStemIndex;
     branch := Js.index EARTHLY_BRANCHES hourBranchIndex |}.

(** The five buckets of [fiveElements]. *)
Record Elements :=
  mkElements { wood : Q; fire : Q; earth : Q; metal : Q; water : Q }.

(** The chain [if (e === '木') elements.wood += w; else if ...]. *)
Definition bump (element : option string) (w : Q) (e : Elements) : Elements :=
  if decide (element = Some "木") then
    mkElements (wood e + w) (fire e) (earth e) (metal e) (water e)
  else if decide (element = Some "火") then
    mkElements (wood e) (fire e + w) (earth e) (metal e) (water e)
  else if decide (element = Some "土") then
    mkElements (wood e) (fire e) (earth e + w) (metal e) (water e)
  else if decide (element = Some "金") then
    mkElements (wood e) (fire e) (earth e) (metal e + w) (water e)
  else if decide (element = Some "水") then
    mkElements (wood e) (fire e) (earth e) (metal e) (water e + w)
  else e.

(** [table[key]] with a key that may itself be [undefined]. *)
Definition at_key {V} (table : gmap string V) (key : option string) : option V :=
  k ← key; table !! k.

(** The body of [pillars.forEach] in [calculateFiveElements]; [None] is
    the [TypeError] of [hiddenStems.forEach] on [undefined]. *)
Definition tallyPillar (elements : Elements) (pillar : Pillar) : option Elements :=
  let e1 := bump (at_key STEM_ELEMENTS (stem pillar)) 1 elements in
  let e2 := bump (at_key BRANCH_ELEMENTS (branch pillar)) 1 e1 in
  hiddenStems ← at_key HIDDEN_STEMS (branch pillar);
  Some (foldl (λ acc s, bump (STEM_ELEMENTS !! s) (1 # 2) acc) e2 hiddenStems).

Fixpoint tallyPillars (elements : Elements) (pillars : list Pillar)
  : option Elements :=
  match pillars with
  | [] => Some elements
  | p :: rest => e ← tallyPillar elements p; tallyPillars e rest
  end.

(** [calculateFiveElements(pillars)] *)
Definition calculateFiveElements (pillars : list Pillar) : option Elements :=
  tallyPillars (mkElements 0 0 0 0 0) pillars.

(** [`${ch}(${god})`] *)
Definition labelled (ch god : option string) : string :=
  (Js.show ch ++ "(" ++ Js.show god ++ ")")%string.

Definition PILLAR_NAMES : list string := ["年柱"; "月柱"; "日柱"; "时柱"].

(** The body of [pillars.forEach] in [calculateTenGods]: the entries pushed
    for one pillar, in order. *)
Definition pillarGods (dayMasterTenGods : gmap string string) (pillar : Pillar)
  : option (list string) :=
  let stemGod := at_key dayMasterTenGods (stem pillar) in
  let branchGod := at_key dayMasterTenGods (branch pillar) in
  hiddenStems ← at_key HIDDEN_STEMS (branch pillar);
  Some (labelled (stem pillar) stemGod
        :: labelled (branch pillar) branchGod
        :: map (λ s, labelled (Some s) (dayMasterTenGods !! s)) hiddenStems).

Fixpoint tenGodsLoop (dayMasterTenGods : gmap string string)
    (tenGods : gmap string (list string)) (index : nat)
    (pillars : list Pillar) : option (gmap string (list string)) :=
  match pillars with
  | [] => Some tenGods
  | pillar :: rest =>
      pillarName ← PILLAR_NAMES !! index;
      old ← tenGods !! pillarName;
      new ← pillarGods dayMasterTenGods pillar;
      tenGodsLoop dayMasterTenGods (<[pillarName := (old ++ new)%list]> tenGods)
        (S index) rest
  end.

(** [calculateTenGods(dayMaster, pillars)]; [None] is a [TypeError]
    (unknown day master with a pillar to classify, unknown branch, or a
    fifth pillar). *)
Definition calculateTenGods (dayMaster : option string) (pillars : list Pillar)
  : option (gmap string (list string)) :=
  let tenGods : gmap string (list string) :=
    list_to_map [("年柱", []); ("月柱", []); ("日柱", []); ("时柱", [])] in
  match pillars with
  | [] => Some tenGods
  | _ =>
      dayMasterTenGods ← at_key TEN_GODS dayMaster;
      tenGodsLoop dayMasterTenGods tenGods 0 pillars
  end.

(** [BirthInfo] as it reaches [validateBirthInfo] at run time: any field
    may be missing or empty. *)
Record BirthInfo := mkBirthInfo {
  birthDate : option Js.Date;
  birthTime : option string;
  gender : option string;
  calendarType : option string;
  calibratedDate : option Js.Date
}.

(** [/^([01]?[0-9]|2[0-3]):[0-5][0-9]$/] *)
Definition TIME_PATTERN : Js.regex :=
  Js.Cat
    (Js.Alt (Js.Cat (Js.Opt (Js.range "0" "1")) (Js.range "0" "9"))
            (Js.Cat (Js.lit "2") (Js.range "0" "3")))
    (Js.Cat (Js.lit ":") (Js.Cat (Js.range "0" "5") (Js.range "0" "9"))).

Record Validation := mkValidation { valid : bool; errors : list string }.

(** [year < 1900 || year > 2100], false when [year] is [NaN]. *)
Definition yearOutOfRange (year : option Z) : bool :=
  match year with
  | Some y => (y <? 1900) || (y >? 2100)
  | None => false
  end.

(** [validateBirthInfo(birthInfo)] *)
Definition validateBirthInfo (birthInfo : BirthInfo) : Validation :=
  let errors : list string := [] in
  let errors :=
    if birthDate birthInfo is None
    then (errors ++ ["请选择出生日期"])%list else errors in
  let errors :=
    if negb (Js.truthy (birthTime birthInfo))
       || negb (Js.test TIME_PATTERN (default "" (birthTime birthInfo)))
    then (errors ++ ["请输入有效的时间格式（HH:MM）"])%list else errors in
  let errors :=
    if negb (Js.truthy (gender birthInfo))
    then (errors ++ ["请选择性别"])%list else errors in
  let errors :=
    if negb (Js.truthy (calendarType birthInfo))
    then (errors ++ ["请选择历法类型"])%list else errors in
  let errors :=
    match birthDate birthInfo with
    | Some d =>
        if yearOutOfRange (Js.getFullYear d)
        then (errors ++ ["请选择1900年至2100年之间的日期"])%list else errors
    | None => errors
    end in
  {| valid := bool_decide (length errors = 0%nat); errors := errors |}.

Record BaziResult := mkBaziResult {
  yearPillar : Pillar;
  monthPillar : Pillar;
  dayPillar : Pillar;
  hourPillar : Pillar;
  fiveElements : Elements;
  tenGods : gmap string (list string);
  dayMaster : option string
}.

(** [calculateBazi(birthInfo)].  The pair
    [birthInfo.birthTime.split(':').map(Number)] is given as the integers
    [hours] and [minutes].  [None] is an exception: the [TypeError] of
    [calculateFiveElements] or [calculateTenGods], which is also what an
    invalid or missing date ends in, every pillar being [undefined]. *)
Definition calculateBazi (birthInfo : BirthInfo) (hours minutes : Z)
  : option BaziResult :=
  let calculationDate :=
    match calibratedDate birthInfo with
    | Some d => Some d
    | None => birthDate birthInfo
    end in
  let workingDate :=
    Js.setHours (default Js.InvalidDate calculationDate) hours minutes in
  fullYear ← Js.getFullYear workingDate;
  monthIndex ← Js.getMonth workingDate;
  hour ← Js.getHours workingDate;
  let yearPillar := calculateYearPillar fullYear in
  let monthPillar := calculateMonthPillar fullYear (monthIndex + 1) in
  let dayPillar := calculateDayPillar workingDate in
  let hourPillar := calculateHourPillar (stem dayPillar) hour in
  let pillars := [yearPillar; monthPillar; dayPillar; hourPillar] in
  fiveElements ← calculateFiveElements pillars;
  let dayMaster := stem dayPillar in
  tenGods ← calculateTenGods dayMaster pillars;
  Some {| yearPillar := yearPillar;
          monthPillar := monthPillar;
          dayPillar := dayPillar;
          hourPillar := hourPillar;
          fiveElements := fiveElements;
          tenGods := tenGods;
          dayMaster := dayMaster |}.

End Bazi.

(* ===================================================================== *)
(** * [complete-bazi-calculator.ts] *)
(* ===================================================================== *)

Module Complete.

Definition tianGan : list string :=
  ["甲"; "乙"; "丙"; "丁"; "戊"; "己"; "庚"; "辛"; "壬"; "癸"].

Definition diZhi : list string :=
  ["子"; "丑"; "寅"; "卯"; "辰"; "巳"; "午"; "未"; "申"; "酉"; "戌"; "亥"].

Definition wuXing : gmap string string :=
  list_to_map
    [("甲", "木"); ("乙", "木"); ("丙", "火"); ("丁", "火"); ("戊", "土"); ("己", "土");
     ("庚", "金"); ("辛", "金"); ("壬", "水"); ("癸", "水");
     ("子", "水"); ("丑", "土"); ("寅", "木"); ("卯", "木"); ("辰", "土"); ("巳", "火");
     ("午", "火"); ("未", "土"); ("申", "金"); ("酉", "金"); ("戌", "土"); ("亥", "水")].

Definition yearGanToMonthGan : gmap string Z :=
  list_to_map
    [("甲", 2); ("己", 2); ("乙", 4); ("庚", 4); ("丙", 6); ("辛", 6);
     ("丁", 8); ("壬", 8); ("戊", 0); ("癸", 0)].

Definition dayGanToHourGan : gmap string Z :=
  list_to_map
    [("甲", 0); ("己", 0); ("乙", 2); ("庚", 2); ("丙", 4); ("辛", 4);
     ("丁", 6); ("壬", 6); ("戊", 8); ("癸", 8)].

Record TimeSlot :=
  mkSlot { name : string; start : Z; end_ : Z; zhi : string }.

Definition timeToHour : list TimeSlot :=
  [mkSlot "子时" 23 1 "子";
   mkSlot "丑时" 1 3 "丑";
   mkSlot "寅时" 3 5 "寅";
   mkSlot "卯时" 5 7 "卯";
   mkSlot "辰时" 7 9 "辰";
   mkSlot "巳时" 9 11 "巳";
   mkSlot "午时" 11 13 "午";
   mkSlot "未时" 13 15 "未";
   mkSlot "申时" 15 17 "申";
   mkSlot "酉时" 17 19 "酉";
   mkSlot "戌时" 19 21 "戌";
   mkSlot "亥时" 21 23 "亥"].

(** [a + b] on two string-or-undefined values: a string as soon as one
    side is a string, [NaN] (here [None]) otherwise. *)
Definition plus (a b : option string) : option string :=
  match a, b with
  | None, None => None
  | _, _ => Some (Js.show a ++ Js.show b)%string
  end.

(** [x < 0 ? x + n : x] *)
Definition normalize (x n : Z) : Z := if x <? 0 then x + n else x.

Record YearPillar := mkYear {
  y_stem : option string;
  y_branch : option string;
  y_pillar : option string;
  ganZhiYear : Z;
  y_stemIndex : Z;
  y_branchIndex : Z
}.

(** [calculateYearPillar(year, month, day)] *)
Definition calculateYearPillar (year month day : Z) : YearPillar :=
  let ganZhiYear :=
    if (month =? 1) || ((month =? 2) && (day <? 4)) then year - 1 else year in
  let offset := ganZhiYear - 4 in
  let ganIndex := Js.rem offset 10 in
  let zhiIndex := Js.rem offset 12 in
  let finalGan := normalize ganIndex 10 in
  let finalZhi := normalize zhiIndex 12 in
  {| y_stem := Js.index tianGan finalGan;
     y_branch := Js.index diZhi finalZhi;
     y_pillar := plus (Js.index tianGan finalGan) (Js.index diZhi finalZhi);
     ganZhiYear := ganZhiYear;
     y_stemIndex := finalGan;
     y_branchIndex := finalZhi |}.

(** The object literal [monthMapping] of [calculateMonthPillar]. *)
Definition monthMapping : gmap Z (string * Z) :=
  list_to_map
    [(3, ("卯", 3));
     (4, ("辰", 4));
     (5, ("巳", 5));
     (6, ("午", 6));
     (7, ("未", 7));
     (8, ("申", 8));
     (9, ("酉", 9));
     (10, ("戌", 10));
     (11, ("亥", 11));
     (12, ("子", 0))].

(** [getMonthName(zhiIndex)] *)
Definition getMonthName (zhiIndex : Z) : option string :=
  Js.index
    ["十一月"; "十二月"; "正月"; "二月"; "三月"; "四月";
     "五月"; "六月"; "七月"; "八月"; "九月"; "十月"] zhiIndex.

Record MonthPillar := mkMonth {
  m_stem : option string;
  m_branch : string;
  m_pillar : string;
  monthName : option string
}.

(** [calculateMonthPillar(year, month, day, yearStem)]; [None] is the
    [TypeError] of [monthMapping[month].zhi] for a month outside 1..12. *)
Definition calculateMonthPillar (year month day : Z) (yearStem : string)
  : option MonthPillar :=
  '(monthZhi, monthZhiIndex) ←
    (if month =? 1 then Some ("丑", 1)
     else if month =? 2 then
       Some (if day <? 4 then "丑" else "寅", if day <? 4 then 1 else 2)
     else monthMapping !! month);
  let monthGanBase := yearGanToMonthGan !! yearStem in
  let monthGanIndex :=
    base ← monthGanBase; Some (Js.rem (base + monthZhiIndex - 2) 10) in
  let stem := i ← monthGanIndex; Js.index tianGan i in
  Some {| m_stem := stem;
          m_branch := monthZhi;
          m_pillar := (Js.show stem ++ monthZhi)%string;
          monthName := getMonthName monthZhiIndex |}.

Record DayPillar := mkDay {
  d_stem : option string;
  d_branch : option string;
  d_pillar : option string;
  daysDiff : Z;
  d_stemIndex : Z;
  d_branchIndex : Z
}.

(** [a - b] on two dates. *)
Definition dateDiff (a b : Js.Date) : Z :=
  default 0 (x ← Js.getTime a; y ← Js.getTime b; Some (x - y)).

(** [calculateDayPillar(year, month, day)] *)
Definition calculateDayPillar (year month day : Z) : DayPillar :=
  let baseDate := Js.Date_new 1900 0 1 0 0 in
  let targetDate := Js.Date_new year (month - 1) day 0 0 in
  let daysDiff :=
    Js.floorDiv (dateDiff targetDate baseDate) (1000 * 60 * 60 * 24) in
  let correctedDays := daysDiff - 12 in
  let baseGan := 6 in
  let baseZhi := 0 in
  let ganIndex := Js.rem (baseGan + correctedDays) 10 in
  let zhiIndex := Js.rem (baseZhi + correctedDays) 12 in
  let finalGan := normalize ganIndex 10 in
  let finalZhi := normalize zhiIndex 12 in
  {| d_stem := Js.index tianGan finalGan;
     d_branch := Js.index diZhi finalZhi;
     d_pillar := plus (Js.index tianGan finalGan) (Js.index diZhi finalZhi);
     daysDiff := correctedDays;
     d_stemIndex := finalGan;
     d_branchIndex := finalZhi |}.

Record HourPillar := mkHour {
  h_stem : option string;
  h_branch : string;
  h_pillar : string;
  hourName : string;
  hourZhi : string;
  timeRange : string
}.

(** The slot chosen by the first part of [calculateHourPillar]; [None]
    when no slot matches. *)
Definition findHourInfo (hour : Z) : option TimeSlot :=
  if (hour >=? 23) || (hour <? 1) then timeToHour !! 0%nat
  else
    snd <$> list_find (λ timeSlot,
      (start timeSlot <= hour) ∧ (hour < end_ timeSlot)) timeToHour.

(** [calculateHourPillar(dayStem, hour, minute)]; [None] is the thrown
    [Error('无法确定时辰')]. *)
Definition calculateHourPillar (dayStem : string) (hour minute : Z)
  : option HourPillar :=
  hourInfo ← findHourInfo hour;
  let hourGanBase := dayGanToHourGan !! dayStem in
  let hourZhiIndex := Js.indexOf diZhi (Some (zhi hourInfo)) in
  let hourGanIndex :=
    base ← hourGanBase; Some (Js.rem (base + hourZhiIndex) 10) in
  let stem := i ← hourGanIndex; Js.index tianGan i in
  Some {| h_stem := stem;
          h_branch := zhi hourInfo;
          h_pillar := (Js.show stem ++ zhi hourInfo)%string;
          hourName := name hourInfo;
          hourZhi := zhi hourInfo;
          timeRange := (pretty (start hourInfo) ++ ":00-"
                        ++ pretty (end_ hourInfo) ++ ":00")%string |}.

(** ** [analyzeFiveElements]

    [baZi.replace(/\s+/g, '').split('')]: the characters of the string
    with white space removed.  The byte string is cut at every byte that
    is not a UTF-8 continuation byte; a character outside the basic plane
    (which JavaScript would cut into two surrogates) stays one piece, and
    neither it nor its halves is a key of [wuXing]. *)

Definition continuation (c : ascii) : bool :=
  (128 <=? nat_of_ascii c)%nat && (nat_of_ascii c <? 192)%nat.

Fixpoint split (s : string) : list string :=
  match s with
  | EmptyString => []
  | String c rest =>
      match split rest with
      | String c' piece :: pieces =>
          if continuation c' then String c (String c' piece) :: pieces
          else String c "" :: String c' piece :: pieces
      | pieces => String c "" :: pieces
      end
  end.

Fixpoint decodeTail (acc : N) (s : string) : N :=
  match s with
  | EmptyString => acc
  | String c rest => decodeTail (acc * 64 + N_of_ascii c mod 64)%N rest
  end.

(** The code point of a one-character string. *)
Definition codePoint (ch : string) : N :=
  match ch with
  | EmptyString => 0%N
  | String c rest =>
      let n := N_of_ascii c in
      let lead := (if n <? 128 then n else if n <? 224 then n mod 32
                   else if n <? 240 then n mod 16 else n mod 8)%N in
      decodeTail lead rest
  end.

(** The class [\s]. *)
Definition isWhiteSpace (ch : string) : bool :=
  let cp := codePoint ch in
  ((9 <=? cp) && (cp <=? 13) || (cp =? 32) || (cp =? 160) || (cp =? 5760)
   || (8192 <=? cp) && (cp <=? 8202) || (cp =? 8232) || (cp =? 8233)
   || (cp =? 8239) || (cp =? 8287) || (cp =? 12288) || (cp =? 65279))%N.

(** The body of [chars.forEach]. *)
Definition count (elements : Bazi.Elements) (char : string) : Bazi.Elements :=
  let e := elements in
  match wuXing !! char with
  | Some element =>
      if decide (element = "木") then
        Bazi.mkElements (Bazi.wood e + 1) (Bazi.fire e) (Bazi.earth e) (Bazi.metal e) (Bazi.water e)
      else if decide (element = "火") then
        Bazi.mkElements (Bazi.wood e) (Bazi.fire e + 1) (Bazi.earth e) (Bazi.metal e) (Bazi.water e)
      else if decide (element = "土") then
        Bazi.mkElements (Bazi.wood e) (Bazi.fire e) (Bazi.earth e + 1) (Bazi.metal e) (Bazi.water e)
      else if decide (element = "金") then
        Bazi.mkElements (Bazi.wood e) (Bazi.fire e) (Bazi.earth e) (Bazi.metal e + 1) (Bazi.water e)
      else if decide (element = "水") then
        Bazi.mkElements (Bazi.wood e) (Bazi.fire e) (Bazi.earth e) (Bazi.metal e) (Bazi.water e + 1)
      else e
  | None => e
  end.

(** [analyzeFiveElements(baZi)] *)
Definition analyzeFiveElements (baZi : string) : Bazi.Elements :=
  let chars := filter (λ ch, isWhiteSpace ch = false) (split baZi) in
  foldl count (Bazi.mkElements 0 0 0 0 0) chars.

(** [`${yearResult.pillar} ${monthResult.pillar} ${dayResult.pillar}
    ${hourResult.pillar}`], the argument [calculate] gives to
    [analyzeFiveElements]. *)
Definition fullBaZi (y : option string) (m : string) (d : option string)
    (h : string) : string :=
  (default "NaN" y ++ " " ++ m ++ " " ++ default "NaN" d ++ " " ++ h)%string.

End Complete.

(* ===================================================================== *)
(** * [astronomical-time.ts] *)
(* ===================================================================== *)

Module Astro.

Local Open Scope Q_scope.

Record Location := mkLocation {
  name : string;
  longitude : Q;
  latitude : Q;
  timezone : Q
}.

Record TrueSolarTime := mkTrueSolarTime {
  year : Z;
  month : Z;
  day : Z;
  hour : Z;
  minute : Z;
  second : Z;
  isLeapYear : bool;
  dayOfWeek : option Z;
  r_julianDay : Q;
  r_equationOfTime : Q;
  r_longitudeCorrection : Q;
  totalCorrection : Q
}.

Definition CHINESE_CITIES : gmap string Location :=
  list_to_map
    [
     ("北京", mkLocation "北京" (1164074 # 10000) (399042 # 10000) 8);
     ("上海", mkLocation "上海" (1214737 # 10000) (312304 # 10000) 8);
     ("广州", mkLocation "广州" (1132644 # 10000) (231291 # 10000) 8);
     ("深圳", mkLocation "深圳" (1140579 # 10000) (225431 # 10000) 8);
     ("天津", mkLocation "天津" (1171994 # 10000) (390851 # 10000) 8);
     ("重庆", mkLocation "重庆" (1065504 # 10000) (295630 # 10000) 8);
     ("杭州", mkLocation "杭州" (1201551 # 10000) (302741 # 10000) 8);
     ("南京", mkLocation "南京" (1187969 # 10000) (320603 # 10000) 8);
     ("武汉", mkLocation "武汉" (1143054 # 10000) (305928 # 10000) 8);
     ("成都", mkLocation "成都" (1040668 # 10000) (305728 # 10000) 8);
     ("西安", mkLocation "西安" (1089402 # 10000) (343416 # 10000) 8);
     ("长沙", mkLocation "长沙" (1129440 # 10000) (282282 # 10000) 8);
     ("郑州", mkLocation "郑州" (1136401 # 10000) (347466 # 10000) 8);
     ("济南", mkLocation "济南" (1171205 # 10000) (366512 # 10000) 8);
     ("青岛", mkLocation "青岛" (1203826 # 10000) (360671 # 10000) 8);
     ("大连", mkLocation "大连" (1216147 # 10000) (389140 # 10000) 8);
     ("沈阳", mkLocation "沈阳" (1234315 # 10000) (418057 # 10000) 8);
     ("哈尔滨", mkLocation "哈尔滨" (1266424 # 10000) (457576 # 10000) 8);
     ("长春", mkLocation "长春" (1253245 # 10000) (438868 # 10000) 8);
     ("石家庄", mkLocation "石家庄" (1144995 # 10000) (381006 # 10000) 8);
     ("太原", mkLocation "太原" (1125492 # 10000) (378706 # 10000) 8);
     ("呼和浩特", mkLocation "呼和浩特" (1117519 # 10000) (408414 # 10000) 8);
     ("乌鲁木齐", mkLocation "乌鲁木齐" (876168 # 10000) (438256 # 10000) 8);
     ("兰州", mkLocation "兰州" (1038343 # 10000) (360611 # 10000) 8);
     ("西宁", mkLocation "西宁" (1017787 # 10000) (366232 # 10000) 8);
     ("银川", mkLocation "银川" (1062309 # 10000) (384872 # 10000) 8);
     ("拉萨", mkLocation "拉萨" (911119 # 10000) (296625 # 10000) 8);
     ("昆明", mkLocation "昆明" (1028329 # 10000) (248801 # 10000) 8);
     ("贵阳", mkLocation "贵阳" (1067070 # 10000) (265982 # 10000) 8);
     ("南宁", mkLocation "南宁" (1083665 # 10000) (228170 # 10000) 8);
     ("海口", mkLocation "海口" (1103312 # 10000) (200442 # 10000) 8);
     ("福州", mkLocation "福州" (1192965 # 10000) (260745 # 10000) 8);
     ("南昌", mkLocation "南昌" (1158921 # 10000) (286765 # 10000) 8);
     ("合肥", mkLocation "合肥" (1172830 # 10000) (318612 # 10000) 8);
     ("香港", mkLocation "香港" (1141734 # 10000) (223193 # 10000) 8);
     ("澳门", mkLocation "澳门" (1135491 # 10000) (221987 # 10000) 8);
     ("台北", mkLocation "台北" (1215654 # 10000) (250330 # 10000) 8)].

(** [getLocationByCity(cityName)] *)
Definition getLocationByCity (cityName : string) : option Location :=
  CHINESE_CITIES !! cityName.

(** [x % y] on numbers with a fraction: the quotient is truncated. *)
Definition truncate (x : Q) : Z := Z.quot (Qnum x) (Zpos (Qden x)).

Definition fmod (x y : Q) : Q := x - y * inject_Z (truncate (x / y)).

(** [julianDay(year, month, day, hour, minute, second)] *)
Definition julianDay (year month day hour minute second : Z) : Q :=
  let '(year, month) :=
    if (month <=? 2)%Z then (year - 1, month + 12)%Z else (year, month) in
  let a := Js.floorDiv year 100 in
  let b := (2 - a + Js.floorDiv a 4)%Z in
  inject_Z (Qfloor ((36525 # 100) * inject_Z (year + 4716)))
  + inject_Z (Qfloor ((306001 # 10000) * inject_Z (month + 1)))
  + inject_Z day + inject_Z b - (15245 # 10)
  + (inject_Z hour + inject_Z minute / 60 + inject_Z second / 3600) / 24.

(** The standard meridian and the longitude correction, in minutes, as
    [calculateTrueSolarTime] computes them. *)
Definition standardLongitude (location : Location) : Q :=
  (timezone location - 8) * 15.

Definition longitudeCorrection (location : Location) : Q :=
  (longitude location - standardLongitude location) * 4.

(** The date variables after the block that handles a change of day:
    [trueYear], [trueMonth] and [trueDay]. *)
Definition dateCrossing (year month day trueHour : Z) : Z * Z * Z :=
  let trueYear := year in
  let trueMonth := month in
  let trueDay := day in
  if (trueHour >=? 24)%Z then (trueYear, trueMonth, (trueDay + 1)%Z)
  else if (trueHour <? 0)%Z then (trueYear, trueMonth, (trueDay - 1)%Z)
  else (trueYear, trueMonth, trueDay).

Section Trigonometry.

(** [Math.sin] and [Math.PI] are left abstract. *)
Variable sin : Q → Q.
Variable PI : Q.

(** [equationOfTime(jd)], in minutes. *)
Definition equationOfTime (jd : Q) : Q :=
  let t := (jd - 2451545) / 36525 in
  let l0 := (28046646 # 100000) + (3600076983 # 100000) * t
            + (3032 # 10000000) * t * t in
  let m := (35752911 # 100000) + (3599905029 # 100000) * t
           - (1537 # 10000000) * t * t in
  let e := (16708634 # 1000000000) - (42037 # 1000000000) * t
           - (1267 # 10000000000) * t * t in
  let c := ((1914602 # 1000000) - (4817 # 1000000) * t
            - (14 # 1000000) * t * t) * sin (m * PI / 180)
           + ((19993 # 1000000) - (101 # 1000000) * t)
             * sin (2 * m * PI / 180)
           + (289 # 1000000) * sin (3 * m * PI / 180) in
  let sunLon := l0 + c in
  let omega := (12504 # 100) - (1934136 # 1000) * t in
  let delta := - (24657 # 10000) * sin (2 * (sunLon - omega) * PI / 180)
               + (15303 # 10000) * sin (2 * sunLon * PI / 180)
               + - (2088 # 10000) * sin (sunLon * PI / 180) in
  delta.

(** [calculateTrueSolarTime(year, month, day, hour, minute, location)].
    [trueHour] is declared [const]; the assignments [trueHour -= 24] and
    [trueHour += 24] in the block that handles a change of day raise a
    [TypeError], after [trueDay] has been changed: [None]. *)
Definition calculateTrueSolarTime (year month day hour minute : Z)
    (location : Location) : option TrueSolarTime :=
  let jd := julianDay year month day hour minute 0 in
  let equationOfTime := equationOfTime jd in
  let longitudeCorrection := longitudeCorrection location in
  let totalCorrection := equationOfTime + longitudeCorrection in
  let totalMinutes :=
    inject_Z hour * 60 + inject_Z minute + totalCorrection in
  let trueHour := Qfloor (totalMinutes / 60) in
  let trueMinute := Qfloor (fmod totalMinutes 60) in
  let trueSecond := Qfloor (fmod totalMinutes 1 * 60) in
  let '(trueYear, trueMonth, trueDay) :=
    dateCrossing year month day trueHour in
  if ((trueHour >=? 24) || (trueHour <? 0))%Z then None
  else
    let date := Js.Date_new year (month - 1) day 0 0 in
    let isLeapYear :=
      ((Js.rem year 4 =? 0) && negb (Js.rem year 100 =? 0)
       || (Js.rem year 400 =? 0))%Z in
    Some {| year := trueYear;
            month := trueMonth;
            day := trueDay;
            hour := trueHour;
            minute := trueMinute;
            second := trueSecond;
            isLeapYear := isLeapYear;
            dayOfWeek := Js.getDay date;
            r_julianDay := jd;
            r_equationOfTime := equationOfTime;
            r_longitudeCorrection := longitudeCorrection;
            totalCorrection := totalCorrection |}.

End Trigonometry.

End Astro.

(* ===================================================================== *)
(** * [timezone-calculator.ts] *)
(* ===================================================================== *)

Module Tz.

Local Open Scope Q_scope.

(** [calculateLongitudeOffset(longitude)], in milliseconds. *)
Definition calculateLongitudeOffset (longitude : Q) : Q :=
  (longitude - 120) * 4 * 60 * 1000.

End Tz.

(* ===================================================================== *)
(** * Vocabulary of the statements *)
(* ===================================================================== *)

Module Terms.

Import Bazi.

(** ** Birth records and their validation *)

(** A complete birth record for noon of the civil date [y]-[m]-[d], with
    [m] in 1..12. *)
Definition bornOn (y m d : Z) : BirthInfo :=
  mkBirthInfo (Some (Js.Date_new y (m - 1) d 0 0))
    (Some "12:00") (Some "male") (Some "solar") None.

(** Decimal digits and their values. *)
Definition isDigit (c : ascii) : Prop := (48 <= nat_of_ascii c <= 57)%nat.

Definition digitValue (c : ascii) : Z := Z.of_nat (nat_of_ascii c) - 48.

(** [HH:MM] with two digits each, hours 00 to 23 and minutes 00 to 59. *)
Definition twoDigitTime (s : string) : Prop :=
  ∃ h1 h2 m1 m2,
    s = String h1 (String h2 (String ":" (String m1 (String m2 ""))))
    ∧ isDigit h1 ∧ isDigit h2 ∧ isDigit m1 ∧ isDigit m2
    ∧ 10 * digitValue h1 + digitValue h2 <= 23
    ∧ 10 * digitValue m1 + digitValue m2 <= 59.

(** [H:MM] with a single digit for the hour. *)
Definition oneDigitTime (s : string) : Prop :=
  ∃ h m1 m2,
    s = String h (String ":" (String m1 (String m2 "")))
    ∧ isDigit h ∧ isDigit m1 ∧ isDigit m2
    ∧ 10 * digitValue m1 + digitValue m2 <= 59.

(** The four conditions on a birth record. *)
Definition dateInRange (birthInfo : BirthInfo) : Prop :=
  ∃ d y, birthDate birthInfo = Some d ∧ Js.getFullYear d = Some y
         ∧ 1900 <= y <= 2100.

Definition timeIsHHMM (birthInfo : BirthInfo) : Prop :=
  ∃ t, birthTime birthInfo = Some t ∧ twoDigitTime t.

Definition timeAccepted (birthInfo : BirthInfo) : Prop :=
  ∃ t, birthTime birthInfo = Some t ∧ (twoDigitTime t ∨ oneDigitTime t).

Definition nonEmpty (v : option string) : Prop := ∃ s, v = Some s ∧ s ≠ "".

(** The same conditions as tests, to count the failed ones. *)
Definition dateCheck (birthInfo : BirthInfo) : bool :=
  match birthDate birthInfo with
  | Some d =>
      match Js.getFullYear d with
      | Some y => (1900 <=? y) && (y <=? 2100)
      | None => false
      end
  | None => false
  end.

Definition timeCheck (birthInfo : BirthInfo) : bool :=
  match birthTime birthInfo with
  | Some t => Js.test TIME_PATTERN t
  | None => false
  end.

Definition failedChecks (birthInfo : BirthInfo) : nat :=
  length (filter (λ passed, passed = false)
            [dateCheck birthInfo; timeCheck birthInfo;
             Js.truthy (gender birthInfo);
             Js.truthy (calendarType birthInfo)]).

(** The validation property with the strict [HH:MM] pattern, for a given
    record. *)
Definition valid_iff_strict (birthInfo : BirthInfo) : Prop :=
  valid (validateBirthInfo birthInfo) = true
  ↔ dateInRange birthInfo ∧ timeIsHHMM birthInfo
    ∧ nonEmpty (gender birthInfo) ∧ nonEmpty (calendarType birthInfo).

(** A record with an invalid date and the time [9:30]. *)
Definition looseRecord : BirthInfo :=
  mkBirthInfo (Some Js.InvalidDate) (Some "9:30") (Some "male") (Some "solar")
    None.

(** ** The ten gods *)

(** The relationship of a character to the day master:
    [TEN_GODS[dayMaster][ch]]. *)
Definition classify (dayMaster ch : string) : option string :=
  gods ← TEN_GODS !! dayMaster; gods !! ch.

(** The whole of [TEN_GODS] inspected: for every day master, a label for
    every stem, 比肩 for itself, nothing for any branch. *)
Definition tenGodsTableChecked : bool :=
  forallb (λ d,
    forallb (λ s, match classify d s with
                  | Some god => bool_decide (god ∈ TEN_GOD_LABELS)
                  | None => false
                  end) HEAVENLY_STEMS
    && bool_decide (classify d d = Some "比肩")
    && forallb (λ b, bool_decide (classify d b = None)) EARTHLY_BRANCHES)
  HEAVENLY_STEMS.

Local Open Scope Q_scope.

(** ** Charts and their element tally *)

(** A pillar over the fixed vocabulary. *)
Definition ValidPillar (p : Pillar) : Prop :=
  (∃ s, stem p = Some s ∧ s ∈ HEAVENLY_STEMS)
  ∧ (∃ b, branch p = Some b ∧ b ∈ EARTHLY_BRANCHES).

Definition ELEMENTS : list string := ["木"; "火"; "土"; "金"; "水"].

(** The sum of the five buckets. *)
Definition total (e : Elements) : Q :=
  wood e + fire e + earth e + metal e + water e.

(** The hidden stems of a pillar's branch, and their number in a chart. *)
Definition hiddenOf (p : Pillar) : list string :=
  default [] (at_key HIDDEN_STEMS (branch p)).

Definition hiddenCount (pillars : list Pillar) : nat :=
  length (concat (map hiddenOf pillars)).

(** What a pillar contributes: an element (if any) with its weight, for
    the stem, the branch and each hidden stem. *)
Definition contributions (p : Pillar) : list (option string * Q) :=
  (at_key STEM_ELEMENTS (stem p), 1)
  :: (at_key BRANCH_ELEMENTS (branch p), 1)
  :: map (λ s, (STEM_ELEMENTS !! s, 1 # 2)) (hiddenOf p).

(** The weight a list of contributions gives to one element. *)
Definition weight (el : string) (cs : list (option string * Q)) : Q :=
  foldr (λ c acc, (if decide (c.1 = Some el) then c.2 else 0) + acc) 0 cs.

Definition chartWeight (el : string) (pillars : list Pillar) : Q :=
  weight el (concat (map contributions pillars)).

(** The weight of all contributions together. *)
Definition sumWeights (cs : list (option string * Q)) : Q :=
  foldr (λ c acc, c.2 + acc) 0 cs.

(** The tally written as one left fold over contributions. *)
Definition tallyAll (e : Elements) (cs : list (option string * Q)) : Elements :=
  foldl (λ acc c, bump c.1 c.2 acc) e cs.

(** The chart of four 甲子 pillars. *)
Definition jiazi : Pillar := mkPillar (Some "甲") (Some "子").

(** The tally property with the constant 4.0, for a given chart. *)
Definition total_is_four_plus_hidden (pillars : list Pillar) : Prop :=
  ∃ e, calculateFiveElements pillars = Some e
       ∧ total e == 4 + (1 # 2) * inject_Z (Z.of_nat (hiddenCount pillars)).

(** ** Locations and true solar time *)

(** The longitude offset in minutes against the meridian of the zone,
    [(L - H * 15) * 4]. *)
Definition meridianOffset (location : Astro.Location) : Q :=
  (Astro.longitude location - Astro.timezone location * 15) * 4.

Definition beijing : Astro.Location :=
  Astro.mkLocation "北京" (1164074 # 10000) (399042 # 10000) 8.

Definition harbin : Astro.Location :=
  Astro.mkLocation "哈尔滨" (1266424 # 10000) (457576 # 10000) 8.

(** A place at 87.6 degrees east in the zone UTC+8. *)
Definition farWest : Astro.Location :=
  Astro.mkLocation "87.6E" (876 # 10) (438 # 10) 8.

(** The local [totalMinutes] and [trueHour] of [calculateTrueSolarTime]. *)
Definition totalMinutesAt (sin : Q → Q) (PI : Q)
    (year month day hour minute : Z) (location : Astro.Location) : Q :=
  inject_Z hour * 60 + inject_Z minute
  + (Astro.equationOfTime sin PI (Astro.julianDay year month day hour minute 0)
     + Astro.longitudeCorrection location).

Definition trueHourAt (sin : Q → Q) (PI : Q)
    (year month day hour minute : Z) (location : Astro.Location) : Z :=
  Qfloor (totalMinutesAt sin PI year month day hour minute location / 60).

(** A sine that stays within [-1, 1]. *)
Definition BoundedSine (sin : Q → Q) : Prop := ∀ x, -1 <= sin x <= 1.

(** A stand-in for [Math.sin] and one for [Math.PI], to instantiate the
    statements that hold for every bounded sine. *)
Definition flatSine : Q → Q := λ _, 0.

Definition PI_approx : Q := 314159 # 100000.

End Terms.

(* ===================================================================== *)
(** * Vocabulary of the further statements *)
(* ===================================================================== *)

Module Cycle.

Import Bazi.

(** The position of a pillar's stem among the ten stems and of its branch
    among the twelve branches, [-1] when it is none of them. *)
Definition stemIndexOf (p : Pillar) : Z := Js.indexOf HEAVENLY_STEMS (stem p).

Definition branchIndexOf (p : Pillar) : Z :=
  Js.indexOf EARTHLY_BRANCHES (branch p).

(** A branch that [HIDDEN_STEMS] knows. *)
Definition knownBranch (p : Pillar) : Prop :=
  is_Some (at_key HIDDEN_STEMS (branch p)).

(** The time value of local midnight 36 days before 1900-01-31, that is of
    1899-12-26. *)
Definition legacyDayOrigin : Z := (Js.MakeDay 1900 0 31 - 36) * Js.msPerDay.

End Cycle.

Module Compare.

Import Cycle.

(** The position of a branch of [CompleteBaZiCalculator] among [diZhi], and
    of an optional stem among [tianGan]. *)
Definition zhiIndexOf (zhi : string) : Z :=
  Js.indexOf Complete.diZhi (Some zhi).

Definition ganIndexOf (gan : option string) : Z :=
  Js.indexOf Complete.tianGan gan.

(** The hours of the day. *)
Definition HOURS : list Z := seqZ 0 24.

(** For one day stem and one hour: [CompleteBaZiCalculator] finds a slot
    and a stem, its branch is the one of [(hour + 1) / 2] modulo 12 and the
    one [bazi-calculator.ts] returns, its stem is at the position
    [2 * i + branch] modulo 10 for the position [i] of the day stem, and is
    not the stem [bazi-calculator.ts] returns. *)
Definition hourChecked (dayStem : string) (hour : Z) : bool :=
  match Complete.calculateHourPillar dayStem hour 0 with
  | Some r =>
      let legacy := Bazi.calculateHourPillar (Some dayStem) hour in
      bool_decide (zhiIndexOf (Complete.h_branch r) = (hour + 1) / 2 mod 12)
      && bool_decide (Bazi.branch legacy = Some (Complete.h_branch r))
      && bool_decide (is_Some (Complete.h_stem r))
      && bool_decide (ganIndexOf (Complete.h_stem r)
                      = (2 * ganIndexOf (Some dayStem)
                         + zhiIndexOf (Complete.h_branch r)) mod 10)
      && bool_decide (Bazi.stem legacy ≠ Complete.h_stem r)
      && bool_decide (Complete.h_branch r ∈ Complete.diZhi)
  | None => false
  end.

Definition hourTableChecked : bool :=
  forallb (λ dayStem, forallb (hourChecked dayStem) HOURS) Complete.tianGan.

(** The whole days from 1900-01-01 to the date, as [calculateDayPillar] of
    [CompleteBaZiCalculator] counts them. *)
Definition dayCount (year month day : Z) : Z :=
  Js.floorDiv
    (Complete.dateDiff (Js.Date_new year (month - 1) day 0 0)
                       (Js.Date_new 1900 0 1 0 0))
    (1000 * 60 * 60 * 24).

(** Years, months and day numbers for which [new Date(year, month - 1,
    day)] is a date that [Date] can hold, with room to spare. *)
Definition inDateRange (year month day : Z) : Prop :=
  -100000 <= year <= 100000 ∧ -120000 <= month <= 120000
  ∧ -50000000 <= day <= 50000000.

(** The stem of the month pillar of [CompleteBaZiCalculator] is missing
    for this year stem, month and day. *)
Definition monthStemMissing (yearStem : string) (month day : Z) : Prop :=
  (yearStem = "戊" ∨ yearStem = "癸")
  ∧ (month = 12 ∨ month = 1 ∨ (month = 2 ∧ day < 4)).

#[global] Instance monthStemMissing_dec yearStem month day :
  Decision (monthStemMissing yearStem month day) :=
  (_ : Decision ((yearStem = "戊" ∨ yearStem = "癸")
                 ∧ (month = 12 ∨ month = 1 ∨ (month = 2 ∧ day < 4)))).

(** For one year stem, month and day: [CompleteBaZiCalculator] returns a
    month pillar with a branch of the twelve, whose stem is missing exactly
    as [monthStemMissing] says, the pillar string then starting with
    [undefined]; and the branch of [bazi-calculator.ts] for that month is
    one place further in the cycle, or two on February 1 to 3. *)
Definition monthChecked (yearStem : string) (month day : Z) : bool :=
  match Complete.calculateMonthPillar 0 month day yearStem with
  | Some r =>
      bool_decide (Complete.m_branch r ∈ Complete.diZhi)
      && bool_decide (Complete.m_stem r = None
                      ↔ monthStemMissing yearStem month day)
      && bool_decide (Complete.m_stem r = None →
                      Complete.m_pillar r
                      = ("undefined" ++ Complete.m_branch r)%string)
      && bool_decide
           (branchIndexOf (Bazi.calculateMonthPillar 0 month)
            = (zhiIndexOf (Complete.m_branch r)
               + (if bool_decide (month = 2 ∧ day < 4) then 2 else 1)) mod 12)
  | None => false
  end.

Definition monthTableChecked : bool :=
  forallb (λ yearStem,
    forallb (λ month, monthChecked yearStem month 3
                      && monthChecked yearStem month 4) (seqZ 1 12))
    Complete.tianGan.

End Compare.

(** * [complete-bazi-calculator.ts]: the ten gods and [calculate] *)

Module CompleteCalculate.

(** The object [tenGods] that [calculateTenGods] starts from: an empty
    array under each of the ten names. *)
Definition emptyTenGods : gmap string (list string) :=
  list_to_map
    [("比肩", []); ("劫财", []); ("食神", []); ("伤官", []);
     ("正财", []); ("偏财", []); ("正官", []); ("七杀", []);
     ("正印", []); ("偏印", [])].

(** The table [relationships]: for each day master the stem under each
    name, the entries of a row in the order of the object literal. *)
Definition relationships : gmap string (list (string * string)) :=
  list_to_map
    [
     ("甲", [("比肩", "甲"); ("劫财", "乙"); ("食神", "丙"); ("伤官", "丁"); ("偏财", "戊"); ("正财", "己"); ("七杀", "庚"); ("正官", "辛"); ("偏印", "壬"); ("正印", "癸")]);
     ("乙", [("比肩", "乙"); ("劫财", "甲"); ("食神", "丁"); ("伤官", "丙"); ("偏财", "己"); ("正财", "戊"); ("七杀", "辛"); ("正官", "庚"); ("偏印", "癸"); ("正印", "壬")]);
     ("丙", [("比肩", "丙"); ("劫财", "丁"); ("食神", "戊"); ("伤官", "己"); ("偏财", "庚"); ("正财", "辛"); ("七杀", "壬"); ("正官", "癸"); ("偏印", "甲"); ("正印", "乙")]);
     ("丁", [("比肩", "丁"); ("劫财", "丙"); ("食神", "己"); ("伤官", "戊"); ("偏财", "辛"); ("正财", "庚"); ("七杀", "癸"); ("正官", "壬"); ("偏印", "乙"); ("正印", "甲")]);
     ("戊", [("比肩", "戊"); ("劫财", "己"); ("食神", "庚"); ("伤官", "辛"); ("偏财", "壬"); ("正财", "癸"); ("七杀", "甲"); ("正官", "乙"); ("偏印", "丙"); ("正印", "丁")]);
     ("己", [("比肩", "己"); ("劫财", "戊"); ("食神", "辛"); ("伤官", "庚"); ("偏财", "癸"); ("正财", "壬"); ("七杀", "乙"); ("正官", "甲"); ("偏印", "丁"); ("正印", "丙")]);
     ("庚", [("比肩", "庚"); ("劫财", "辛"); ("食神", "壬"); ("伤官", "癸"); ("偏财", "甲"); ("正财", "乙"); ("七杀", "丙"); ("正官", "丁"); ("偏印", "戊"); ("正印", "己")]);
     ("辛", [("比肩", "辛"); ("劫财", "庚"); ("食神", "癸"); ("伤官", "壬"); ("偏财", "乙"); ("正财", "甲"); ("七杀", "丁"); ("正官", "丙"); ("偏印", "己"); ("正印", "戊")]);
     ("壬", [("比肩", "壬"); ("劫财", "癸"); ("食神", "甲"); ("伤官", "乙"); ("偏财", "丙"); ("正财", "丁"); ("七杀", "戊"); ("正官", "己"); ("偏印", "庚"); ("正印", "辛")]);
     ("癸", [("比肩", "癸"); ("劫财", "壬"); ("食神", "乙"); ("伤官", "甲"); ("偏财", "丁"); ("正财", "丙"); ("七杀", "己"); ("正官", "戊"); ("偏印", "辛"); ("正印", "庚")])].

(** [calculateTenGods(dayMaster)]: for each key [god] of the row,
    [tenGods[god] = [relation[god]]]. *)
Definition calculateTenGods (dayMaster : option string)
  : gmap string (list string) :=
  let tenGods := emptyTenGods in
  let relation := Bazi.at_key relationships dayMaster in
  match relation with
  | Some relation =>
      foldl (λ tenGods '(god, stem), <[god := [stem]]> tenGods) tenGods relation
  | None => tenGods
  end.

(** The two tables of ten gods side by side, for one day master: the stem
    that [calculateTenGods] of [CompleteBaZiCalculator] lists under a name
    is a stem that [TEN_GODS] of [bazi-calculator.ts] gives that name, and
    the name [TEN_GODS] gives a stem is the name the stem is listed
    under. *)
Definition tenGodsChecked (dayMaster : string) : bool :=
  forallb (λ '(god, stems),
             match stems with
             | [stem] => bool_decide (Terms.classify dayMaster stem = Some god)
                         && bool_decide (stem ∈ Complete.tianGan)
             | _ => false
             end)
          (map_to_list (calculateTenGods (Some dayMaster)))
  && forallb (λ stem,
                match Terms.classify dayMaster stem with
                | Some god =>
                    bool_decide (calculateTenGods (Some dayMaster) !! god
                                 = Some [stem])
                | None => false
                end)
             Complete.tianGan
  && bool_decide (dom (calculateTenGods (Some dayMaster))
                  = list_to_set Bazi.TEN_GOD_LABELS).

Definition tenGodsTablesChecked : bool :=
  forallb tenGodsChecked Complete.tianGan.

(** ** Characters of a string

    A string seen as the array of its characters, as
    [analyzeFiveElements] sees it through [split('')]. *)

(** A run of UTF-8 continuation bytes. *)
Fixpoint allContinuation (s : string) : bool :=
  match s with
  | EmptyString => true
  | String c rest => Complete.continuation c && allContinuation rest
  end.

(** The encoding of one character: a byte that is not a continuation
    byte, followed by continuation bytes only. *)
Definition isChar (ch : string) : bool :=
  match ch with
  | EmptyString => false
  | String c rest => negb (Complete.continuation c) && allContinuation rest
  end.

(** The string is empty or starts at a character boundary. *)
Definition startsChar (s : string) : bool :=
  match s with
  | EmptyString => true
  | String c _ => negb (Complete.continuation c)
  end.

(** [chars.join('')] *)
Fixpoint join (chars : list string) : string :=
  match chars with
  | [] => ""
  | ch :: rest => ch ++ join rest
  end.

(** How many of the characters [wuXing] maps to this element, and how
    many it maps to anything. *)
Definition occurrences (element : string) (chars : list string) : nat :=
  length (filter (λ ch, Complete.wuXing !! ch = Some element) chars).

Definition known (chars : list string) : nat :=
  length (filter (λ ch, is_Some (Complete.wuXing !! ch)) chars).

End CompleteCalculate.

(** * [complete-bazi-calculator.ts]: [calculate] *)

Module CompleteChart.

Import CompleteCalculate.

(** The field [birthInfo] of the result. *)
Record BirthInfo := mkBirthInfo {
  originalDate : Js.Date;
  trueSolarTime : Js.Date;
  location : Astro.Location;
  useTrueSolarTime : bool
}.

Record BaziResult := mkBaziResult {
  yearPillar : Complete.YearPillar;
  monthPillar : Complete.MonthPillar;
  dayPillar : Complete.DayPillar;
  hourPillar : Complete.HourPillar;
  fiveElements : Bazi.Elements;
  tenGods : gmap string (list string);
  dayMaster : option string;
  birthInfo : BirthInfo
}.

Section Trigonometry.

Variable sin : Q → Q.
Variable PI : Q.

(** [calculate(year, month, day, timeStr, location, useTrueSolarTime)].
    The pair [parseTime(timeStr)] is given as the integers [originalHour]
    and [originalMinute].  A stem that is [undefined] reaches the tables
    [yearGanToMonthGan] and [dayGanToHourGan] as the key [undefined].
    [None] is the [Error] thrown by the [catch] block, whatever was
    caught. *)
Definition calculate (year month day : Z) (originalHour originalMinute : Z)
    (location : Astro.Location) (useTrueSolarTime : bool)
  : option BaziResult :=
  '(finalYear, finalMonth, finalDay, finalHour, finalMinute) ←
    (if useTrueSolarTime then
       trueSolarTime ←
         Astro.calculateTrueSolarTime sin PI year month day
           originalHour originalMinute location;
       Some (Astro.year trueSolarTime, Astro.month trueSolarTime,
             Astro.day trueSolarTime, Astro.hour trueSolarTime,
             Astro.minute trueSolarTime)
     else Some (year, month, day, originalHour, originalMinute));
  let yearResult := Complete.calculateYearPillar finalYear finalMonth finalDay in
  monthResult ←
    Complete.calculateMonthPillar finalYear finalMonth finalDay
      (Js.show (Complete.y_stem yearResult));
  let dayResult := Complete.calculateDayPillar finalYear finalMonth finalDay in
  hourResult ←
    Complete.calculateHourPillar (Js.show (Complete.d_stem dayResult))
      finalHour finalMinute;
  let fullBaZi :=
    Complete.fullBaZi (Complete.y_pillar yearResult)
      (Complete.m_pillar monthResult) (Complete.d_pillar dayResult)
      (Complete.h_pillar hourResult) in
  let fiveElements := Complete.analyzeFiveElements fullBaZi in
  Some {| yearPillar := yearResult;
          monthPillar := monthResult;
          dayPillar := dayResult;
          hourPillar := hourResult;
          fiveElements := fiveElements;
          tenGods := calculateTenGods (Complete.d_stem dayResult);
          dayMaster := Complete.d_stem dayResult;
          birthInfo :=
            {| originalDate :=
                 Js.Date_new year (month - 1) day originalHour originalMinute;
               trueSolarTime :=
                 Js.Date_new finalYear (finalMonth - 1) finalDay
                   finalHour finalMinute;
               location := location;
               useTrueSolarTime := useTrueSolarTime |} |}.

End Trigonometry.

(** The characters that the stem of a pillar string is made of: the stem,
    or the letters of [undefined]. *)
Definition stemChars (stem : option string) : list string :=
  match stem with
  | Some gan => [gan]
  | None => ["u"; "n"; "d"; "e"; "f"; "i"; "n"; "e"; "d"]
  end.

(** A chart as [calculate] assembles it from its four pillars. *)
Definition chartOf (year : Complete.YearPillar) (month : Complete.MonthPillar)
    (day : Complete.DayPillar) (hour : Complete.HourPillar) : string :=
  Complete.fullBaZi (Complete.y_pillar year) (Complete.m_pillar month)
    (Complete.d_pillar day) (Complete.h_pillar hour).

End CompleteChart.

(** * [bazi-calculator.ts]: the date [calculateBazi] works on *)

Module Birth.

(** [birthInfo.calibratedDate || birthInfo.birthDate] *)
Definition calculationDate (birthInfo : Bazi.BirthInfo) : option Js.Date :=
  match Bazi.calibratedDate birthInfo with
  | Some d => Some d
  | None => Bazi.birthDate birthInfo
  end.

(** The day number of a time value: whole days since 1970-01-01. *)
Definition dayNumber (ms : Z) : Z := ms / Js.msPerDay.

End Birth.

(** * [fortune-interpreter.ts]

    The tables are looked up with stems, with [undefined] and with the
    five category names, which are own keys or no keys at all. *)

Module Fortune.

Local Open Scope Q_scope.

(** [arr.join(sep)] and [arr.includes(x)] *)
Fixpoint join (sep : string) (arr : list string) : string :=
  match arr with
  | [] => ""
  | [x] => x
  | x :: rest => (x ++ sep ++ join sep rest)%string
  end.

Definition includes (arr : list string) (x : string) : bool :=
  bool_decide (x ∈ arr).

(** [Object.entries(elements)] and [Object.values(elements)] *)
Definition entries (elements : Bazi.Elements) : list (string * Q) :=
  [("wood", Bazi.wood elements); ("fire", Bazi.fire elements);
   ("earth", Bazi.earth elements); ("metal", Bazi.metal elements);
   ("water", Bazi.water elements)].

Definition values (elements : Bazi.Elements) : list Q := (entries elements).*2.

(** [a > b] and [a < b] on numbers. *)
Definition gt (a b : Q) : bool := negb (Qle_bool a b).

Definition lt (a b : Q) : bool := negb (Qle_bool b a).

(** [Math.max(...arr)] on an array that is not empty, and
    [Math.min(...arr)], which is [Infinity] ([None]) on the empty one. *)
Definition maximum (arr : list Q) : Q :=
  foldr (λ x acc, if Qle_bool acc x then x else acc) (default 0 (head arr)) arr.

Definition minimum (arr : list Q) : option Q :=
  match arr with
  | [] => None
  | x :: rest => Some (foldr (λ y acc, if Qle_bool y acc then y else acc) x rest)
  end.

Record DayMasterInfo := mkInfo {
  traits : list string;
  i_strengths : list string;
  i_challenges : list string
}.

Record Personality := mkPersonality {
  mainTraits : list string;
  strengths : list string;
  challenges : list string;
  keyCharacteristics : string
}.

Definition dayMasterTraits : gmap string DayMasterInfo :=
  list_to_map
    [
     ("甲", mkInfo ["独立"; "进取"; "领导力"; "正义感"]
        ["有决断力"; "勇于创新"; "乐于助人"]
        ["有时过于固执"; "容易冲动"]);
     ("乙", mkInfo ["温和"; "细腻"; "善解人意"; "适应力强"]
        ["善于协调"; "有耐心"; "艺术天赋"]
        ["容易犹豫不决"; "过于敏感"]);
     ("丙", mkInfo ["热情"; "开朗"; "创造力"; "表现欲"]
        ["积极乐观"; "感染力强"; "领导才能"]
        ["情绪起伏大"; "容易急躁"]);
     ("丁", mkInfo ["聪明"; "敏锐"; "洞察力"; "创造力"]
        ["思维敏捷"; "善于分析"; "有远见"]
        ["过于敏感"; "容易焦虑"]);
     ("戊", mkInfo ["稳重"; "可靠"; "责任感"; "耐心"]
        ["踏实肯干"; "有毅力"; "值得信赖"]
        ["有时过于保守"; "不够灵活"]);
     ("己", mkInfo ["温和"; "包容"; "协调力"; "耐心"]
        ["善于倾听"; "有同情心"; "适应力强"]
        ["容易优柔寡断"; "缺乏主见"]);
     ("庚", mkInfo ["果断"; "勇敢"; "正义感"; "领导力"]
        ["有魄力"; "敢于担当"; "执行力强"]
        ["过于刚强"; "不够圆融"]);
     ("辛", mkInfo ["精致"; "敏感"; "审美力"; "追求完美"]
        ["注重细节"; "有品味"; "追求完美"]
        ["过于挑剔"; "容易焦虑"]);
     ("壬", mkInfo ["智慧"; "包容"; "适应力"; "流动性"]
        ["思维活跃"; "善于变通"; "包容性强"]
        ["情绪多变"; "缺乏定力"]);
     ("癸", mkInfo ["智慧"; "直觉"; "敏感"; "创造力"]
        ["洞察力强"; "有创造力"; "直觉敏锐"]
        ["过于敏感"; "容易多虑"])].

(** The object after [||] in [dayMasterTraits[dayMaster] || { ... }]. *)
Definition defaultInfo : DayMasterInfo :=
  mkInfo ["平衡"; "中庸"] ["适应力强"] ["特色不明显"].

(** [if (cond) arr.push(x)] *)
Definition pushIf (cond : bool) (x : string) (arr : list string) : list string :=
  if cond then (arr ++ [x])%list else arr.

(** [generatePersonalityTraits(dayMaster, elements, strong, weak)];
    [elements] is not used. *)
Definition generatePersonalityTraits (dayMaster : option string)
    (strong weak : list string) : Personality :=
  let dayMasterInfo :=
    default defaultInfo (dayMasterTraits !! Js.show dayMaster) in
  let mainTraits := traits dayMasterInfo in
  let strengths := i_strengths dayMasterInfo in
  let challenges := i_challenges dayMasterInfo in
  let mainTraits := pushIf (includes strong "木") "有主见" mainTraits in
  let strengths := pushIf (includes strong "木") "有领导才能" strengths in
  let challenges := pushIf (includes weak "木") "容易缺乏自信" challenges in
  let mainTraits := pushIf (includes strong "火") "热情开朗" mainTraits in
  let strengths := pushIf (includes strong "火") "有感染力" strengths in
  let challenges := pushIf (includes weak "火") "缺乏激情" challenges in
  let mainTraits := pushIf (includes strong "土") "稳重可靠" mainTraits in
  let strengths := pushIf (includes strong "土") "值得信赖" strengths in
  let challenges := pushIf (includes weak "土") "缺乏安全感" challenges in
  let mainTraits := pushIf (includes strong "金") "果断决绝" mainTraits in
  let strengths := pushIf (includes strong "金") "执行力强" strengths in
  let challenges := pushIf (includes weak "金") "优柔寡断" challenges in
  let mainTraits := pushIf (includes strong "水") "智慧灵活" mainTraits in
  let strengths := pushIf (includes strong "水") "适应力强" strengths in
  let challenges := pushIf (includes weak "水") "思维固化" challenges in
  {| mainTraits := mainTraits;
     strengths := strengths;
     challenges := challenges;
     keyCharacteristics :=
       (Js.show dayMaster ++ "日主的你" ++ join "、" (take 2 mainTraits)
        ++ "，在" ++ join "和" (take 2 strengths)
        ++ "方面表现突出，但需要注意" ++ join "和" (take 2 challenges)
        ++ "的问题。")%string |}.

Record FortuneOverview := mkOverview {
  overallTrend : string;
  currentPhase : string;
  keyPoints : list string;
  warnings : list string
}.

(** [Math.max(...values) / Math.min(...values.filter(v => v > 0))]; with
    no positive value the minimum is [Infinity] and the quotient 0. *)
Definition balanceScore (elements : Bazi.Elements) : Q :=
  match minimum (filter (λ v, gt v 0 = true) (values elements)) with
  | Some least => maximum (values elements) / least
  | None => 0
  end.

(** [generateFortuneOverview(elements, strong, weak)] *)
Definition generateFortuneOverview (elements : Bazi.Elements)
    (strong weak : list string) : FortuneOverview :=
  let overallTrend :=
    if lt (balanceScore elements) 2 then
      "五行相对平衡，整体运势较为平稳，各方面发展比较均衡。"
    else if lt (balanceScore elements) 4 then
      "五行略有偏颇，但整体运势尚可，需要注意调节。"
    else "五行严重失衡，需要特别关注调节和改善。" in
  let keyPoints : list string := [] in
  let keyPoints :=
    if (0 <? length strong)%nat
    then (keyPoints ++ [(join "、" strong ++ "过旺，需要注意调节")%string])%list
    else keyPoints in
  let keyPoints :=
    if (0 <? length weak)%nat
    then (keyPoints ++ [(join "、" weak ++ "偏弱，需要加强")%string])%list
    else keyPoints in
  let keyPoints :=
    (keyPoints ++ ["保持积极心态，遇到困难时寻求专业指导"]
     ++ ["注意身体健康，保持良好作息习惯"])%list in
  {| overallTrend := overallTrend;
     currentPhase := "成长阶段";
     keyPoints := keyPoints;
     warnings := ["避免过于极端的行为和决策"; "注意人际关系中的沟通方式"] |}.

Record LifeStages := mkLifeStages {
  childhood : string;
  youth : string;
  middleAge : string;
  oldAge : string
}.

(** [generateLifeStages(dayMaster, elements)] *)
Definition generateLifeStages : LifeStages :=
  {| childhood := "童年时期较为平稳，家庭教育对性格形成有重要影响。";
     youth := "青少年时期开始展现个性特点，在学习和社交方面有明显表现。";
     middleAge := "中年时期是事业发展的关键阶段，需要把握好时机。";
     oldAge := "晚年生活相对安稳，注重身心健康和家庭和谐。" |}.

Record BasicInfo := mkBasicInfo {
  fourPillars : string;
  fiveElements : string;
  dayMaster : option string;
  missingElements : list string;
  strongElements : list string;
  weakElements : list string
}.

Record BasicInterpretation := mkBasic {
  basicInfo : BasicInfo;
  personality : Personality;
  fortuneOverview : FortuneOverview;
  lifeStages : LifeStages
}.

Record DetailedInterpretation := mkDetailed {
  category : string;
  title : string;
  summary : string;
  detailedAnalysis : string;
  timing : list string;
  advice : list string;
  luckyElements : list string;
  unluckyElements : list string
}.

(** The five categories of a question. *)
Definition CATEGORIES : list string :=
  ["wealth"; "marriage"; "career"; "health"; "academy"].

Definition interpretations : gmap string (gmap string DetailedInterpretation) :=
  list_to_map
    [
     ("wealth", list_to_map
        [("甲", mkDetailed "wealth" "财运分析"
           "您的财运总体较好，但需要注意投资风险。"
           "作为甲木日主，您具有开拓进取的精神，在财运方面有较强的赚钱能力。正财方面较为稳定，偏财方面有机会但需要谨慎把握。"
           ["25-35岁"; "45-55岁"]
           ["稳健投资"; "避免投机"; "积累人脉"]
           ["土"; "金"] ["木"; "水"]);
         ("乙", mkDetailed "wealth" "财运分析"
           "财运温和，适合稳健投资。"
           "乙木日主财运较为温和，适合从事稳定的工作。正财收入稳定，偏财方面机会较少但风险也低。"
           ["30-40岁"; "50-60岁"]
           ["稳健理财"; "长期投资"; "避免冒险"]
           ["火"; "土"] ["金"; "水"])]);
     ("marriage", list_to_map
        [("甲", mkDetailed "marriage" "姻缘分析"
           "感情运势较好，但需要注意沟通方式。"
           "甲木日主在感情中比较主动，但有时过于强势。需要学会倾听和理解对方的感受。"
           ["28-35岁"; "40-45岁"]
           ["多沟通交流"; "学会包容"; "保持耐心"]
           ["土"; "水"] ["木"; "火"]);
         ("乙", mkDetailed "marriage" "姻缘分析"
           "感情细腻，容易遇到温柔体贴的伴侣。"
           "乙木日主感情细腻，容易吸引温柔体贴的伴侣。在感情中需要更加主动表达自己的需求。"
           ["25-32岁"; "38-43岁"]
           ["主动表达"; "保持独立"; "珍惜眼前人"]
           ["水"; "金"] ["火"; "土"])]);
     ("career", list_to_map
        [("甲", mkDetailed "career" "事业分析"
           "适合创业或领导岗位，事业发展前景良好。"
           "甲木日主具有领导才能，适合从事管理、创业或需要决策能力的工作。事业发展有起伏但总体向上。"
           ["28-38岁"; "48-58岁"]
           ["发挥领导力"; "积累经验"; "团队合作"]
           ["土"; "金"] ["木"; "水"]);
         ("乙", mkDetailed "career" "事业分析"
           "适合创意类或服务类工作，事业发展平稳。"
           "乙木日主适合从事创意、艺术或服务类工作。事业发展较为平稳，需要耐心和坚持。"
           ["30-40岁"; "45-55岁"]
           ["发挥创意"; "提升技能"; "建立人脉"]
           ["火"; "水"] ["金"; "土"])])].

(** [getCategoryTitle], [getCategorySummary], [getCategoryTiming] and
    [getCategoryAdvice] *)
Definition getCategoryTitle (category : string) : string :=
  default "运势分析"
    ((list_to_map
    [
     ("wealth", "财运分析");
     ("marriage", "姻缘分析");
     ("career", "事业分析");
     ("health", "健康分析");
     ("academy", "学业分析")] : gmap string string) !! category).

Definition getCategorySummary (category : string) : string :=
  default "详细运势分析"
    ((list_to_map
    [
     ("wealth", "财运总体趋势分析，包括正财偏财和投资建议。");
     ("marriage", "感情运势分析，包括桃花运和婚姻时机。");
     ("career", "事业发展方向和建议，包括适合的职业类型。");
     ("health", "体质特点和需要注意的健康问题。");
     ("academy", "学习能力和考试运势分析。")] : gmap string string) !! category).

Definition getCategoryTiming (category : string) : list string :=
  default ["25-35岁"]
    ((list_to_map
    [
     ("wealth", ["25-35岁"; "45-55岁"]);
     ("marriage", ["25-35岁"; "35-45岁"]);
     ("career", ["28-38岁"; "40-50岁"]);
     ("health", ["注意30岁后"; "50岁后"]);
     ("academy", ["15-25岁"; "25-35岁"])] : gmap string (list string)) !! category).

Definition getCategoryAdvice (category : string) : list string :=
  default ["保持积极心态"]
    ((list_to_map
    [
     ("wealth", ["稳健投资"; "避免投机"; "积累人脉"]);
     ("marriage", ["多沟通交流"; "保持耐心"; "珍惜缘分"]);
     ("career", ["提升技能"; "积累经验"; "团队合作"]);
     ("health", ["规律作息"; "适量运动"; "定期体检"]);
     ("academy", ["制定计划"; "坚持学习"; "寻求帮助"])] : gmap string (list string)) !! category).

(** [getCategoryLuckyElements] and [getCategoryUnluckyElements]: both
    maps have the one key [wealth]. *)
Definition luckyMap : gmap string (gmap string (list string)) :=
  list_to_map
    [("wealth", list_to_map
    [
     ("甲", ["土"; "金"]);
     ("乙", ["火"; "土"]);
     ("丙", ["金"; "水"]);
     ("丁", ["水"; "金"]);
     ("戊", ["水"; "木"]);
     ("己", ["木"; "水"]);
     ("庚", ["木"; "火"]);
     ("辛", ["火"; "木"]);
     ("壬", ["火"; "土"]);
     ("癸", ["土"; "火"])])].

Definition unluckyMap : gmap string (gmap string (list string)) :=
  list_to_map
    [("wealth", list_to_map
    [
     ("甲", ["木"; "水"]);
     ("乙", ["金"; "水"]);
     ("丙", ["火"; "木"]);
     ("丁", ["木"; "火"]);
     ("戊", ["土"; "火"]);
     ("己", ["火"; "土"]);
     ("庚", ["金"; "土"]);
     ("辛", ["土"; "金"]);
     ("壬", ["水"; "金"]);
     ("癸", ["金"; "水"])])].

Definition getCategoryLuckyElements (category : string)
    (dayMaster : option string) : list string :=
  default ["土"; "金"]
    (byDayMaster ← luckyMap !! category; byDayMaster !! Js.show dayMaster).

Definition getCategoryUnluckyElements (category : string)
    (dayMaster : option string) : list string :=
  default ["木"; "水"]
    (byDayMaster ← unluckyMap !! category; byDayMaster !! Js.show dayMaster).

Section Numbers.

(** How a number is written in a template literal is left abstract. *)
Variable showNumber : Q → string.

(** [generateBasicInterpretation(baziData)] *)
Definition generateBasicInterpretation (baziData : Bazi.BaziResult)
  : BasicInterpretation :=
  let dayMaster := Bazi.dayMaster baziData in
  let elements := Bazi.fiveElements baziData in
  let total := foldl (λ sum val, sum + val) 0 (values elements) in
  let avg := total / 5 in
  let strongElements :=
    (filter (λ entry, gt entry.2 (avg * (12 # 10)) = true) (entries elements)).*1 in
  let weakElements :=
    (filter (λ entry, lt entry.2 (avg * (8 # 10)) = true) (entries elements)).*1 in
  let missingElements :=
    (filter (λ entry, Qeq_bool entry.2 0 = true) (entries elements)).*1 in
  let personality :=
    generatePersonalityTraits dayMaster strongElements weakElements in
  let fortuneOverview :=
    generateFortuneOverview elements strongElements weakElements in
  let lifeStages := generateLifeStages in
  let pillar p := (Js.show (Bazi.stem p) ++ Js.show (Bazi.branch p))%string in
  {| basicInfo :=
       {| fourPillars :=
            (pillar (Bazi.yearPillar baziData) ++ " "
             ++ pillar (Bazi.monthPillar baziData) ++ " "
             ++ pillar (Bazi.dayPillar baziData) ++ " "
             ++ pillar (Bazi.hourPillar baziData))%string;
          fiveElements :=
            ("木" ++ showNumber (Bazi.wood elements)
             ++ " 火" ++ showNumber (Bazi.fire elements)
             ++ " 土" ++ showNumber (Bazi.earth elements)
             ++ " 金" ++ showNumber (Bazi.metal elements)
             ++ " 水" ++ showNumber (Bazi.water elements))%string;
          dayMaster := dayMaster;
          missingElements := missingElements;
          strongElements := strongElements;
          weakElements := weakElements |};
     personality := personality;
     fortuneOverview := fortuneOverview;
     lifeStages := lifeStages |}.

(** [getCategoryAnalysis(category, dayMaster, elements)] *)
Definition getCategoryAnalysis (category : string) (dayMaster : option string)
    (elements : Bazi.Elements) : string :=
  default "根据个人八字特点进行详细分析。"
    ((list_to_map
        [("wealth",
          "作为" ++ Js.show dayMaster
          ++ "日主，您的财运特点与五行平衡相关。当前五行分布为：木"
          ++ showNumber (Bazi.wood elements)
          ++ "、火" ++ showNumber (Bazi.fire elements)
          ++ "、土" ++ showNumber (Bazi.earth elements)
          ++ "、金" ++ showNumber (Bazi.metal elements)
          ++ "、水" ++ showNumber (Bazi.water elements) ++ "。");
         ("marriage",
          Js.show dayMaster
          ++ "日主的感情特点受到五行影响，需要根据个人情况调整相处方式。");
         ("career",
          Js.show dayMaster
          ++ "日主的事业发展需要考虑五行平衡，选择适合的职业方向。");
         ("health",
          Js.show dayMaster
          ++ "日主的体质特点与五行相关，需要注意相应的健康问题。");
         ("academy",
          Js.show dayMaster
          ++ "日主的学习能力受到五行影响，需要采用适合的学习方法。")]%string
      : gmap string string) !! category).

(** [generateDetailedInterpretation(baziData, category)] *)
Definition generateDetailedInterpretation (baziData : Bazi.BaziResult)
    (category : string) : DetailedInterpretation :=
  let dayMaster := Bazi.dayMaster baziData in
  let elements := Bazi.fiveElements baziData in
  let defaultInterpretation :=
    {| category := category;
       title := getCategoryTitle category;
       summary := getCategorySummary category;
       detailedAnalysis := getCategoryAnalysis category dayMaster elements;
       timing := getCategoryTiming category;
       advice := getCategoryAdvice category;
       luckyElements := getCategoryLuckyElements category dayMaster;
       unluckyElements := getCategoryUnluckyElements category dayMaster |} in
  default defaultInterpretation
    (byDayMaster ← interpretations !! category;
     byDayMaster !! Js.show dayMaster).

Record CompleteInterpretation := mkComplete {
  basic : BasicInterpretation;
  detailed : list DetailedInterpretation
}.

(** The questions that [generateCompleteInterpretation] answers: those of
    the request, or the five categories when there is none. *)
Definition asked (questions : option (list string)) : list string :=
  match questions with
  | Some (question :: rest) => question :: rest
  | _ => CATEGORIES
  end.

(** [generateCompleteInterpretation(request)] *)
Definition generateCompleteInterpretation (baziData : Bazi.BaziResult)
    (questions : option (list string)) : CompleteInterpretation :=
  {| basic := generateBasicInterpretation baziData;
     detailed :=
       foldl (λ detailed question,
                (detailed
                 ++ [generateDetailedInterpretation baziData question])%list)
             [] (asked questions) |}.

End Numbers.

(** The keys of the five buckets. *)
Definition BUCKETS : list string := ["wood"; "fire"; "earth"; "metal"; "water"].

(** An answer to a question: it carries the category of the question, and
    its lucky and unlucky elements are two each, among the five elements,
    with no lucky element that is also unlucky. *)
Definition answerChecked (question : string) (d : DetailedInterpretation)
  : bool :=
  bool_decide (category d = question)
  && bool_decide (length (luckyElements d) = 2%nat)
  && bool_decide (length (unluckyElements d) = 2%nat)
  && forallb (λ e, bool_decide (e ∈ Terms.ELEMENTS)
                   && negb (includes (unluckyElements d) e))
             (luckyElements d)
  && forallb (λ e, bool_decide (e ∈ Terms.ELEMENTS)) (unluckyElements d).

(** A chart with the day master 甲 and more wood and water than the
    other elements. *)
Definition woodChart : Bazi.BaziResult :=
  Bazi.mkBaziResult Terms.jiazi Terms.jiazi Terms.jiazi Terms.jiazi
    (Bazi.mkElements 4 0 0 0 6) ∅ (Some "甲"%string).

End Fortune.

(** * [timezone-calculator.ts]: the calibrated birth time *)

Module Calibration.

Import Birth.

Local Open Scope Q_scope.

Record LocationData := mkLocationData {
  name : string;
  country : string;
  latitude : Q;
  longitude : Q;
  timezone : string;
  utcOffset : Z
}.

Record TimeCalibration := mkTimeCalibration {
  originalTime : Js.Date;
  timezoneOffset : option Q;
  solarTimeOffset : option Q;
  calibratedTime : Js.Date;
  location : LocationData
}.

Definition CHINA_CITIES : list LocationData :=
  [
   mkLocationData "北京" "中国" (399042 # 10000) (1164074 # 10000) "Asia/Shanghai" 480;
   mkLocationData "上海" "中国" (312304 # 10000) (1214737 # 10000) "Asia/Shanghai" 480;
   mkLocationData "广州" "中国" (231291 # 10000) (1132644 # 10000) "Asia/Shanghai" 480;
   mkLocationData "深圳" "中国" (223193 # 10000) (1141694 # 10000) "Asia/Shanghai" 480;
   mkLocationData "成都" "中国" (305728 # 10000) (1040668 # 10000) "Asia/Shanghai" 480;
   mkLocationData "杭州" "中国" (302741 # 10000) (1201551 # 10000) "Asia/Shanghai" 480;
   mkLocationData "武汉" "中国" (305928 # 10000) (1143055 # 10000) "Asia/Shanghai" 480;
   mkLocationData "西安" "中国" (343416 # 10000) (1089398 # 10000) "Asia/Shanghai" 480;
   mkLocationData "重庆" "中国" (295630 # 10000) (1065516 # 10000) "Asia/Shanghai" 480;
   mkLocationData "南京" "中国" (320603 # 10000) (1187969 # 10000) "Asia/Shanghai" 480;
   mkLocationData "天津" "中国" (393434 # 10000) (1173616 # 10000) "Asia/Shanghai" 480;
   mkLocationData "苏州" "中国" (312990 # 10000) (1205853 # 10000) "Asia/Shanghai" 480;
   mkLocationData "青岛" "中国" (360671 # 10000) (1203826 # 10000) "Asia/Shanghai" 480;
   mkLocationData "沈阳" "中国" (418057 # 10000) (1234315 # 10000) "Asia/Shanghai" 480;
   mkLocationData "大连" "中国" (389140 # 10000) (1216147 # 10000) "Asia/Shanghai" 480;
   mkLocationData "厦门" "中国" (244798 # 10000) (1180894 # 10000) "Asia/Shanghai" 480;
   mkLocationData "哈尔滨" "中国" (458038 # 10000) (1265340 # 10000) "Asia/Shanghai" 480;
   mkLocationData "济南" "中国" (366512 # 10000) (1171201 # 10000) "Asia/Shanghai" 480;
   mkLocationData "郑州" "中国" (347466 # 10000) (1136254 # 10000) "Asia/Shanghai" 480].

(** [DateTime.fromJSDate(date).ordinal]: the day of the year of the local
    date, 1 on January 1. *)
Definition ordinal (ms : Z) : Z :=
  (dayNumber ms
   - Js.daysFromCivil (Js.civilFromDays (dayNumber ms)).1.1 1 1 + 1)%Z.

(** [new Date(value)] for a number: [NaN] and a value beyond 8.64e15 give
    an invalid date, and a fraction of a millisecond is cut off. *)
Definition Date_of_number (value : option Q) : Js.Date :=
  match value with
  | None => Js.InvalidDate
  | Some v =>
      if Qle_bool (- (8640000000000000)) v && Qle_bool v 8640000000000000
      then Js.DateAt (Astro.truncate v)
      else Js.InvalidDate
  end.

Section Luxon.

(** [Math.sin], [Math.cos] and [Math.PI] are left abstract, and so is the
    offset in minutes that [luxon] finds for a zone name at an instant
    ([NaN] for a name it does not know). *)
Variable sin cos : Q → Q.
Variable PI : Q.
Variable zoneOffset : string → Z → option Z.

(** [calculateEquationOfTime(date, longitude)], in milliseconds;
    [longitude] is not used. *)
Definition calculateEquationOfTime (date : Js.Date) : option Q :=
  ms ← Js.getTime date;
  let dayOfYear := ordinal ms in
  let B := 2 * PI * (inject_Z dayOfYear - 81) / 365 in
  let equationOfTime :=
    (987 # 100) * sin (2 * B) - (753 # 100) * cos B - (15 # 10) * sin B in
  Some (equationOfTime * 60 * 1000).

(** [calculateSolarTimeAdjustment(date, longitude)] *)
Definition calculateSolarTimeAdjustment (date : Js.Date) (longitude : Q)
  : option Q :=
  equationOfTime ← calculateEquationOfTime date;
  let longitudeOffset := Tz.calculateLongitudeOffset longitude in
  Some (equationOfTime + longitudeOffset).

(** [getCalibratedBirthTime(birthDate, location)] *)
Definition getCalibratedBirthTime (birthDate : Js.Date)
    (location : LocationData) : TimeCalibration :=
  let originalTime := birthDate in
  let timezoneOffset :=
    ms ← Js.getTime birthDate;
    offset ← zoneOffset (timezone location) ms;
    Some (inject_Z offset * 60 * 1000) in
  let solarTimeOffset :=
    calculateSolarTimeAdjustment birthDate (longitude location) in
  let totalOffset :=
    a ← timezoneOffset; b ← solarTimeOffset; Some (a + b) in
  let calibratedTime :=
    Date_of_number
      (t ← Js.getTime originalTime; o ← totalOffset; Some (inject_Z t + o)) in
  {| originalTime := originalTime;
     timezoneOffset := timezoneOffset;
     solarTimeOffset := solarTimeOffset;
     calibratedTime := calibratedTime;
     location := location |}.

(** [CompleteBirthData] and [calculateBaziWithTimezone(birthData)] of the
    timezone integration; the birth time is given as [hours] and
    [minutes], as for [calculateBazi], and [None] is its exception. *)
Record CompleteBirthData := mkCompleteBirthData {
  birthDate : Js.Date;
  birthTime : string;
  gender : string;
  calendarType : string;
  birthLocation : LocationData
}.

Record Metadata := mkMetadata {
  m_originalTime : Js.Date;
  m_calibratedTime : Js.Date;
  m_timezoneOffset : option Q;
  m_solarTimeOffset : option Q;
  m_location : LocationData
}.

Record Calibrated := mkCalibrated {
  bazi : Bazi.BaziResult;
  calibration : TimeCalibration;
  metadata : Metadata
}.

Definition calculateBaziWithTimezone (birthData : CompleteBirthData)
    (hours minutes : Z) : option Calibrated :=
  let timeCalibration :=
    getCalibratedBirthTime (birthDate birthData) (birthLocation birthData) in
  baziResult ←
    Bazi.calculateBazi
      (Bazi.mkBirthInfo (Some (birthDate birthData))
         (Some (birthTime birthData)) (Some (gender birthData))
         (Some (calendarType birthData))
         (Some (calibratedTime timeCalibration)))
      hours minutes;
  Some {| bazi := baziResult;
          calibration := timeCalibration;
          metadata :=
            {| m_originalTime := originalTime timeCalibration;
               m_calibratedTime := calibratedTime timeCalibration;
               m_timezoneOffset := timezoneOffset timeCalibration;
               m_solarTimeOffset := solarTimeOffset timeCalibration;
               m_location := location timeCalibration |} |}.

End Luxon.

(** The birth record of [calculateBaziWithTimezone] without the calibrated
    date. *)
Definition uncalibrated (birthData : CompleteBirthData) : Bazi.BirthInfo :=
  Bazi.mkBirthInfo (Some (birthDate birthData)) (Some (birthTime birthData))
    (Some (gender birthData)) (Some (calendarType birthData)) None.

(** A zone table that knows the offset of 480 minutes only. *)
Definition eightHours : string → Z → option Z := λ _ _, Some 480%Z.

Definition beijing : LocationData :=
  mkLocationData "北京" "中国" (399042 # 10000) (1164074 # 10000)
    "Asia/Shanghai" 480.

(** A birth in Beijing at 09:00 on 2024-05-15. *)
Definition morningBirth : CompleteBirthData :=
  mkCompleteBirthData (Js.Date_new 2024 4 15 9 0) "09:00" "male" "solar"
    beijing.

End Calibration.

(* ===================================================================== *)
(** * The runtime model on known values *)
(* ===================================================================== *)

Section Runtime.

(** Day numbers of well-known dates, and the way back. *)
Example day_numbers :
  Js.daysFromCivil 1970 1 1 = 0
  ∧ Js.daysFromCivil 1900 1 1 = -25567
  ∧ Js.daysFromCivil 2000 3 1 = 11017
  ∧ Js.civilFromDays (-25567) = (1900, 1, 1)
  ∧ Js.civilFromDays 11016 = (2000, 2, 29)
  ∧ Js.civilFromDays 47846 = (2100, 12, 31).
Proof. repeat split. Qed.

(** [new Date(1990, 4, 15, 14, 30)] is a Tuesday in May 1990, and a day
    past the end of a month rolls over as in JavaScript. *)
Example date_fields :
  Js.getFullYear (Js.Date_new 1990 4 15 14 30) = Some 1990
  ∧ Js.getMonth (Js.Date_new 1990 4 15 14 30) = Some 4
  ∧ Js.getHours (Js.Date_new 1990 4 15 14 30) = Some 14
  ∧ Js.getDay (Js.Date_new 1990 4 15 14 30) = Some 2
  ∧ Js.Date_new 2024 0 32 0 0 = Js.Date_new 2024 1 1 0 0
  ∧ Js.getFullYear Js.InvalidDate = None.
Proof. repeat split. Qed.

(** The remainder keeps the sign of the dividend, and an index below zero
    finds nothing. *)
Example remainder_and_index :
  Js.rem (-4) 10 = -4 ∧ Js.rem (-12) 12 = 0 ∧ Js.rem 13 12 = 1
  ∧ Js.index Bazi.HEAVENLY_STEMS (-4) = None
  ∧ Js.index Bazi.HEAVENLY_STEMS 6 = Some "庚"
  ∧ Js.index Bazi.HEAVENLY_STEMS 10 = None.
Proof. repeat split. Qed.

(** The time pattern on a few strings. *)
Example time_pattern_samples :
  Js.test Bazi.TIME_PATTERN "23:59" = true
  ∧ Js.test Bazi.TIME_PATTERN "00:00" = true
  ∧ Js.test Bazi.TIME_PATTERN "9:30" = true
  ∧ Js.test Bazi.TIME_PATTERN "24:00" = false
  ∧ Js.test Bazi.TIME_PATTERN "12:60" = false
  ∧ Js.test Bazi.TIME_PATTERN "12:3" = false
  ∧ Js.test Bazi.TIME_PATTERN "12:30 " = false
  ∧ Js.test Bazi.TIME_PATTERN "" = false.
Proof. repeat split. Qed.

End Runtime.

(* ===================================================================== *)
(** * The element tally *)
(* ===================================================================== *)

Section ElementTally.

Import Bazi Terms.
Open Scope Q_scope.

Lemma stem_in_vocabulary_cases (P : string → Prop) :
  P "甲" → P "乙" → P "丙" → P "丁" → P "戊" →
  P "己" → P "庚" → P "辛" → P "壬" → P "癸" →
  ∀ s, s ∈ HEAVENLY_STEMS → P s.
Proof.
  intros ? ? ? ? ? ? ? ? ? ? s Hs. unfold HEAVENLY_STEMS in Hs.
  repeat (apply elem_of_cons in Hs as [-> | Hs]; [assumption |]).
  by apply elem_of_nil in Hs.
Qed.

Lemma branch_in_vocabulary_cases (P : string → Prop) :
  P "子" → P "丑" → P "寅" → P "卯" → P "辰" → P "巳" →
  P "午" → P "未" → P "申" → P "酉" → P "戌" → P "亥" →
  ∀ b, b ∈ EARTHLY_BRANCHES → P b.
Proof.
  intros ? ? ? ? ? ? ? ? ? ? ? ? b Hb. unfold EARTHLY_BRANCHES in Hb.
  repeat (apply elem_of_cons in Hb as [-> | Hb]; [assumption |]).
  by apply elem_of_nil in Hb.
Qed.

(** Every stem, and every branch, has one of the five elements. *)
Lemma stem_element_defined s :
  s ∈ HEAVENLY_STEMS → ∃ el, STEM_ELEMENTS !! s = Some el ∧ el ∈ ELEMENTS.
Proof.
  revert s. apply stem_in_vocabulary_cases;
    (eexists; split; [vm_compute; reflexivity | unfold ELEMENTS; set_solver]).
Qed.

Lemma branch_element_defined b :
  b ∈ EARTHLY_BRANCHES → ∃ el, BRANCH_ELEMENTS !! b = Some el ∧ el ∈ ELEMENTS.
Proof.
  revert b. apply branch_in_vocabulary_cases;
    (eexists; split; [vm_compute; reflexivity | unfold ELEMENTS; set_solver]).
Qed.

(** Every branch has between one and three hidden stems, all of them
    stems. *)
Lemma hidden_stems_defined b :
  b ∈ EARTHLY_BRANCHES →
  ∃ hs, HIDDEN_STEMS !! b = Some hs
        ∧ (1 <= length hs <= 3)%nat
        ∧ Forall (λ s, s ∈ HEAVENLY_STEMS) hs.
Proof.
  revert b. apply branch_in_vocabulary_cases;
    (eexists; split; [vm_compute; reflexivity |];
     split; [simpl; lia |];
     repeat constructor; unfold HEAVENLY_STEMS; set_solver).
Qed.

(** One step of the [if]/[else if] chain, bucket by bucket. *)
Lemma bump_buckets x w e :
  wood (bump x w e) == wood e + (if decide (x = Some "木") then w else 0)
  ∧ fire (bump x w e) == fire e + (if decide (x = Some "火") then w else 0)
  ∧ earth (bump x w e) == earth e + (if decide (x = Some "土") then w else 0)
  ∧ metal (bump x w e) == metal e + (if decide (x = Some "金") then w else 0)
  ∧ water (bump x w e) == water e + (if decide (x = Some "水") then w else 0).
Proof.
  unfold bump.
  repeat case_decide; subst; simpl; try discriminate;
    repeat split; ring.
Qed.

Lemma tallyAll_buckets cs : ∀ e,
  wood (tallyAll e cs) == wood e + weight "木" cs
  ∧ fire (tallyAll e cs) == fire e + weight "火" cs
  ∧ earth (tallyAll e cs) == earth e + weight "土" cs
  ∧ metal (tallyAll e cs) == metal e + weight "金" cs
  ∧ water (tallyAll e cs) == water e + weight "水" cs.
Proof.
  induction cs as [| c cs IH]; intros e; simpl.
  - repeat split; ring.
  - destruct (IH (bump c.1 c.2 e)) as (Hw & Hf & He & Hm & Ha).
    destruct (bump_buckets c.1 c.2 e) as (Bw & Bf & Be & Bm & Ba).
    unfold tallyAll in *.
    rewrite Hw, Hf, He, Hm, Ha, Bw, Bf, Be, Bm, Ba.
    repeat split; ring.
Qed.

Lemma tallyPillar_contributions e p :
  ValidPillar p → tallyPillar e p = Some (tallyAll e (contributions p)).
Proof.
  intros [_ (b & Hb & Hin)].
  destruct (hidden_stems_defined b Hin) as (hs & Hhs & _).
  unfold tallyPillar, contributions, hiddenOf, tallyAll.
  rewrite Hb. cbn [at_key mbind option_bind]. rewrite Hhs.
  cbn [mbind option_bind default id foldl fst snd]. f_equal. clear Hhs.
  generalize (bump (BRANCH_ELEMENTS !! b) 1
                (bump (at_key STEM_ELEMENTS (stem p)) 1 e)).
  induction hs as [| h hs IH]; intros acc; cbn [foldl map fst snd];
    [reflexivity | apply IH].
Qed.

Lemma tallyAll_app e cs1 cs2 :
  tallyAll e (cs1 ++ cs2) = tallyAll (tallyAll e cs1) cs2.
Proof. unfold tallyAll. apply foldl_app. Qed.

Lemma tallyPillars_contributions pillars : ∀ e,
  Forall ValidPillar pillars →
  tallyPillars e pillars
  = Some (tallyAll e (concat (map contributions pillars))).
Proof.
  induction pillars as [| p ps IH]; intros e Hv; simpl.
  - reflexivity.
  - inversion Hv as [| ? ? Hp Hps]; subst.
    rewrite (tallyPillar_contributions e p Hp). simpl.
    rewrite (IH _ Hps). by rewrite tallyAll_app.
Qed.

(** When every contribution names one of the five elements, the five
    weights add up to the weight of all contributions. *)
Lemma weights_add_up cs :
  Forall (λ c, ∃ el, c.1 = Some el ∧ el ∈ ELEMENTS) cs →
  weight "木" cs + weight "火" cs + weight "土" cs + weight "金" cs
  + weight "水" cs == sumWeights cs.
Proof.
  induction 1 as [| [x w] cs (el & Hx & Hel) _ IH]; simpl.
  - ring.
  - simpl in Hx. subst x. rewrite <- IH. unfold ELEMENTS in Hel.
    repeat (apply elem_of_cons in Hel as [-> | Hel];
            [repeat case_decide; try congruence; ring |]).
    by apply elem_of_nil in Hel.
Qed.

Lemma contributions_elements p :
  ValidPillar p →
  Forall (λ c, ∃ el, c.1 = Some el ∧ el ∈ ELEMENTS) (contributions p).
Proof.
  intros [(s & Hs & Hsin) (b & Hb & Hbin)].
  destruct (hidden_stems_defined b Hbin) as (hs & Hhs & _ & Hall).
  unfold contributions, hiddenOf. rewrite Hs, Hb.
  cbn [at_key mbind option_bind]. rewrite Hhs. cbn [default id].
  constructor; [apply stem_element_defined, Hsin |].
  constructor; [apply branch_element_defined, Hbin |]. clear Hhs.
  induction Hall as [| h hs' Hh _ IH]; simpl; constructor;
    [apply stem_element_defined, Hh | apply IH].
Qed.

Lemma sumWeights_cons c cs : sumWeights (c :: cs) = c.2 + sumWeights cs.
Proof. reflexivity. Qed.

Lemma sumWeights_app cs1 cs2 :
  sumWeights (cs1 ++ cs2) == sumWeights cs1 + sumWeights cs2.
Proof.
  induction cs1 as [| c cs IH]; simpl; [ring | rewrite IH; ring].
Qed.

Lemma sumWeights_contributions p :
  sumWeights (contributions p)
  == 2 + (1 # 2) * inject_Z (Z.of_nat (length (hiddenOf p))).
Proof.
  unfold contributions. rewrite !sumWeights_cons. cbn [snd].
  induction (hiddenOf p) as [| h hs IH]; [reflexivity |].
  cbn [map length]. rewrite sumWeights_cons. cbn [snd].
  rewrite Nat2Z.inj_succ, <- Z.add_1_r, inject_Z_plus.
  change (inject_Z 1) with 1. lra.
Qed.

Lemma sumWeights_chart pillars :
  sumWeights (concat (map contributions pillars))
  == 2 * inject_Z (Z.of_nat (length pillars))
     + (1 # 2) * inject_Z (Z.of_nat (hiddenCount pillars)).
Proof.
  unfold hiddenCount.
  induction pillars as [| p ps IH]; [reflexivity |].
  cbn [map concat length].
  rewrite sumWeights_app, sumWeights_contributions, IH, length_app.
  rewrite !Nat2Z.inj_succ, Nat2Z.inj_add, <- Z.add_1_r, !inject_Z_plus.
  simpl. ring.
Qed.

Lemma hiddenOf_bounds p :
  ValidPillar p → (1 <= length (hiddenOf p) <= 3)%nat.
Proof.
  intros [_ (b & Hb & Hbin)].
  destruct (hidden_stems_defined b Hbin) as (hs & Hhs & Hlen & _).
  unfold hiddenOf. rewrite Hb. cbn [at_key mbind option_bind]. by rewrite Hhs.
Qed.

Lemma jiazi_valid : ValidPillar jiazi.
Proof.
  split; eexists; (split; [reflexivity |]).
  - unfold HEAVENLY_STEMS. set_solver.
  - unfold EARTHLY_BRANCHES. set_solver.
Qed.

(** C2, as the code has it.  For every chart of four pillars over the
    fixed vocabulary, [calculateFiveElements] returns a histogram in which
    each bucket is the weight of its element, counting 1 for each stem,
    1 for each branch and 1/2 for each hidden stem; the five buckets add up
    to 8 + 1/2 * (number of hidden stems of the four branches), and that
    number lies between 4 and 12. *)
Theorem element_tally_total (p1 p2 p3 p4 : Pillar) :
  ValidPillar p1 → ValidPillar p2 → ValidPillar p3 → ValidPillar p4 →
  ∃ e, calculateFiveElements [p1; p2; p3; p4] = Some e
    ∧ wood e == chartWeight "木" [p1; p2; p3; p4]
    ∧ fire e == chartWeight "火" [p1; p2; p3; p4]
    ∧ earth e == chartWeight "土" [p1; p2; p3; p4]
    ∧ metal e == chartWeight "金" [p1; p2; p3; p4]
    ∧ water e == chartWeight "水" [p1; p2; p3; p4]
    ∧ total e
      == 8 + (1 # 2) * inject_Z (Z.of_nat (hiddenCount [p1; p2; p3; p4]))
    ∧ (4 <= hiddenCount [p1; p2; p3; p4] <= 12)%nat.
Proof.
  intros H1 H2 H3 H4.
  assert (Hall : Forall ValidPillar [p1; p2; p3; p4])
    by (repeat apply Forall_cons_2; [assumption .. | apply Forall_nil_2]).
  set (pillars := [p1; p2; p3; p4]) in *.
  exists (tallyAll (mkElements 0 0 0 0 0) (concat (map contributions pillars))).
  split; [apply tallyPillars_contributions, Hall |].
  destruct (tallyAll_buckets (concat (map contributions pillars))
              (mkElements 0 0 0 0 0)) as (Hw & Hf & He & Hm & Ha).
  cbn [wood fire earth metal water] in Hw, Hf, He, Hm, Ha.
  unfold chartWeight.
  repeat (split; [lra |]).
  split.
  - pose proof (sumWeights_chart pillars) as Hsum.
    change (inject_Z (Z.of_nat (length pillars))) with 4 in Hsum.
    assert (Hadd := weights_add_up (concat (map contributions pillars))).
    unfold total. rewrite Hw, Hf, He, Hm, Ha. rewrite <- Hsum.
    rewrite <- Hadd; [ring |].
    apply Forall_concat, Forall_map.
    eapply Forall_impl; [exact Hall | apply contributions_elements].
  - pose proof (hiddenOf_bounds _ H1). pose proof (hiddenOf_bounds _ H2).
    pose proof (hiddenOf_bounds _ H3). pose proof (hiddenOf_bounds _ H4).
    unfold hiddenCount, pillars. cbn [map concat].
    rewrite !length_app. simpl. lia.
Qed.

Lemma element_tally_total_witness :
  ValidPillar jiazi
  ∧ ∃ e, calculateFiveElements [jiazi; jiazi; jiazi; jiazi] = Some e
      ∧ wood e == chartWeight "木" [jiazi; jiazi; jiazi; jiazi]
      ∧ fire e == chartWeight "火" [jiazi; jiazi; jiazi; jiazi]
      ∧ earth e == chartWeight "土" [jiazi; jiazi; jiazi; jiazi]
      ∧ metal e == chartWeight "金" [jiazi; jiazi; jiazi; jiazi]
      ∧ water e == chartWeight "水" [jiazi; jiazi; jiazi; jiazi]
      ∧ total e
        == 8 + (1 # 2)
               * inject_Z (Z.of_nat (hiddenCount [jiazi; jiazi; jiazi; jiazi]))
      ∧ (4 <= hiddenCount [jiazi; jiazi; jiazi; jiazi] <= 12)%nat.
Proof.
  split; [exact jiazi_valid |].
  apply (element_tally_total jiazi jiazi jiazi jiazi); exact jiazi_valid.
Defined.

(** The chart of four 甲子 pillars has four hidden stems and a total of
    10, not 4 + 4/2 = 6. *)
Lemma tally_total_is_not_four_plus_hidden :
  ¬ total_is_four_plus_hidden [jiazi; jiazi; jiazi; jiazi].
Proof.
  intros (e & He & Ht). vm_compute in He. injection He as <-.
  vm_compute in Ht. discriminate Ht.
Qed.

Example tally_of_four_jiazi :
  ∃ e, calculateFiveElements [jiazi; jiazi; jiazi; jiazi] = Some e
       ∧ wood e == 4 ∧ fire e == 0 ∧ earth e == 0 ∧ metal e == 0
       ∧ water e == 6 ∧ total e == 10
       ∧ hiddenCount [jiazi; jiazi; jiazi; jiazi] = 4%nat.
Proof. eexists. split; [vm_compute; reflexivity |]. by vm_compute. Qed.

(** [analyzeFiveElements] of [CompleteBaZiCalculator] counts the eight
    characters of the chart and no hidden stem. *)
Example analyze_four_jiazi :
  Complete.analyzeFiveElements (Complete.fullBaZi (Some "甲子") "甲子" (Some "甲子") "甲子")
  = mkElements 4 0 0 0 4.
Proof. vm_compute. reflexivity. Qed.

End ElementTally.

(* ===================================================================== *)
(** * The year pillar *)
(* ===================================================================== *)

Section YearPillar.

Ltac Zify.zify_post_hook ::= Z.to_euclidean_division_equations.

(** An index inside the array finds a stem, or a branch. *)
Lemma tianGan_index i :
  0 <= i < 10 → ∃ s, Js.index Complete.tianGan i = Some s ∧ s ∈ Complete.tianGan.
Proof.
  intros Hi.
  assert (i = 0 ∨ i = 1 ∨ i = 2 ∨ i = 3 ∨ i = 4 ∨ i = 5 ∨ i = 6 ∨ i = 7
          ∨ i = 8 ∨ i = 9) as Hcases by lia.
  clear Hi. repeat destruct Hcases as [-> | Hcases]; try subst i;
    (eexists; split; [reflexivity | unfold Complete.tianGan; set_solver]).
Qed.

Lemma diZhi_index i :
  0 <= i < 12 → ∃ b, Js.index Complete.diZhi i = Some b ∧ b ∈ Complete.diZhi.
Proof.
  intros Hi.
  assert (i = 0 ∨ i = 1 ∨ i = 2 ∨ i = 3 ∨ i = 4 ∨ i = 5 ∨ i = 6 ∨ i = 7
          ∨ i = 8 ∨ i = 9 ∨ i = 10 ∨ i = 11) as Hcases by lia.
  clear Hi. repeat destruct Hcases as [-> | Hcases]; try subst i;
    (eexists; split; [reflexivity | unfold Complete.diZhi; set_solver]).
Qed.

(** Adding the modulus to a negative truncated remainder gives the
    mathematical remainder. *)
Lemma normalize_rem_10 x : Complete.normalize (Js.rem x 10) 10 = x mod 10.
Proof.
  unfold Complete.normalize, Js.rem.
  destruct (Z.ltb_spec (Z.rem x 10) 0); lia.
Qed.

Lemma normalize_rem_12 x : Complete.normalize (Js.rem x 12) 12 = x mod 12.
Proof.
  unfold Complete.normalize, Js.rem.
  destruct (Z.ltb_spec (Z.rem x 12) 0); lia.
Qed.

(** [CompleteBaZiCalculator.calculateYearPillar] normalizes both indices
    for every year, also before year 4, and its lookups are defined. *)
Lemma complete_year_indices_normalized year month day :
  let r := Complete.calculateYearPillar year month day in
  Complete.y_stemIndex r = (Complete.ganZhiYear r - 4) mod 10
  ∧ Complete.y_branchIndex r = (Complete.ganZhiYear r - 4) mod 12
  ∧ 0 <= Complete.y_stemIndex r < 10
  ∧ 0 <= Complete.y_branchIndex r < 12
  ∧ (∃ s, Complete.y_stem r = Some s ∧ s ∈ Complete.tianGan)
  ∧ (∃ b, Complete.y_branch r = Some b ∧ b ∈ Complete.diZhi).
Proof.
  unfold Complete.calculateYearPillar. cbn zeta.
  cbn [Complete.y_stemIndex Complete.y_branchIndex Complete.y_stem
       Complete.y_branch Complete.ganZhiYear].
  rewrite normalize_rem_10, normalize_rem_12.
  set (g := if _ : bool then _ else _).
  pose proof (Z.mod_pos_bound (g - 4) 10 ltac:(lia)).
  pose proof (Z.mod_pos_bound (g - 4) 12 ltac:(lia)).
  repeat split; try lia.
  - by apply tianGan_index.
  - by apply diZhi_index.
Qed.

(** [CompleteBaZiCalculator.calculateYearPillar] attributes January and
    February 1-3 to the year before, and every later date to its own year. *)
Lemma complete_year_cutover year month day :
  1 <= month <= 12 →
  (month = 1 ∨ (month = 2 ∧ day < 4) →
   Complete.ganZhiYear (Complete.calculateYearPillar year month day) = year - 1
   ∧ Complete.calculateYearPillar year month day
     = Complete.calculateYearPillar (year - 1) 12 31)
  ∧ (month >= 3 ∨ (month = 2 ∧ day >= 4) →
     Complete.ganZhiYear (Complete.calculateYearPillar year month day) = year
     ∧ Complete.calculateYearPillar year month day
       = Complete.calculateYearPillar year 12 31).
Proof.
  intros Hm. unfold Complete.calculateYearPillar. split; intros Hcase.
  - replace ((month =? 1) || (month =? 2) && (day <? 4)) with true
      by (symmetry; apply orb_true_iff; rewrite andb_true_iff; lia).
    split; reflexivity.
  - replace ((month =? 1) || (month =? 2) && (day <? 4)) with false
      by (symmetry; apply orb_false_iff; rewrite andb_false_iff; lia).
    split; reflexivity.
Qed.

(** In [bazi-calculator.ts] the stem index is the truncated remainder of
    [year - 1984], which is negative for every year before 1984 that is not
    a multiple of ten years away: the stem is then [undefined]. *)
Lemma legacy_year_stem_undefined year :
  year < 1984 → (1984 - year) mod 10 ≠ 0 →
  Bazi.stem (Bazi.calculateYearPillar year) = None.
Proof.
  intros Hlt Hne. unfold Bazi.calculateYearPillar, Js.index, Js.rem. cbn [Bazi.stem].
  replace (Z.rem (Z.rem (year - 1984) 60) 10 <? 0) with true; [reflexivity |].
  symmetry. apply Z.ltb_lt. lia.
Qed.

(** C6, on [calculateYearPillar] of [bazi-calculator.ts].  For 1980 the
    offset from the reference year 1984 is -4; both lookups are made at
    index -4 and return [undefined], and [calculateBazi] ends in a
    [TypeError] for a birth date in 1980. *)
Theorem legacy_year_pillar_1980_undefined :
  Js.rem (Js.rem (1980 - 1984) 60) 10 = -4
  ∧ Js.rem (Js.rem (1980 - 1984) 60) 12 = -4
  ∧ Bazi.calculateYearPillar 1980 = Bazi.mkPillar None None
  ∧ Bazi.calculateBazi (Terms.bornOn 1980 6 15) 12 0 = None.
Proof. repeat split; vm_compute; reflexivity. Qed.

(** C7, on [calculateBazi] of [bazi-calculator.ts].  For noon of
    2024-01-15 the year pillar is that of the calendar year 2024 (甲辰), not
    that of 2023 (癸卯), which [CompleteBaZiCalculator] returns for the same
    date. *)
Theorem legacy_january_keeps_calendar_year :
  Bazi.yearPillar <$> Bazi.calculateBazi (Terms.bornOn 2024 1 15) 12 0
  = Some (Bazi.calculateYearPillar 2024)
  ∧ Bazi.calculateYearPillar 2024 = Bazi.mkPillar (Some "甲") (Some "辰")
  ∧ Bazi.calculateYearPillar 2023 = Bazi.mkPillar (Some "癸") (Some "卯")
  ∧ Complete.y_pillar (Complete.calculateYearPillar 2024 1 15) = Some "癸卯".
Proof. repeat split; vm_compute; reflexivity. Qed.

End YearPillar.

(* ===================================================================== *)
(** * The month pillar *)
(* ===================================================================== *)

Section MonthPillar.

(** The table of [CompleteBaZiCalculator.calculateMonthPillar]: months 3 to
    11 carry their own number as branch index; December has the entry
    [(子, 0)]. *)
Lemma monthMapping_entries :
  Complete.monthMapping !! 12 = Some ("子", 0)
  ∧ ∀ month, 3 <= month <= 11 →
      Complete.monthMapping !! month
      = (λ zhi, (zhi, month)) <$> Js.index Complete.diZhi month.
Proof.
  split; [reflexivity |]. intros month Hm.
  assert (month = 3 ∨ month = 4 ∨ month = 5 ∨ month = 6 ∨ month = 7
          ∨ month = 8 ∨ month = 9 ∨ month = 10 ∨ month = 11) as Hcases by lia.
  clear Hm. repeat destruct Hcases as [-> | Hcases]; try subst month;
    reflexivity.
Qed.

(** In [CompleteBaZiCalculator], December has branch 子, of index 0, for
    every year, day and year stem. *)
Lemma complete_december_branch year day yearStem :
  ∃ r, Complete.calculateMonthPillar year 12 day yearStem = Some r
       ∧ Complete.m_branch r = "子"
       ∧ Js.indexOf Complete.diZhi (Some (Complete.m_branch r)) = 0
       ∧ Complete.monthName r = Some "十一月".
Proof. eexists. split; [reflexivity |]. repeat split. Qed.

(** C8, on [calculateMonthPillar] of [bazi-calculator.ts].  The branch
    index of December is [(12 + 1) % 12 = 1]: the branch is 丑 for every
    year, where [CompleteBaZiCalculator] has 子. *)
Theorem legacy_december_branch year :
  Js.rem (12 + 1) 12 = 1
  ∧ Bazi.branch (Bazi.calculateMonthPillar year 12) = Some "丑"
  ∧ Js.indexOf Bazi.EARTHLY_BRANCHES
      (Bazi.branch (Bazi.calculateMonthPillar year 12)) = 1
  ∧ Bazi.branch (Bazi.calculateMonthPillar year 12) ≠ Some "子".
Proof. repeat split. discriminate. Qed.

End MonthPillar.

(* ===================================================================== *)
(** * The day pillar *)
(* ===================================================================== *)

Section DayPillar.

(** In [bazi-calculator.ts] the reference date 1900-01-31 has the pillar
    庚子 at every time of the day. *)
Lemma legacy_day_epoch hours minutes :
  0 <= hours < 24 → 0 <= minutes < 60 →
  Bazi.calculateDayPillar (Js.Date_new 1900 0 31 hours minutes)
  = Bazi.mkPillar (Some "庚") (Some "子").
Proof.
  intros Hh Hm. unfold Bazi.calculateDayPillar, Js.Date_new. cbn [Js.getTime].
  cbn [mbind option_bind].
  set (days := Js.MakeDay _ 0 31).
  replace (Js.floorDiv
             (days * Js.msPerDay + hours * 3600000 + minutes * 60000
              - (days * Js.msPerDay + 0 * 3600000 + 0 * 60000))
             (1000 * 60 * 60 * 24)) with 0; [reflexivity |].
  unfold Js.floorDiv, Js.msPerDay. symmetry. apply Z.div_small. lia.
Qed.

(** C3.  [CompleteBaZiCalculator.calculateDayPillar] on 1900-01-01, the
    date its comments give as 庚子 (stem index 6, branch index 0), returns
    戊子 (stem index 4): the day count 0 is first lowered by 12.  It is
    1900-01-13 that comes out as 庚子.  [calculateDayPillar] of
    [bazi-calculator.ts] does return 庚子 on its reference date
    1900-01-31. *)
Theorem complete_day_epoch_is_not_gengzi :
  Complete.calculateDayPillar 1900 1 1
  = Complete.mkDay (Some "戊") (Some "子") (Some "戊子") (-12) 4 0
  ∧ Complete.d_pillar (Complete.calculateDayPillar 1900 1 1) ≠ Some "庚子"
  ∧ Complete.d_pillar (Complete.calculateDayPillar 1900 1 13) = Some "庚子"
  ∧ Bazi.calculateDayPillar (Js.Date_new 1900 0 31 0 0)
    = Bazi.mkPillar (Some "庚") (Some "子").
Proof.
  split; [vm_compute; reflexivity |].
  split; [vm_compute; discriminate |].
  split; vm_compute; reflexivity.
Qed.

End DayPillar.

(* ===================================================================== *)
(** * The hour pillar *)
(* ===================================================================== *)

Section HourPillar.

(** [indexOf] on the ten stems is -1 or an index of the array. *)
Lemma indexOf_stems dayStem :
  -1 <= Js.indexOf Bazi.HEAVENLY_STEMS dayStem <= 9.
Proof.
  destruct dayStem as [s |]; [| simpl; lia].
  unfold Js.indexOf, Bazi.HEAVENLY_STEMS, Js.indexOf_from.
  repeat case_decide; lia.
Qed.

(** In [CompleteBaZiCalculator] the hours 23 and 0 give the same pillar,
    with branch 子, whatever the day stem and the minutes; hour 22 has
    branch 亥. *)
Lemma complete_hour_midnight dayStem minute minute' :
  Complete.calculateHourPillar dayStem 23 minute
  = Complete.calculateHourPillar dayStem 0 minute'
  ∧ Complete.h_branch <$> Complete.calculateHourPillar dayStem 23 minute
    = Some "子"
  ∧ Complete.h_branch <$> Complete.calculateHourPillar dayStem 22 minute
    = Some "亥".
Proof.
  assert (∀ m, Complete.calculateHourPillar dayStem 23 m
               = Complete.calculateHourPillar dayStem 0 0) as H23
    by reflexivity.
  assert (∀ m, Complete.calculateHourPillar dayStem 0 m
               = Complete.calculateHourPillar dayStem 0 0) as H0
    by reflexivity.
  split; [by rewrite H23, (H0 minute') |].
  unfold Complete.calculateHourPillar. split; vm_compute; reflexivity.
Qed.

(** Every hour of the day finds its slot: the [Error] is never thrown. *)
Lemma complete_hour_total dayStem hour minute :
  is_Some (Complete.calculateHourPillar dayStem hour minute).
Proof.
  unfold Complete.calculateHourPillar.
  assert (hour <= 0 ∨ hour = 1 ∨ hour = 2 ∨ hour = 3 ∨ hour = 4 ∨ hour = 5
          ∨ hour = 6 ∨ hour = 7 ∨ hour = 8 ∨ hour = 9 ∨ hour = 10
          ∨ hour = 11 ∨ hour = 12 ∨ hour = 13 ∨ hour = 14 ∨ hour = 15
          ∨ hour = 16 ∨ hour = 17 ∨ hour = 18 ∨ hour = 19 ∨ hour = 20
          ∨ hour = 21 ∨ hour = 22 ∨ hour >= 23) as Hcases by lia.
  assert (Hfound : is_Some (Complete.findHourInfo hour)).
  { destruct Hcases as [Hlow | Hcases].
    { unfold Complete.findHourInfo.
      replace ((hour >=? 23) || (hour <? 1)) with true
        by (symmetry; apply orb_true_iff; lia).
      vm_compute. eauto. }
    repeat destruct Hcases as [-> | Hcases]; try (vm_compute; eauto; fail).
    unfold Complete.findHourInfo.
    replace ((hour >=? 23) || (hour <? 1)) with true
      by (symmetry; apply orb_true_iff; lia).
    vm_compute. eauto. }
  destruct Hfound as [slot ->]. cbn [mbind option_bind]. eauto.
Qed.

(** In [bazi-calculator.ts] hour 22 has branch 亥 and hours 23 and 0 both
    have branch 子. *)
Lemma legacy_hour_branches dayStem :
  Bazi.branch (Bazi.calculateHourPillar dayStem 22) = Some "亥"
  ∧ Bazi.branch (Bazi.calculateHourPillar dayStem 23) = Some "子"
  ∧ Bazi.branch (Bazi.calculateHourPillar dayStem 0) = Some "子".
Proof. repeat split. Qed.

(** C4, on [calculateHourPillar] of [bazi-calculator.ts].  For every day
    stem the hours 23 and 0 share the branch 子 but not the stem: at hour 23
    the stem index is advanced by [Math.floor(24 / 2) = 12], that is by two
    stems, at hour 0 by none.  For the day stem 甲 the pillars are 戊子 and
    丙子. *)
Theorem legacy_hour_stem_differs_across_midnight dayStem :
  Bazi.stem (Bazi.calculateHourPillar dayStem 23)
  ≠ Bazi.stem (Bazi.calculateHourPillar dayStem 0)
  ∧ Bazi.calculateHourPillar dayStem 23 ≠ Bazi.calculateHourPillar dayStem 0
  ∧ Bazi.calculateHourPillar (Some "甲") 23 = Bazi.mkPillar (Some "戊") (Some "子")
  ∧ Bazi.calculateHourPillar (Some "甲") 0 = Bazi.mkPillar (Some "丙") (Some "子").
Proof.
  assert (Hstem : Bazi.stem (Bazi.calculateHourPillar dayStem 23)
                  ≠ Bazi.stem (Bazi.calculateHourPillar dayStem 0)).
  { unfold Bazi.calculateHourPillar. cbn [Bazi.stem].
    pose proof (indexOf_stems dayStem) as Hi.
    set (i := Js.indexOf Bazi.HEAVENLY_STEMS dayStem) in *.
    assert (i = -1 ∨ i = 0 ∨ i = 1 ∨ i = 2 ∨ i = 3 ∨ i = 4 ∨ i = 5 ∨ i = 6
            ∨ i = 7 ∨ i = 8 ∨ i = 9) as Hcases by lia.
    clearbody i. clear Hi.
    repeat destruct Hcases as [-> | Hcases]; try subst i;
      vm_compute; discriminate. }
  split; [exact Hstem |].
  split; [intros Heq; apply Hstem; by rewrite Heq |].
  split; reflexivity.
Qed.

End HourPillar.

(* ===================================================================== *)
(** * The ten gods *)
(* ===================================================================== *)

Section TenGods.

Import Bazi Terms.

Lemma ten_gods_table_checked : tenGodsTableChecked = true.
Proof. vm_compute. reflexivity. Qed.

Lemma ten_gods_table_row d :
  d ∈ HEAVENLY_STEMS →
  forallb (λ s, match classify d s with
                | Some god => bool_decide (god ∈ TEN_GOD_LABELS)
                | None => false
                end) HEAVENLY_STEMS = true
  ∧ bool_decide (classify d d = Some "比肩") = true
  ∧ forallb (λ b, bool_decide (classify d b = None)) EARTHLY_BRANCHES = true.
Proof.
  intros Hd. apply list_elem_of_In in Hd.
  pose proof ten_gods_table_checked as Hall. unfold tenGodsTableChecked in Hall.
  rewrite forallb_forall in Hall. specialize (Hall d Hd).
  apply andb_true_iff in Hall as [Hall Hbranches].
  apply andb_true_iff in Hall as [Hstems Hdiag]. auto.
Qed.

(** [TEN_GODS] is a total 10 x 10 table over the stems: every entry is one
    of the ten labels, and the diagonal is 比肩. *)
Lemma ten_gods_total dayMaster s :
  dayMaster ∈ HEAVENLY_STEMS → s ∈ HEAVENLY_STEMS →
  (∃ god, classify dayMaster s = Some god ∧ god ∈ TEN_GOD_LABELS)
  ∧ classify dayMaster dayMaster = Some "比肩".
Proof.
  intros Hd Hs. destruct (ten_gods_table_row dayMaster Hd) as (Hrow & Hdiag & _).
  split; [| by apply bool_decide_eq_true in Hdiag].
  rewrite forallb_forall in Hrow. apply list_elem_of_In in Hs.
  specialize (Hrow s Hs). destruct (classify dayMaster s) as [god |];
    [| discriminate].
  exists god. split; [reflexivity | by apply bool_decide_eq_true in Hrow].
Qed.

(** No row of [TEN_GODS] has an entry for a branch. *)
Lemma ten_gods_no_branch dayMaster b :
  dayMaster ∈ HEAVENLY_STEMS → b ∈ EARTHLY_BRANCHES →
  classify dayMaster b = None.
Proof.
  intros Hd Hb. destruct (ten_gods_table_row dayMaster Hd) as (_ & _ & Hrow).
  rewrite forallb_forall in Hrow. apply list_elem_of_In in Hb.
  specialize (Hrow b Hb). by apply bool_decide_eq_true in Hrow.
Qed.

(** C5, on [calculateTenGods].  For the day master 甲 and four 甲子 pillars
    every pillar is classified as [甲(比肩)], [子(undefined)], [癸(正印)]:
    the stem and the hidden stem get a label, the branch 子 is looked up in
    a row that has stems only and gets [undefined]. *)
Theorem ten_gods_branch_undefined :
  classify "甲" "子" = None
  ∧ calculateTenGods (Some "甲") [jiazi; jiazi; jiazi; jiazi]
    = Some (list_to_map
              [("年柱", ["甲(比肩)"; "子(undefined)"; "癸(正印)"]);
               ("月柱", ["甲(比肩)"; "子(undefined)"; "癸(正印)"]);
               ("日柱", ["甲(比肩)"; "子(undefined)"; "癸(正印)"]);
               ("时柱", ["甲(比肩)"; "子(undefined)"; "癸(正印)"])]).
Proof. split; vm_compute; reflexivity. Qed.

End TenGods.

(* ===================================================================== *)
(** * True solar time *)
(* ===================================================================== *)

Section TrueSolarTime.

Import Terms.
Open Scope Q_scope.

(** The offset of [timezone-calculator.ts], in milliseconds, is the
    offset against the meridian 8 * 15 = 120 of the zone UTC+8. *)
Lemma legacy_longitude_offset longitude :
  Tz.calculateLongitudeOffset longitude == (longitude - 8 * 15) * 4 * 60000.
Proof. unfold Tz.calculateLongitudeOffset. ring. Qed.

(** C1, on [calculateTrueSolarTime].  Its standard meridian is
    [(timezone - 8) * 15], so that its longitude correction exceeds
    [(L - H * 15) * 4] by 480 minutes at every location.  In the zone UTC+8
    the meridian used is 0: the correction is 465.6296 minutes at
    116.4074 E and 350.4 minutes at 87.6 E, where the formula gives
    -14.3704 and -129.6. *)
Theorem longitude_correction_480_minutes_off :
  (∀ location,
     Astro.longitudeCorrection location == meridianOffset location + 480)
  ∧ Astro.getLocationByCity "北京" = Some beijing
  ∧ Astro.standardLongitude beijing == 0
  ∧ Astro.longitudeCorrection beijing == 4656296 # 10000
  ∧ meridianOffset beijing == - (143704 # 10000)
  ∧ Astro.longitudeCorrection farWest == 3504 # 10
  ∧ meridianOffset farWest == - (1296 # 10).
Proof.
  split.
  { intros location. unfold Astro.longitudeCorrection, Astro.standardLongitude,
      meridianOffset. ring. }
  repeat split.
Qed.

(** The equation of time stays within 4.2048 minutes. *)
Lemma equationOfTime_bound sin PI jd :
  BoundedSine sin →
  - (42048 # 10000) <= Astro.equationOfTime sin PI jd <= 42048 # 10000.
Proof.
  intros Hsin. unfold Astro.equationOfTime. cbn zeta.
  match goal with
  | |- _ <= - _ * sin ?a + _ * sin ?b + - _ * sin ?c <= _ =>
      pose proof (Hsin a); pose proof (Hsin b); pose proof (Hsin c);
      generalize dependent (sin a); generalize dependent (sin b);
      generalize dependent (sin c)
  end.
  intros. lra.
Qed.

Lemma Qfloor_between (x : Q) (lo hi : Z) :
  inject_Z lo <= x → x < inject_Z hi → (lo <= Qfloor x < hi)%Z.
Proof.
  intros Hlo Hhi. split.
  - rewrite <- (Qfloor_Z lo). by apply Qfloor_resp_le.
  - apply Z.lt_nge. intros Hge.
    pose proof (Qfloor_le x) as Hfl.
    assert (inject_Z hi <= inject_Z (Qfloor x)) by (by rewrite <- Zle_Qle).
    lra.
Qed.

(** The block that handles a change of day moves the day number by one and
    leaves month and year as they are. *)
Lemma dateCrossing_day_only year month day trueHour :
  ((24 <= trueHour)%Z →
   Astro.dateCrossing year month day trueHour = (year, month, (day + 1)%Z))
  ∧ ((trueHour < 0)%Z →
     Astro.dateCrossing year month day trueHour = (year, month, (day - 1)%Z))
  ∧ ((0 <= trueHour < 24)%Z →
     Astro.dateCrossing year month day trueHour = (year, month, day)).
Proof.
  unfold Astro.dateCrossing.
  repeat split; intros H;
    destruct (Z.geb_spec trueHour 24); destruct (Z.ltb_spec trueHour 0);
    try lia; reflexivity.
Qed.

(** Whenever [calculateTrueSolarTime] returns, the date it returns is the
    date it was given. *)
Lemma true_solar_time_keeps_date sin PI year month day hour minute location r :
  Astro.calculateTrueSolarTime sin PI year month day hour minute location
  = Some r →
  Astro.year r = year ∧ Astro.month r = month ∧ Astro.day r = day
  ∧ (0 <= Astro.hour r < 24)%Z
  ∧ Astro.hour r = trueHourAt sin PI year month day hour minute location
  ∧ Astro.r_longitudeCorrection r = Astro.longitudeCorrection location.
Proof.
  unfold Astro.calculateTrueSolarTime. cbn zeta.
  fold (totalMinutesAt sin PI year month day hour minute location).
  fold (trueHourAt sin PI year month day hour minute location).
  set (h := trueHourAt sin PI year month day hour minute location).
  unfold Astro.dateCrossing.
  destruct (Z.geb_spec h 24); destruct (Z.ltb_spec h 0); simpl;
    try discriminate.
  intros [= <-]. simpl. repeat split; lia.
Qed.

(** The function returns exactly when the corrected hour stays within the
    day; otherwise the assignment to [trueHour] throws. *)
Lemma true_solar_time_throws sin PI year month day hour minute location :
  (24 <= trueHourAt sin PI year month day hour minute location
   ∨ trueHourAt sin PI year month day hour minute location < 0)%Z →
  Astro.calculateTrueSolarTime sin PI year month day hour minute location
  = None.
Proof.
  intros Hh. unfold Astro.calculateTrueSolarTime. cbn zeta.
  fold (totalMinutesAt sin PI year month day hour minute location).
  fold (trueHourAt sin PI year month day hour minute location).
  set (h := trueHourAt sin PI year month day hour minute location) in *.
  destruct (Astro.dateCrossing year month day h) as [[? ?] ?].
  destruct (Z.geb_spec h 24); [reflexivity |].
  destruct (Z.ltb_spec h 0); [reflexivity | lia].
Qed.

Lemma true_solar_time_returns sin PI year month day hour minute location :
  (0 <= trueHourAt sin PI year month day hour minute location < 24)%Z →
  ∃ r, Astro.calculateTrueSolarTime sin PI year month day hour minute location
       = Some r.
Proof.
  intros Hh. unfold Astro.calculateTrueSolarTime. cbn zeta.
  fold (totalMinutesAt sin PI year month day hour minute location).
  fold (trueHourAt sin PI year month day hour minute location).
  set (h := trueHourAt sin PI year month day hour minute location) in *.
  destruct (Astro.dateCrossing year month day h) as [[? ?] ?].
  destruct (Z.geb_spec h 24); [lia |].
  destruct (Z.ltb_spec h 0); [lia |]. simpl. eauto.
Qed.

(** C9, on [calculateTrueSolarTime].  For 23:30 on 2024-01-31 in Harbin
    the corrected hour is 31 or 32.  The day number is raised to 32 with the
    month left at 1, and the assignment [trueHour -= 24] to the constant
    [trueHour] then raises a [TypeError]: no date is returned, and the date
    the code had computed is not February 1. *)
Theorem day_crossing_not_rolled sin PI :
  BoundedSine sin →
  (24 <= trueHourAt sin PI 2024 1 31 23 30 harbin)%Z
  ∧ Astro.dateCrossing 2024 1 31 (trueHourAt sin PI 2024 1 31 23 30 harbin)
    = (2024, 1, 32)%Z
  ∧ Astro.calculateTrueSolarTime sin PI 2024 1 31 23 30 harbin = None.
Proof.
  intros Hsin.
  assert (Hh : (31 <= trueHourAt sin PI 2024 1 31 23 30 harbin < 33)%Z).
  { unfold trueHourAt. apply Qfloor_between;
      unfold totalMinutesAt;
      pose proof (equationOfTime_bound sin PI
                    (Astro.julianDay 2024 1 31 23 30 0) Hsin) as [Hlo Hhi];
      generalize dependent (Astro.equationOfTime sin PI
                              (Astro.julianDay 2024 1 31 23 30 0));
      intros eot Hlo Hhi;
      change (Astro.longitudeCorrection harbin) with (5065696 # 10000);
      change (inject_Z 23) with 23; change (inject_Z 30) with 30;
      change (inject_Z 31) with 31; change (inject_Z 33) with 33;
      [apply Qle_shift_div_l | apply Qlt_shift_div_r]; lra. }
  split; [lia |].
  split.
  - destruct (dateCrossing_day_only 2024 1 31
                (trueHourAt sin PI 2024 1 31 23 30 harbin)) as [Hup _].
    apply Hup. lia.
  - apply true_solar_time_throws. lia.
Qed.

Lemma day_crossing_not_rolled_witness :
  BoundedSine flatSine
  ∧ (24 <= trueHourAt flatSine PI_approx 2024 1 31 23 30 harbin)%Z
  ∧ Astro.dateCrossing 2024 1 31
      (trueHourAt flatSine PI_approx 2024 1 31 23 30 harbin)
    = (2024, 1, 32)%Z
  ∧ Astro.calculateTrueSolarTime flatSine PI_approx 2024 1 31 23 30 harbin
    = None.
Proof.
  assert (Hsin : BoundedSine flatSine) by (intros x; split; discriminate).
  split; [exact Hsin |].
  exact (day_crossing_not_rolled flatSine PI_approx Hsin).
Defined.

(** In Beijing at 14:30 on 1990-05-15 no day is crossed: the function
    returns, with hour 22 and the longitude correction 465.6296. *)
Lemma true_solar_time_beijing sin PI :
  BoundedSine sin →
  ∃ r, Astro.calculateTrueSolarTime sin PI 1990 5 15 14 30 beijing = Some r
       ∧ Astro.hour r = 22%Z
       ∧ Astro.r_longitudeCorrection r == 4656296 # 10000.
Proof.
  intros Hsin.
  assert (Hh : (22 <= trueHourAt sin PI 1990 5 15 14 30 beijing < 23)%Z).
  { unfold trueHourAt. apply Qfloor_between;
      unfold totalMinutesAt;
      pose proof (equationOfTime_bound sin PI
                    (Astro.julianDay 1990 5 15 14 30 0) Hsin) as [Hlo Hhi];
      generalize dependent (Astro.equationOfTime sin PI
                              (Astro.julianDay 1990 5 15 14 30 0));
      intros eot Hlo Hhi;
      change (Astro.longitudeCorrection beijing) with (4656296 # 10000);
      change (inject_Z 14) with 14; change (inject_Z 30) with 30;
      change (inject_Z 22) with 22; change (inject_Z 23) with 23;
      [apply Qle_shift_div_l | apply Qlt_shift_div_r]; lra. }
  destruct (true_solar_time_returns sin PI 1990 5 15 14 30 beijing) as [r Hr];
    [lia |].
  exists r. split; [exact Hr |].
  apply true_solar_time_keeps_date in Hr as (_ & _ & _ & _ & Hhour & Hlon).
  split; [lia |]. rewrite Hlon. reflexivity.
Qed.

End TrueSolarTime.

(* ===================================================================== *)
(** * The regular-expression matcher *)
(* ===================================================================== *)

Section Regex.

Import Js.

Lemma append_empty_inv (s1 s2 : string) :
  (s1 ++ s2)%string = "" → s1 = "" ∧ s2 = "".
Proof.
  destruct s1 as [| c s1]; [intros H; change (s2 = "") in H; auto |].
  intros H. change (String c (s1 ++ s2)%string = "") in H. discriminate.
Qed.

Lemma matches_cat_inv r1 r2 s :
  matches (Cat r1 r2) s →
  ∃ s1 s2, s = (s1 ++ s2)%string ∧ matches r1 s1 ∧ matches r2 s2.
Proof. inversion 1; subst; eauto. Qed.

Lemma matches_alt_inv r1 r2 s :
  matches (Alt r1 r2) s → matches r1 s ∨ matches r2 s.
Proof. inversion 1; subst; auto. Qed.

Lemma matches_class_inv p s :
  matches (Class p) s → ∃ c, s = String c "" ∧ p c = true.
Proof. inversion 1; subst; eauto. Qed.

Lemma matches_eps_inv s : matches Eps s → s = "".
Proof. by inversion 1. Qed.

Lemma matches_void_inv s : ¬ matches Void s.
Proof. inversion 1. Qed.

Lemma nullable_matches r : nullable r = true ↔ matches r "".
Proof.
  induction r as [| | p | r1 IH1 r2 IH2 | r1 IH1 r2 IH2]; simpl.
  - split; [discriminate | intros H; by apply matches_void_inv in H].
  - split; [intros _; constructor | reflexivity].
  - split; [discriminate |].
    intros H. apply matches_class_inv in H as (c & Hc & _). discriminate.
  - rewrite andb_true_iff, IH1, IH2. split.
    + intros [H1 H2]. change "" with ("" ++ "")%string. by constructor.
    + intros H. apply matches_cat_inv in H as (s1 & s2 & Hs & H1 & H2).
      symmetry in Hs. apply append_empty_inv in Hs as [-> ->]. auto.
  - rewrite orb_true_iff, IH1, IH2. split.
    + intros [H | H]; [by apply m_alt_l | by apply m_alt_r].
    + apply matches_alt_inv.
Qed.

Lemma deriv_matches r : ∀ c s, matches (deriv c r) s ↔ matches r (String c s).
Proof.
  induction r as [| | p | r1 IH1 r2 IH2 | r1 IH1 r2 IH2]; intros c s; simpl.
  - split; intros H; by apply matches_void_inv in H.
  - split; intros H; [by apply matches_void_inv in H |].
    apply matches_eps_inv in H. discriminate.
  - destruct (p c) eqn:Hp; split; intros H.
    + apply matches_eps_inv in H as ->. by constructor.
    + apply matches_class_inv in H as (c' & [= -> ->] & _). constructor.
    + by apply matches_void_inv in H.
    + apply matches_class_inv in H as (c' & [= -> ->] & Hp'). congruence.
  - assert (Hcat : matches (Cat (deriv c r1) r2) s
                   ↔ ∃ s1 s2, s = (s1 ++ s2)%string
                       ∧ matches r1 (String c s1) ∧ matches r2 s2).
    { split.
      - intros H. apply matches_cat_inv in H as (s1 & s2 & -> & H1 & H2).
        exists s1, s2. by rewrite <- IH1.
      - intros (s1 & s2 & -> & H1 & H2). constructor; [by apply IH1 | done]. }
    assert (Hsplit : matches (Cat r1 r2) (String c s)
                     ↔ (matches r1 "" ∧ matches r2 (String c s))
                       ∨ ∃ s1 s2, s = (s1 ++ s2)%string
                           ∧ matches r1 (String c s1) ∧ matches r2 s2).
    { split.
      - intros H. apply matches_cat_inv in H as (s1 & s2 & Hs & H1 & H2).
        destruct s1 as [| c' s1].
        + change (String c s = s2) in Hs. left. by subst s2.
        + change (String c s = String c' (s1 ++ s2)%string) in Hs.
          injection Hs as <- ->. right. eauto.
      - intros [[H1 H2] | (s1 & s2 & -> & H1 & H2)].
        + change (String c s) with ("" ++ String c s)%string. by constructor.
        + change (String c (s1 ++ s2)) with (String c s1 ++ s2)%string.
          by constructor. }
    rewrite Hsplit. destruct (nullable r1) eqn:Hn.
    + split.
      * intros H. apply matches_alt_inv in H as [H | H].
        -- right. by apply Hcat.
        -- left. split; [by apply nullable_matches | by apply IH2].
      * intros [[_ H2] | H]; [apply m_alt_r; by apply IH2 |].
        apply m_alt_l. by apply Hcat.
    + rewrite Hcat. split; [auto |].
      intros [[H1 _] | H]; [| done].
      apply nullable_matches in H1. congruence.
  - split; intros H.
    + apply matches_alt_inv in H as [H | H];
        [apply m_alt_l; by apply IH1 | apply m_alt_r; by apply IH2].
    + apply matches_alt_inv in H as [H | H];
        [apply m_alt_l; by apply IH1 | apply m_alt_r; by apply IH2].
Qed.

(** [test] decides the language of the expression. *)
Lemma test_matches s : ∀ r, test r s = true ↔ matches r s.
Proof.
  induction s as [| c s IH]; intros r; simpl.
  - apply nullable_matches.
  - rewrite IH. apply deriv_matches.
Qed.

End Regex.

(* ===================================================================== *)
(** * Validation of the birth record *)
(* ===================================================================== *)

Section Validation.

Import Bazi Terms.

Lemma matches_range a b s :
  Js.matches (Js.range a b) s
  ↔ ∃ c, s = String c ""
         ∧ (nat_of_ascii a <= nat_of_ascii c <= nat_of_ascii b)%nat.
Proof.
  unfold Js.range. split.
  - intros H. apply matches_class_inv in H as (c & -> & Hc).
    apply andb_true_iff in Hc as [H1 H2].
    apply Nat.leb_le in H1, H2. eauto.
  - intros (c & -> & H1 & H2). constructor.
    apply andb_true_iff. split; by apply Nat.leb_le.
Qed.

Lemma matches_lit a s : Js.matches (Js.lit a) s ↔ s = String a "".
Proof.
  unfold Js.lit. split.
  - intros H. apply matches_class_inv in H as (c & -> & Hc).
    apply Ascii.eqb_eq in Hc. by subst.
  - intros ->. constructor. apply Ascii.eqb_refl.
Qed.

Lemma ascii_of_code c n : nat_of_ascii c = n → c = ascii_of_nat n.
Proof. intros <-. symmetry. apply ascii_nat_embedding. Qed.

(** The strings [TIME_PATTERN] accepts. *)
Lemma time_pattern_accepts t :
  Js.test TIME_PATTERN t = true ↔ twoDigitTime t ∨ oneDigitTime t.
Proof.
  rewrite test_matches. unfold TIME_PATTERN, Js.Opt. split.
  - intros H.
    apply matches_cat_inv in H as (sh & sr & -> & Hh & Hr).
    apply matches_cat_inv in Hr as (s1 & sr' & -> & Hc & Hr).
    apply matches_lit in Hc as ->.
    apply matches_cat_inv in Hr as (s2 & s3 & -> & Hm1 & Hm2).
    apply matches_range in Hm1 as (m1 & -> & Hm1).
    apply matches_range in Hm2 as (m2 & -> & Hm2).
    change (nat_of_ascii "0") with 48%nat in *.
    change (nat_of_ascii "5") with 53%nat in *.
    change (nat_of_ascii "9") with 57%nat in *.
    apply matches_alt_inv in Hh as [Hh | Hh];
      apply matches_cat_inv in Hh as (sa & sb & -> & Ha & Hb).
    + apply matches_range in Hb as (h2 & -> & Hh2).
      change (nat_of_ascii "0") with 48%nat in *.
      change (nat_of_ascii "9") with 57%nat in *.
      apply matches_alt_inv in Ha as [Ha | Ha].
      * apply matches_range in Ha as (h1 & -> & Hh1).
        change (nat_of_ascii "0") with 48%nat in *.
        change (nat_of_ascii "1") with 49%nat in *.
        left. exists h1, h2, m1, m2.
        split; [reflexivity |]. unfold isDigit, digitValue. lia.
      * apply matches_eps_inv in Ha as ->.
        right. exists h2, m1, m2.
        split; [reflexivity |]. unfold isDigit, digitValue. lia.
    + apply matches_lit in Ha as ->.
      apply matches_range in Hb as (h2 & -> & Hh2).
      change (nat_of_ascii "0") with 48%nat in *.
      change (nat_of_ascii "3") with 51%nat in *.
      left. exists "2"%char, h2, m1, m2.
      split; [reflexivity |]. unfold isDigit, digitValue.
      change (nat_of_ascii "2") with 50%nat. lia.
  - assert (Hrest : ∀ m1 m2, isDigit m1 → isDigit m2 →
              10 * digitValue m1 + digitValue m2 <= 59 →
              Js.matches
                (Js.Cat (Js.lit ":") (Js.Cat (Js.range "0" "5") (Js.range "0" "9")))
                (String ":" (String m1 (String m2 "")))).
    { intros m1 m2 H1 H2 Hle. unfold isDigit, digitValue in *.
      change (String ":" (String m1 (String m2 "")))
        with (String ":" "" ++ (String m1 "" ++ String m2 ""))%string.
      constructor; [by apply matches_lit |].
      constructor; apply matches_range; eexists; (split; [reflexivity |]);
        change (nat_of_ascii "0") with 48%nat;
        change (nat_of_ascii "5") with 53%nat;
        change (nat_of_ascii "9") with 57%nat; lia. }
    intros [(h1 & h2 & m1 & m2 & -> & Hd1 & Hd2 & Hd3 & Hd4 & Hh & Hm)
           | (h & m1 & m2 & -> & Hd1 & Hd3 & Hd4 & Hm)].
    + change (String h1 (String h2 (String ":" (String m1 (String m2 "")))))
        with ((String h1 "" ++ String h2 "")
              ++ String ":" (String m1 (String m2 "")))%string.
      constructor; [| by apply Hrest].
      unfold isDigit, digitValue in *.
      destruct (decide (nat_of_ascii h1 = 50%nat)) as [H2 | H2].
      * apply Js.m_alt_r. apply ascii_of_code in H2 as ->.
        change (ascii_of_nat 50) with "2"%char in *.
        change (nat_of_ascii "2") with 50%nat in *.
        constructor; [by apply matches_lit |].
        apply matches_range. eexists. split; [reflexivity |].
        change (nat_of_ascii "0") with 48%nat;
        change (nat_of_ascii "3") with 51%nat. lia.
      * apply Js.m_alt_l.
        constructor.
        -- apply Js.m_alt_l. apply matches_range. eexists.
           split; [reflexivity |].
           change (nat_of_ascii "0") with 48%nat;
           change (nat_of_ascii "1") with 49%nat. lia.
        -- apply matches_range. eexists. split; [reflexivity |].
           change (nat_of_ascii "0") with 48%nat;
           change (nat_of_ascii "9") with 57%nat. lia.
    + change (String h (String ":" (String m1 (String m2 ""))))
        with (("" ++ String h "")
              ++ String ":" (String m1 (String m2 "")))%string.
      constructor; [| by apply Hrest].
      apply Js.m_alt_l. constructor.
      * apply Js.m_alt_r. constructor.
      * unfold isDigit in *. apply matches_range. eexists.
        split; [reflexivity |].
        change (nat_of_ascii "0") with 48%nat;
        change (nat_of_ascii "9") with 57%nat. lia.
Qed.

Lemma truthy_nonEmpty v : Js.truthy v = true ↔ nonEmpty v.
Proof.
  unfold Js.truthy, nonEmpty. destruct v as [s |].
  - rewrite negb_true_iff, String.eqb_neq. split.
    + intros Hs. eauto.
    + intros (s' & [= <-] & Hs). exact Hs.
  - split; [discriminate | intros (s & Hs & _); discriminate].
Qed.

Lemma dateCheck_dateInRange birthInfo :
  dateCheck birthInfo = true ↔ dateInRange birthInfo.
Proof.
  unfold dateCheck, dateInRange. destruct (birthDate birthInfo) as [d |].
  - destruct (Js.getFullYear d) as [y |] eqn:Hyear.
    + rewrite andb_true_iff, Z.leb_le, Z.leb_le. split.
      * intros Hy. eauto.
      * intros (d' & y' & [= <-] & Hy' & Hy). congruence.
    + split; [discriminate |].
      intros (d' & y' & [= <-] & Hy & _). congruence.
  - split; [discriminate | intros (d' & y' & Hd & _); discriminate].
Qed.

Lemma timeCheck_timeAccepted birthInfo :
  timeCheck birthInfo = true ↔ timeAccepted birthInfo.
Proof.
  unfold timeCheck, timeAccepted. destruct (birthTime birthInfo) as [t |].
  - rewrite time_pattern_accepts. split.
    + intros Ht. eauto.
    + intros (t' & [= <-] & Ht). exact Ht.
  - split; [discriminate | intros (t' & Ht & _); discriminate].
Qed.

(** The test of the second [if] of [validateBirthInfo]. *)
Lemma time_condition birthInfo :
  Js.truthy (birthTime birthInfo)
  && Js.test TIME_PATTERN (default "" (birthTime birthInfo))
  = timeCheck birthInfo.
Proof.
  unfold timeCheck. destruct (birthTime birthInfo) as [[| c t] |];
    reflexivity.
Qed.

Lemma yearOutOfRange_Some y :
  yearOutOfRange (Some y) = negb ((1900 <=? y) && (y <=? 2100)).
Proof.
  unfold yearOutOfRange.
  destruct (Z.ltb_spec y 1900); destruct (Z.gtb_spec y 2100);
    destruct (Z.leb_spec 1900 y); destruct (Z.leb_spec y 2100);
    try lia; reflexivity.
Qed.

(** The outcome of [validateBirthInfo] in terms of the four checks, for a
    record whose date is not an invalid [Date]. *)
Lemma validate_checks birthInfo :
  birthDate birthInfo ≠ Some Js.InvalidDate →
  valid (validateBirthInfo birthInfo)
  = dateCheck birthInfo && timeCheck birthInfo
    && Js.truthy (gender birthInfo) && Js.truthy (calendarType birthInfo)
  ∧ length (errors (validateBirthInfo birthInfo)) = failedChecks birthInfo.
Proof.
  intros Hdate. unfold validateBirthInfo, failedChecks.
  rewrite <- negb_andb, time_condition. unfold dateCheck.
  destruct (birthDate birthInfo) as [[| ms] |].
  - by destruct Hdate.
  - unfold Js.getFullYear. cbn [Js.getTime mbind option_bind].
    rewrite yearOutOfRange_Some.
    destruct ((1900 <=? _) && (_ <=? 2100));
      destruct (timeCheck birthInfo), (Js.truthy (gender birthInfo)),
        (Js.truthy (calendarType birthInfo));
      vm_compute; split; reflexivity.
  - destruct (timeCheck birthInfo), (Js.truthy (gender birthInfo)),
      (Js.truthy (calendarType birthInfo));
      vm_compute; split; reflexivity.
Qed.

(** C10, as the code has it.  For every birth record whose [birthDate] is
    missing or a valid [Date], [validateBirthInfo] returns [valid = true]
    exactly when the date is present with a year from 1900 to 2100, the time
    is [HH:MM] or [H:MM] with the hour at most 23 and the minutes at most
    59, and gender and calendar type are non-empty; otherwise [valid] is
    false, the list of errors is not empty, and in every case it holds one
    message for each of these four conditions that fails. *)
Theorem validate_birth_info birthInfo :
  birthDate birthInfo ≠ Some Js.InvalidDate →
  (valid (validateBirthInfo birthInfo) = true
   ↔ dateInRange birthInfo ∧ timeAccepted birthInfo
     ∧ nonEmpty (gender birthInfo) ∧ nonEmpty (calendarType birthInfo))
  ∧ (valid (validateBirthInfo birthInfo) = false
     → errors (validateBirthInfo birthInfo) ≠ [])
  ∧ length (errors (validateBirthInfo birthInfo)) = failedChecks birthInfo.
Proof.
  intros Hdate. destruct (validate_checks birthInfo Hdate) as [Hvalid Hlen].
  split; [| split; [| exact Hlen]].
  - rewrite Hvalid, !andb_true_iff, dateCheck_dateInRange,
      timeCheck_timeAccepted, !truthy_nonEmpty. tauto.
  - intros Hfalse Hnil.
    assert (Hzero : length (errors (validateBirthInfo birthInfo)) = 0%nat)
      by (by rewrite Hnil).
    unfold validateBirthInfo in Hfalse, Hzero. cbn [valid errors] in Hfalse, Hzero.
    rewrite bool_decide_eq_false in Hfalse. contradiction.
Qed.

Lemma validate_birth_info_witness :
  birthDate (bornOn 1990 5 15) ≠ Some Js.InvalidDate
  ∧ (valid (validateBirthInfo (bornOn 1990 5 15)) = true
     ↔ dateInRange (bornOn 1990 5 15) ∧ timeAccepted (bornOn 1990 5 15)
       ∧ nonEmpty (gender (bornOn 1990 5 15))
       ∧ nonEmpty (calendarType (bornOn 1990 5 15)))
  ∧ (valid (validateBirthInfo (bornOn 1990 5 15)) = false
     → errors (validateBirthInfo (bornOn 1990 5 15)) ≠ [])
  ∧ length (errors (validateBirthInfo (bornOn 1990 5 15)))
    = failedChecks (bornOn 1990 5 15).
Proof.
  assert (Hdate : birthDate (bornOn 1990 5 15) ≠ Some Js.InvalidDate)
    by discriminate.
  split; [exact Hdate |].
  exact (validate_birth_info (bornOn 1990 5 15) Hdate).
Defined.

(** [9:30] is accepted although it is not of the form [HH:MM]. *)
Lemma single_digit_hour_accepted :
  Js.test TIME_PATTERN "9:30" = true ∧ ¬ twoDigitTime "9:30".
Proof.
  split; [reflexivity |].
  intros (h1 & h2 & m1 & m2 & Hs & _). discriminate Hs.
Qed.

(** The record with an invalid date and the time [9:30] is declared valid,
    with no error, although its year is not a number and its time is not of
    the form [HH:MM]. *)
Lemma loose_record_declared_valid : ¬ valid_iff_strict looseRecord.
Proof.
  unfold valid_iff_strict. intros [Hvalid _].
  destruct (Hvalid eq_refl) as [(d & y & Hd & Hy & _) _].
  injection Hd as <-. discriminate Hy.
Qed.

Example loose_record_validation :
  validateBirthInfo looseRecord = mkValidation true [].
Proof. reflexivity. Qed.

Example all_checks_fail :
  validateBirthInfo (mkBirthInfo None (Some "24:00") (Some "") None None)
  = mkValidation false
      ["请选择出生日期"; "请输入有效的时间格式（HH:MM）"; "请选择性别";
       "请选择历法类型"].
Proof. reflexivity. Qed.

End Validation.

(* ===================================================================== *)
(** * Array lookups *)
(* ===================================================================== *)

Section Lookups.

Import Bazi Terms Cycle.

Lemma index_is_Some {A} (arr : list A) i :
  is_Some (Js.index arr i) ↔ 0 <= i < Z.of_nat (length arr).
Proof.
  unfold Js.index. destruct (Z.ltb_spec i 0).
  - split; [intros [x Hx]; discriminate | lia].
  - rewrite lookup_lt_is_Some. lia.
Qed.

Lemma index_None {A} (arr : list A) i :
  Js.index arr i = None ↔ i < 0 ∨ Z.of_nat (length arr) <= i.
Proof.
  rewrite eq_None_not_Some, index_is_Some. lia.
Qed.

(** [indexOf] undoes a lookup in the stems and in the branches. *)
Lemma indexOf_index_stems i :
  0 <= i < 10 → Js.indexOf HEAVENLY_STEMS (Js.index HEAVENLY_STEMS i) = i.
Proof.
  intros Hi.
  assert (i = 0 ∨ i = 1 ∨ i = 2 ∨ i = 3 ∨ i = 4 ∨ i = 5 ∨ i = 6 ∨ i = 7
          ∨ i = 8 ∨ i = 9) as Hcases by lia.
  clear Hi. repeat destruct Hcases as [-> | Hcases]; try subst i; reflexivity.
Qed.

Lemma indexOf_index_branches i :
  0 <= i < 12 → Js.indexOf EARTHLY_BRANCHES (Js.index EARTHLY_BRANCHES i) = i.
Proof.
  intros Hi.
  assert (i = 0 ∨ i = 1 ∨ i = 2 ∨ i = 3 ∨ i = 4 ∨ i = 5 ∨ i = 6 ∨ i = 7
          ∨ i = 8 ∨ i = 9 ∨ i = 10 ∨ i = 11) as Hcases by lia.
  clear Hi. repeat destruct Hcases as [-> | Hcases]; try subst i; reflexivity.
Qed.

(** A pillar looked up at indices inside both arrays is over the
    vocabulary. *)
Lemma pillar_of_indices i j :
  0 <= i < 10 → 0 <= j < 12 →
  ValidPillar (mkPillar (Js.index HEAVENLY_STEMS i) (Js.index EARTHLY_BRANCHES j)).
Proof.
  intros Hi Hj. split; cbn [stem branch].
  - destruct (proj2 (index_is_Some HEAVENLY_STEMS i) Hi) as [s Hs].
    exists s. split; [exact Hs |]. unfold Js.index in Hs.
    destruct (i <? 0); [discriminate |]. by eapply list_elem_of_lookup_2.
  - destruct (proj2 (index_is_Some EARTHLY_BRANCHES j) Hj) as [b Hb].
    exists b. split; [exact Hb |]. unfold Js.index in Hb.
    destruct (j <? 0); [discriminate |]. by eapply list_elem_of_lookup_2.
Qed.

End Lookups.

(* ===================================================================== *)
(** * The pillars of [bazi-calculator.ts] on their whole domain *)
(* ===================================================================== *)

Section LegacyPillars.

Import Bazi Terms Cycle.

Ltac Zify.zify_post_hook ::= Z.to_euclidean_division_equations.

(** On an offset that is not negative, JavaScript's remainders are the
    mathematical ones, and the detour through the remainder by 60 changes
    neither the remainder by 10 nor the one by 12. *)
Lemma rem_60_10 x : 0 <= x → Z.rem (Z.rem x 60) 10 = x mod 10.
Proof. lia. Qed.

Lemma rem_60_12 x : 0 <= x → Z.rem (Z.rem x 60) 12 = x mod 12.
Proof. lia. Qed.

Lemma rem_60_shift x : 0 <= x → Z.rem (x + 60) 60 = Z.rem x 60.
Proof. lia. Qed.

Lemma mod_10_12_parity x : (x mod 10 - x mod 12) mod 2 = 0.
Proof. lia. Qed.

Lemma mod_10_succ x : (x + 1) mod 10 = (x mod 10 + 1) mod 10.
Proof. lia. Qed.

Lemma mod_12_succ x : (x + 1) mod 12 = (x mod 12 + 1) mod 12.
Proof. lia. Qed.

(** X1.  [calculateYearPillar] of [bazi-calculator.ts] finds a stem exactly
    for the years from 1984 on and for the earlier years a multiple of ten
    years before 1984, and a branch exactly for the years from 1984 on and
    for the earlier years a multiple of twelve years before 1984; for every
    other year the field is [undefined]. *)
Theorem legacy_year_pillar_defined_iff year :
  (is_Some (stem (calculateYearPillar year))
   ↔ 1984 <= year ∨ (1984 - year) mod 10 = 0)
  ∧ (is_Some (branch (calculateYearPillar year))
     ↔ 1984 <= year ∨ (1984 - year) mod 12 = 0).
Proof.
  unfold calculateYearPillar, Js.rem. cbn [stem branch].
  rewrite !index_is_Some. cbn [length HEAVENLY_STEMS EARTHLY_BRANCHES].
  split; lia.
Qed.

(** X2.  From 1984 on, [calculateYearPillar] of [bazi-calculator.ts]
    returns a pillar over the vocabulary whose stem and branch positions
    are the remainders of [year - 1984] by 10 and by 12, so of the same
    parity, and the pillar repeats every 60 years. *)
Theorem legacy_year_pillar_cycle year :
  1984 <= year →
  ValidPillar (calculateYearPillar year)
  ∧ stemIndexOf (calculateYearPillar year) = (year - 1984) mod 10
  ∧ branchIndexOf (calculateYearPillar year) = (year - 1984) mod 12
  ∧ (stemIndexOf (calculateYearPillar year)
     - branchIndexOf (calculateYearPillar year)) mod 2 = 0
  ∧ calculateYearPillar (year + 60) = calculateYearPillar year.
Proof.
  intros Hy. unfold stemIndexOf, branchIndexOf, calculateYearPillar, Js.rem.
  cbn [stem branch].
  replace (year + 60 - 1984) with (year - 1984 + 60) by lia.
  rewrite rem_60_shift, rem_60_10, rem_60_12 by lia.
  pose proof (Z.mod_pos_bound (year - 1984) 10 ltac:(lia)).
  pose proof (Z.mod_pos_bound (year - 1984) 12 ltac:(lia)).
  rewrite indexOf_index_stems, indexOf_index_branches by lia.
  split; [by apply pillar_of_indices |].
  split; [reflexivity |]. split; [reflexivity |].
  split; [apply mod_10_12_parity | reflexivity].
Qed.

Lemma legacy_year_pillar_cycle_witness :
  1984 <= 2024
  ∧ ValidPillar (calculateYearPillar 2024)
  ∧ stemIndexOf (calculateYearPillar 2024) = (2024 - 1984) mod 10
  ∧ branchIndexOf (calculateYearPillar 2024) = (2024 - 1984) mod 12
  ∧ (stemIndexOf (calculateYearPillar 2024)
     - branchIndexOf (calculateYearPillar 2024)) mod 2 = 0
  ∧ calculateYearPillar (2024 + 60) = calculateYearPillar 2024.
Proof.
  split; [lia |]. apply (legacy_year_pillar_cycle 2024). lia.
Defined.

(** X3.  For every year and every month from 1 to 12, [calculateMonthPillar]
    of [bazi-calculator.ts] returns a pillar over the vocabulary, also when
    the year pillar has no stem (the position -1 is then used).  The branch
    position is [(month + 1) mod 12] and the stem position is
    [2 * y + 1 + month] modulo 10, for the position [y] of the year stem. *)
Theorem legacy_month_pillar_defined year month :
  1 <= month <= 12 →
  ValidPillar (calculateMonthPillar year month)
  ∧ branchIndexOf (calculateMonthPillar year month) = (month + 1) mod 12
  ∧ stemIndexOf (calculateMonthPillar year month)
    = (2 * stemIndexOf (calculateYearPillar year) + 1 + month) mod 10.
Proof.
  intros Hm. unfold stemIndexOf, branchIndexOf, calculateMonthPillar, Js.rem.
  cbn [stem branch].
  pose proof (indexOf_stems (stem (calculateYearPillar year))) as Hi.
  set (y := Js.indexOf HEAVENLY_STEMS (stem (calculateYearPillar year))) in *.
  assert (Hs : Z.rem (Z.rem (y * 2 + 2) 10 + month - 1) 10
               = (2 * y + 1 + month) mod 10) by lia.
  assert (Hb : Z.rem (month + 1) 12 = (month + 1) mod 12) by lia.
  rewrite Hs, Hb.
  pose proof (Z.mod_pos_bound (2 * y + 1 + month) 10 ltac:(lia)).
  pose proof (Z.mod_pos_bound (month + 1) 12 ltac:(lia)).
  rewrite indexOf_index_stems, indexOf_index_branches by lia.
  split; [by apply pillar_of_indices | split; reflexivity].
Qed.

Lemma legacy_month_pillar_defined_witness :
  1 <= 5 <= 12
  ∧ ValidPillar (calculateMonthPillar 1980 5)
  ∧ branchIndexOf (calculateMonthPillar 1980 5) = (5 + 1) mod 12
  ∧ stemIndexOf (calculateMonthPillar 1980 5)
    = (2 * stemIndexOf (calculateYearPillar 1980) + 1 + 5) mod 10.
Proof.
  split; [lia |]. apply (legacy_month_pillar_defined 1980 5). lia.
Defined.

(** X4.  For every valid date from 1899-12-26 on, [calculateDayPillar] of
    [bazi-calculator.ts] returns a pillar over the vocabulary, with stem and
    branch positions of the same parity; one day later both positions have
    advanced by one, modulo 10 and modulo 12, and sixty days later the
    pillar is the same. *)
Theorem legacy_day_pillar_steps ms :
  legacyDayOrigin <= ms →
  ValidPillar (calculateDayPillar (Js.DateAt ms))
  ∧ stemIndexOf (calculateDayPillar (Js.DateAt (ms + Js.msPerDay)))
    = (stemIndexOf (calculateDayPillar (Js.DateAt ms)) + 1) mod 10
  ∧ branchIndexOf (calculateDayPillar (Js.DateAt (ms + Js.msPerDay)))
    = (branchIndexOf (calculateDayPillar (Js.DateAt ms)) + 1) mod 12
  ∧ (stemIndexOf (calculateDayPillar (Js.DateAt ms))
     - branchIndexOf (calculateDayPillar (Js.DateAt ms))) mod 2 = 0
  ∧ calculateDayPillar (Js.DateAt (ms + 60 * Js.msPerDay))
    = calculateDayPillar (Js.DateAt ms).
Proof.
  unfold legacyDayOrigin.
  change ((Js.MakeDay 1900 0 31 - 36) * Js.msPerDay) with (-2209507200000).
  intros Hms. unfold stemIndexOf, branchIndexOf, calculateDayPillar.
  change (Js.getTime (Js.Date_new 1900 0 31 0 0)) with (Some (-2206396800000)).
  cbn [Js.getTime mbind option_bind stem branch].
  unfold Js.floorDiv, Js.rem, Js.msPerDay.
  change (1000 * 60 * 60 * 24) with 86400000.
  set (d := (ms - -2206396800000) / 86400000).
  assert (Hd : -36 <= d) by (subst d; lia).
  assert (H1 : (ms + 86400000 - -2206396800000) / 86400000 = d + 1)
    by (subst d; lia).
  assert (H60 : (ms + 60 * 86400000 - -2206396800000) / 86400000 = d + 60)
    by (subst d; lia).
  rewrite H1, H60. clearbody d. clear H1 H60 Hms.
  replace (d + 60 + 36) with (d + 36 + 60) by lia.
  replace (d + 1 + 36) with (d + 36 + 1) by lia.
  rewrite rem_60_shift, !rem_60_10, !rem_60_12 by lia.
  pose proof (Z.mod_pos_bound (d + 36) 10 ltac:(lia)).
  pose proof (Z.mod_pos_bound (d + 36) 12 ltac:(lia)).
  pose proof (Z.mod_pos_bound (d + 36 + 1) 10 ltac:(lia)).
  pose proof (Z.mod_pos_bound (d + 36 + 1) 12 ltac:(lia)).
  rewrite !indexOf_index_stems, !indexOf_index_branches by lia.
  split; [by apply pillar_of_indices |].
  split; [apply mod_10_succ |]. split; [apply mod_12_succ |].
  split; [apply mod_10_12_parity | reflexivity].
Qed.

Lemma legacy_day_pillar_steps_witness :
  legacyDayOrigin <= 0
  ∧ ValidPillar (calculateDayPillar (Js.DateAt 0))
  ∧ stemIndexOf (calculateDayPillar (Js.DateAt (0 + Js.msPerDay)))
    = (stemIndexOf (calculateDayPillar (Js.DateAt 0)) + 1) mod 10
  ∧ branchIndexOf (calculateDayPillar (Js.DateAt (0 + Js.msPerDay)))
    = (branchIndexOf (calculateDayPillar (Js.DateAt 0)) + 1) mod 12
  ∧ (stemIndexOf (calculateDayPillar (Js.DateAt 0))
     - branchIndexOf (calculateDayPillar (Js.DateAt 0))) mod 2 = 0
  ∧ calculateDayPillar (Js.DateAt (0 + 60 * Js.msPerDay))
    = calculateDayPillar (Js.DateAt 0).
Proof.
  assert (H : legacyDayOrigin <= 0) by (vm_compute; discriminate).
  split; [exact H |]. exact (legacy_day_pillar_steps 0 H).
Defined.

(** X5.  For every day stem, known or not, and every hour from 0 to 23,
    [calculateHourPillar] of [bazi-calculator.ts] returns a pillar over the
    vocabulary whose branch position is [(hour + 1) / 2] modulo 12; the two
    hours [2k - 1] and [2k] of a slot give the same pillar, for [k] from 1
    to 11. *)
Theorem legacy_hour_pillar_slots dayStem hour :
  0 <= hour <= 23 →
  ValidPillar (calculateHourPillar dayStem hour)
  ∧ branchIndexOf (calculateHourPillar dayStem hour) = (hour + 1) / 2 mod 12
  ∧ (hour mod 2 = 1 → hour <= 21 →
     calculateHourPillar dayStem (hour + 1) = calculateHourPillar dayStem hour).
Proof.
  intros Hh. unfold stemIndexOf, branchIndexOf, calculateHourPillar, Js.rem,
    Js.floorDiv. cbn [stem branch].
  pose proof (indexOf_stems dayStem) as Hi.
  set (y := Js.indexOf HEAVENLY_STEMS dayStem) in *.
  assert (Hb : Z.rem ((hour + 1) / 2) 12 = (hour + 1) / 2 mod 12) by lia.
  assert (Hs : Z.rem (Z.rem (y * 2 + 2) 10 + (hour + 1) / 2) 10
               = (2 * y + 2 + (hour + 1) / 2) mod 10) by lia.
  rewrite Hb, Hs.
  pose proof (Z.mod_pos_bound (2 * y + 2 + (hour + 1) / 2) 10 ltac:(lia)).
  pose proof (Z.mod_pos_bound ((hour + 1) / 2) 12 ltac:(lia)).
  rewrite indexOf_index_branches by lia.
  split; [by apply pillar_of_indices |].
  split; [reflexivity |].
  intros Hodd Hle.
  assert (Hsame : (hour + 1 + 1) / 2 = (hour + 1) / 2) by lia.
  by rewrite Hsame, Hb, Hs.
Qed.

Lemma legacy_hour_pillar_slots_witness :
  0 <= 13 <= 23
  ∧ ValidPillar (calculateHourPillar (Some "甲") 13)
  ∧ branchIndexOf (calculateHourPillar (Some "甲") 13) = (13 + 1) / 2 mod 12
  ∧ (13 mod 2 = 1 → 13 <= 21 →
     calculateHourPillar (Some "甲") (13 + 1)
     = calculateHourPillar (Some "甲") 13).
Proof.
  split; [lia |]. apply (legacy_hour_pillar_slots (Some "甲") 13). lia.
Defined.

End LegacyPillars.

(* ===================================================================== *)
(** * When the aggregations of [bazi-calculator.ts] throw *)
(* ===================================================================== *)

Section LegacyAggregates.

Import Bazi Terms Cycle.

(** The branches [HIDDEN_STEMS] knows are the twelve branches. *)
Lemma knownBranch_vocabulary p :
  knownBranch p ↔ ∃ b, branch p = Some b ∧ b ∈ EARTHLY_BRANCHES.
Proof.
  unfold knownBranch, at_key. destruct (branch p) as [b |]; simpl.
  - rewrite <- elem_of_dom.
    assert (Hdom : dom HIDDEN_STEMS = list_to_set EARTHLY_BRANCHES)
      by (vm_compute; reflexivity).
    rewrite Hdom, elem_of_list_to_set. split.
    + intros Hb. eauto.
    + intros (b' & [= <-] & Hb). exact Hb.
  - split; [intros [x Hx]; discriminate | intros (b & Hb & _); discriminate].
Qed.

Lemma tallyPillar_None e p : tallyPillar e p = None ↔ ¬ knownBranch p.
Proof.
  unfold tallyPillar, knownBranch.
  destruct (at_key HIDDEN_STEMS (branch p)) as [hs |]; simpl.
  - split; [discriminate | intros H; destruct H; eauto].
  - split; [intros _ [x Hx]; discriminate | reflexivity].
Qed.

Lemma tallyPillars_None pillars : ∀ e,
  tallyPillars e pillars = None ↔ Exists (λ p, ¬ knownBranch p) pillars.
Proof.
  induction pillars as [| p ps IH]; intros e; simpl.
  - rewrite Exists_nil. split; [discriminate | tauto].
  - rewrite Exists_cons.
    destruct (tallyPillar e p) as [e' |] eqn:Hp; simpl.
    + rewrite IH. split; [auto |]. intros [Hbad | Hrest]; [| exact Hrest].
      rewrite <- (tallyPillar_None e p) in Hbad. congruence.
    + apply tallyPillar_None in Hp. tauto.
Qed.

(** X6.  [calculateFiveElements] throws exactly when one of the pillars has
    a branch that is none of the twelve branches (an unknown string or
    [undefined]), whatever the stems and however many pillars there are; on
    no pillar at all it returns five zeros. *)
Theorem five_elements_throws_iff pillars :
  (calculateFiveElements pillars = None
   ↔ Exists (λ p, ¬ ∃ b, branch p = Some b ∧ b ∈ EARTHLY_BRANCHES) pillars)
  ∧ calculateFiveElements [] = Some (mkElements 0 0 0 0 0).
Proof.
  split; [| reflexivity].
  unfold calculateFiveElements. rewrite tallyPillars_None.
  rewrite !Exists_exists.
  split; intros (p & Hin & Hp); exists p; (split; [exact Hin |]);
    [by rewrite <- knownBranch_vocabulary | by rewrite knownBranch_vocabulary].
Qed.

Lemma pillarGods_is_Some row p : is_Some (pillarGods row p) ↔ knownBranch p.
Proof.
  unfold pillarGods, knownBranch.
  destruct (at_key HIDDEN_STEMS (branch p)) as [hs |]; simpl.
  - split; eauto.
  - split; intros [x Hx]; discriminate.
Qed.

(** The loop of [calculateTenGods] goes through as long as there is a
    pillar name for the index and the branch is known. *)
Lemma tenGodsLoop_is_Some row pillars : ∀ tenGods index,
  (∀ name, name ∈ PILLAR_NAMES → is_Some (tenGods !! name)) →
  is_Some (tenGodsLoop row tenGods index pillars)
  ↔ (pillars = [] ∨ (index + length pillars <= 4)%nat)
    ∧ Forall knownBranch pillars.
Proof.
  induction pillars as [| p ps IH]; intros tenGods index Hkeys.
  - simpl. split; [intros _; split; [by left | constructor] | eauto].
  - cbn [tenGodsLoop]. rewrite Forall_cons.
    destruct (PILLAR_NAMES !! index) as [name |] eqn:Hname.
    + assert (Hin : name ∈ PILLAR_NAMES) by (by eapply list_elem_of_lookup_2).
      assert (Hlt : (index < 4)%nat)
        by (apply lookup_lt_Some in Hname; exact Hname).
      destruct (Hkeys name Hin) as [old Hold]. cbn [mbind option_bind].
      rewrite Hold. cbn [mbind option_bind].
      destruct (pillarGods row p) as [new |] eqn:Hnew; cbn [mbind option_bind].
      * assert (Hknown : knownBranch p)
          by (apply (pillarGods_is_Some row); rewrite Hnew; eauto).
        rewrite IH.
        -- cbn [length]. split.
           ++ intros [[-> | Hle] Hall];
                (split; [right; simpl; lia | split; assumption]).
           ++ intros [[Hnil | Hle] [_ Hall]]; [discriminate |].
              split; [right; lia | exact Hall].
        -- intros name' Hin'. destruct (decide (name = name')) as [<- | Hne].
           ++ rewrite lookup_insert_eq. eauto.
           ++ rewrite lookup_insert_ne by exact Hne. by apply Hkeys.
      * split; [intros [x Hx]; discriminate |].
        intros [_ [Hknown _]]. apply (pillarGods_is_Some row) in Hknown.
        rewrite Hnew in Hknown. destruct Hknown as [x Hx]. discriminate.
    + apply lookup_ge_None in Hname. cbn [mbind option_bind length].
      assert (Hge : (4 <= index)%nat) by exact Hname.
      split; [intros [x Hx]; discriminate |].
      intros [[Hnil | Hle] _]; [discriminate | lia].
Qed.

Lemma ten_gods_is_Some dayMaster pillars :
  dayMaster ∈ HEAVENLY_STEMS →
  is_Some (calculateTenGods (Some dayMaster) pillars)
  ↔ (length pillars <= 4)%nat ∧ Forall knownBranch pillars.
Proof.
  intros Hd.
  assert (Hdom : dom TEN_GODS = list_to_set HEAVENLY_STEMS)
    by (vm_compute; reflexivity).
  assert (Hrow : is_Some (TEN_GODS !! dayMaster))
    by (apply elem_of_dom; rewrite Hdom; by apply elem_of_list_to_set).
  destruct Hrow as [row Hrow]. unfold calculateTenGods.
  destruct pillars as [| p ps].
  - split; [intros _; split; [simpl; lia | constructor] | eauto].
  - cbn [at_key mbind option_bind]. rewrite Hrow. cbn [mbind option_bind].
    rewrite tenGodsLoop_is_Some.
    + split; [intros [[Hnil | Hle] H]; [discriminate | split; [lia | exact H]] |].
      intros [Hle H]. split; [right; lia | exact H].
    + intros name Hin. unfold PILLAR_NAMES in Hin.
      repeat (apply elem_of_cons in Hin as [-> | Hin]; [by eexists |]).
      by apply elem_of_nil in Hin.
Qed.

(** X7.  For a day master among the ten stems, [calculateTenGods] returns
    exactly when there are at most four pillars and every branch is one of
    the twelve branches; a fifth pillar, for which there is no pillar name,
    makes it throw. *)
Theorem ten_gods_returns_iff dayMaster pillars :
  dayMaster ∈ HEAVENLY_STEMS →
  is_Some (calculateTenGods (Some dayMaster) pillars)
  ↔ (length pillars <= 4)%nat
    ∧ Forall (λ p, ∃ b, branch p = Some b ∧ b ∈ EARTHLY_BRANCHES) pillars.
Proof.
  intros Hd. rewrite (ten_gods_is_Some dayMaster pillars Hd).
  assert (Hall : Forall knownBranch pillars
                 ↔ Forall (λ p, ∃ b, branch p = Some b
                                     ∧ b ∈ EARTHLY_BRANCHES) pillars).
  { rewrite !Forall_forall. split; intros H p Hin;
      [rewrite <- knownBranch_vocabulary | rewrite knownBranch_vocabulary];
      by apply H. }
  by rewrite Hall.
Qed.

Lemma ten_gods_returns_iff_witness :
  "甲" ∈ HEAVENLY_STEMS
  ∧ (is_Some (calculateTenGods (Some "甲") [jiazi; jiazi; jiazi; jiazi; jiazi])
     ↔ (length [jiazi; jiazi; jiazi; jiazi; jiazi] <= 4)%nat
       ∧ Forall (λ p, ∃ b, branch p = Some b ∧ b ∈ EARTHLY_BRANCHES)
           [jiazi; jiazi; jiazi; jiazi; jiazi]).
Proof.
  assert (H : "甲" ∈ HEAVENLY_STEMS) by (unfold HEAVENLY_STEMS; set_solver).
  split; [exact H |].
  exact (ten_gods_returns_iff "甲" [jiazi; jiazi; jiazi; jiazi; jiazi] H).
Defined.

End LegacyAggregates.

(* ===================================================================== *)
(** * The pillars of [CompleteBaZiCalculator] on their whole domain *)
(* ===================================================================== *)

Section CompletePillars.

Import Terms Cycle Compare.

Ltac Zify.zify_post_hook ::= Z.to_euclidean_division_equations.

Lemma mod_10_period x : (x + 60) mod 10 = x mod 10.
Proof. lia. Qed.

Lemma mod_12_period x : (x + 60) mod 12 = x mod 12.
Proof. lia. Qed.

(** X8.  For every year, also before year 4, [calculateYearPillar] of
    [CompleteBaZiCalculator] finds a stem and a branch, at positions inside
    the arrays and of the same parity, and sixty years later it finds the
    same stem and branch at the same positions. *)
Theorem complete_year_pillar_cycle year month day :
  let r := Complete.calculateYearPillar year month day in
  let r' := Complete.calculateYearPillar (year + 60) month day in
  is_Some (Complete.y_stem r) ∧ is_Some (Complete.y_branch r)
  ∧ 0 <= Complete.y_stemIndex r < 10 ∧ 0 <= Complete.y_branchIndex r < 12
  ∧ (Complete.y_stemIndex r - Complete.y_branchIndex r) mod 2 = 0
  ∧ Complete.y_stem r' = Complete.y_stem r
  ∧ Complete.y_branch r' = Complete.y_branch r
  ∧ Complete.y_pillar r' = Complete.y_pillar r
  ∧ Complete.ganZhiYear r' = Complete.ganZhiYear r + 60.
Proof.
  intros r r'.
  destruct (complete_year_indices_normalized year month day)
    as (Hs & Hb & Hsr & Hbr & (s & Hstem & _) & (b & Hbranch & _)).
  destruct (complete_year_indices_normalized (year + 60) month day)
    as (Hs' & Hb' & _).
  fold r in Hs, Hb, Hsr, Hbr, Hstem, Hbranch. fold r' in Hs', Hb'.
  assert (Hg : Complete.ganZhiYear r' = Complete.ganZhiYear r + 60).
  { unfold r, r', Complete.calculateYearPillar. cbn [Complete.ganZhiYear].
    destruct ((month =? 1) || (month =? 2) && (day <? 4)); lia. }
  assert (Hsi : Complete.y_stemIndex r' = Complete.y_stemIndex r).
  { rewrite Hs', Hs, Hg.
    replace (Complete.ganZhiYear r + 60 - 4)
      with (Complete.ganZhiYear r - 4 + 60) by lia.
    apply mod_10_period. }
  assert (Hbi : Complete.y_branchIndex r' = Complete.y_branchIndex r).
  { rewrite Hb', Hb, Hg.
    replace (Complete.ganZhiYear r + 60 - 4)
      with (Complete.ganZhiYear r - 4 + 60) by lia.
    apply mod_12_period. }
  assert (Hfields : Complete.y_stem r' = Complete.y_stem r
                    ∧ Complete.y_branch r' = Complete.y_branch r
                    ∧ Complete.y_pillar r' = Complete.y_pillar r).
  { unfold r, r', Complete.calculateYearPillar in *.
    cbn [Complete.y_stem Complete.y_branch Complete.y_pillar
         Complete.y_stemIndex Complete.y_branchIndex] in *.
    rewrite Hsi, Hbi. auto. }
  destruct Hfields as (H1 & H2 & H3).
  split; [rewrite Hstem; eauto |]. split; [rewrite Hbranch; eauto |].
  split; [exact Hsr |]. split; [exact Hbr |].
  split; [rewrite Hs, Hb; apply mod_10_12_parity |].
  auto.
Qed.

(** X9.  Whenever the sexagenary year that [CompleteBaZiCalculator] settles
    on is 1984 or later, its year stem and branch are those that
    [calculateYearPillar] of [bazi-calculator.ts] returns for that year; for
    a date in January or on February 1 to 3 this is the year before, whose
    stem differs from the one [bazi-calculator.ts] gives to the calendar
    year. *)
Theorem year_pillars_agree_from_1984 year month day :
  let r := Complete.calculateYearPillar year month day in
  1984 <= Complete.ganZhiYear r →
  Complete.y_stem r = Bazi.stem (Bazi.calculateYearPillar (Complete.ganZhiYear r))
  ∧ Complete.y_branch r
    = Bazi.branch (Bazi.calculateYearPillar (Complete.ganZhiYear r))
  ∧ (Complete.ganZhiYear r = year ∨ Complete.ganZhiYear r = year - 1)
  ∧ (Complete.ganZhiYear r = year - 1 →
     Complete.y_stem r ≠ Bazi.stem (Bazi.calculateYearPillar year)).
Proof.
  intros r Hg.
  destruct (complete_year_indices_normalized year month day)
    as (Hs & Hb & Hsr & Hbr & _).
  fold r in Hs, Hb, Hsr, Hbr.
  set (g := Complete.ganZhiYear r) in *.
  assert (Hstem : Complete.y_stem r = Js.index Complete.tianGan ((g - 1984) mod 10)).
  { unfold r, Complete.calculateYearPillar in *.
    cbn [Complete.y_stem Complete.y_stemIndex] in *. rewrite Hs.
    f_equal. lia. }
  assert (Hbranch : Complete.y_branch r
                    = Js.index Complete.diZhi ((g - 1984) mod 12)).
  { unfold r, Complete.calculateYearPillar in *.
    cbn [Complete.y_branch Complete.y_branchIndex] in *. rewrite Hb.
    f_equal. lia. }
  assert (Hlegacy : ∀ y, 1984 <= y →
            Bazi.calculateYearPillar y
            = Bazi.mkPillar (Js.index Bazi.HEAVENLY_STEMS ((y - 1984) mod 10))
                (Js.index Bazi.EARTHLY_BRANCHES ((y - 1984) mod 12))).
  { intros y Hy. unfold Bazi.calculateYearPillar, Js.rem.
    by rewrite rem_60_10, rem_60_12 by lia. }
  split; [by rewrite Hlegacy by exact Hg |].
  split; [by rewrite Hlegacy by exact Hg |].
  split.
  { unfold g, r, Complete.calculateYearPillar. cbn [Complete.ganZhiYear].
    destruct ((month =? 1) || (month =? 2) && (day <? 4)); auto. }
  intros Hprev. rewrite Hstem, Hlegacy by lia. cbn [Bazi.stem].
  intros Heq.
  pose proof (Z.mod_pos_bound (g - 1984) 10 ltac:(lia)) as H1.
  pose proof (Z.mod_pos_bound (year - 1984) 10 ltac:(lia)) as H2.
  apply (f_equal (Js.indexOf Bazi.HEAVENLY_STEMS)) in Heq.
  change Complete.tianGan with Bazi.HEAVENLY_STEMS in Heq.
  rewrite !indexOf_index_stems in Heq by lia. lia.
Qed.

Lemma year_pillars_agree_from_1984_witness :
  1984 <= Complete.ganZhiYear (Complete.calculateYearPillar 2024 1 15)
  ∧ Complete.y_stem (Complete.calculateYearPillar 2024 1 15)
    = Bazi.stem (Bazi.calculateYearPillar
                   (Complete.ganZhiYear (Complete.calculateYearPillar 2024 1 15)))
  ∧ Complete.y_branch (Complete.calculateYearPillar 2024 1 15)
    = Bazi.branch (Bazi.calculateYearPillar
                     (Complete.ganZhiYear (Complete.calculateYearPillar 2024 1 15)))
  ∧ (Complete.ganZhiYear (Complete.calculateYearPillar 2024 1 15) = 2024
     ∨ Complete.ganZhiYear (Complete.calculateYearPillar 2024 1 15) = 2024 - 1)
  ∧ (Complete.ganZhiYear (Complete.calculateYearPillar 2024 1 15) = 2024 - 1 →
     Complete.y_stem (Complete.calculateYearPillar 2024 1 15)
     ≠ Bazi.stem (Bazi.calculateYearPillar 2024)).
Proof.
  assert (H : 1984 <= Complete.ganZhiYear (Complete.calculateYearPillar 2024 1 15))
    by (vm_compute; discriminate).
  split; [exact H |]. exact (year_pillars_agree_from_1984 2024 1 15 H).
Defined.

(** The table [monthMapping] has the months 3 to 12. *)
Lemma monthMapping_is_Some month :
  is_Some (Complete.monthMapping !! month) ↔ 3 <= month <= 12.
Proof.
  rewrite <- elem_of_dom.
  assert (Hdom : dom Complete.monthMapping = list_to_set (seqZ 3 10))
    by (vm_compute; reflexivity).
  rewrite Hdom, elem_of_list_to_set, elem_of_seqZ. lia.
Qed.

Lemma complete_month_pillar_is_Some year month day yearStem :
  is_Some (Complete.calculateMonthPillar year month day yearStem)
  ↔ 1 <= month <= 12.
Proof.
  unfold Complete.calculateMonthPillar.
  destruct (Z.eqb_spec month 1) as [-> | H1].
  { cbn [mbind option_bind]. split; [lia | eauto]. }
  destruct (Z.eqb_spec month 2) as [-> | H2].
  { cbn [mbind option_bind]. split; [lia | eauto]. }
  pose proof (monthMapping_is_Some month) as Hmap.
  destruct (Complete.monthMapping !! month) as [[zhi idx] |].
  - cbn [mbind option_bind]. split; [| eauto].
    intros _. assert (3 <= month <= 12) by (apply Hmap; eauto). lia.
  - cbn [mbind option_bind]. split; [intros [x Hx]; discriminate |].
    intros Hin. assert (Hsome : is_Some (@None (string * Z)))
      by (apply Hmap; lia).
    destruct Hsome as [x Hx]. discriminate.
Qed.

(** X10.  [calculateMonthPillar] of [CompleteBaZiCalculator] throws exactly
    for a month outside 1 to 12, whatever the year, the day and the year
    stem. *)
Theorem complete_month_pillar_throws_iff year month day yearStem :
  Complete.calculateMonthPillar year month day yearStem = None
  ↔ ¬ (1 <= month <= 12).
Proof.
  rewrite <- (complete_month_pillar_is_Some year month day yearStem).
  rewrite eq_None_not_Some. reflexivity.
Qed.

Lemma month_table_checked : monthTableChecked = true.
Proof. vm_compute. reflexivity. Qed.

(** The month pillar looks at the day only to tell whether it is before
    the fourth, and not at the year. *)
Lemma complete_month_pillar_day year month day yearStem :
  Complete.calculateMonthPillar year month day yearStem
  = Complete.calculateMonthPillar 0 month (if day <? 4 then 3 else 4) yearStem.
Proof.
  unfold Complete.calculateMonthPillar. destruct (day <? 4); reflexivity.
Qed.

Lemma month_checked yearStem month day :
  yearStem ∈ Complete.tianGan → 1 <= month <= 12 →
  monthChecked yearStem month (if day <? 4 then 3 else 4) = true.
Proof.
  intros Hs Hm. pose proof month_table_checked as Hall.
  unfold monthTableChecked in Hall. rewrite forallb_forall in Hall.
  apply list_elem_of_In in Hs. specialize (Hall yearStem Hs).
  rewrite forallb_forall in Hall.
  assert (Hin : In month (seqZ 1 12))
    by (apply list_elem_of_In, elem_of_seqZ; lia).
  specialize (Hall month Hin). apply andb_true_iff in Hall as [H3 H4].
  destruct (day <? 4); assumption.
Qed.

(** X11.  For a year stem among the ten stems and a month from 1 to 12,
    [calculateMonthPillar] of [CompleteBaZiCalculator] returns a branch of
    the twelve, but its stem is [undefined] exactly for the year stems 戊
    and 癸 in December, in January and on February 1 to 3 (the index
    [base + branch - 2] is then negative); the pillar string then starts
    with the text [undefined]. *)
Theorem complete_month_stem_missing_iff year month day yearStem :
  yearStem ∈ Complete.tianGan → 1 <= month <= 12 →
  ∃ r, Complete.calculateMonthPillar year month day yearStem = Some r
       ∧ Complete.m_branch r ∈ Complete.diZhi
       ∧ (Complete.m_stem r = None ↔ monthStemMissing yearStem month day)
       ∧ (Complete.m_stem r = None →
          Complete.m_pillar r = ("undefined" ++ Complete.m_branch r)%string).
Proof.
  intros Hs Hm. pose proof (month_checked yearStem month day Hs Hm) as Hc.
  rewrite complete_month_pillar_day. unfold monthChecked in Hc.
  assert (Hday : monthStemMissing yearStem month (if day <? 4 then 3 else 4)
                 ↔ monthStemMissing yearStem month day).
  { unfold monthStemMissing. destruct (Z.ltb_spec day 4); intuition lia. }
  destruct (Complete.calculateMonthPillar 0 month _ yearStem) as [r |];
    [| discriminate].
  repeat (apply andb_true_iff in Hc as [Hc ?]).
  exists r. split; [reflexivity |].
  split; [by apply bool_decide_eq_true in Hc |].
  split; [rewrite <- Hday; by eapply bool_decide_eq_true |].
  by eapply bool_decide_eq_true.
Qed.

Lemma complete_month_stem_missing_iff_witness :
  "戊" ∈ Complete.tianGan ∧ 1 <= 1 <= 12
  ∧ ∃ r, Complete.calculateMonthPillar 2019 1 15 "戊" = Some r
       ∧ Complete.m_branch r ∈ Complete.diZhi
       ∧ (Complete.m_stem r = None ↔ monthStemMissing "戊" 1 15)
       ∧ (Complete.m_stem r = None →
          Complete.m_pillar r = ("undefined" ++ Complete.m_branch r)%string).
Proof.
  assert (H : "戊" ∈ Complete.tianGan) by (unfold Complete.tianGan; set_solver).
  split; [exact H |]. split; [lia |].
  apply (complete_month_stem_missing_iff 2019 1 15 "戊" H). lia.
Defined.

(** X12.  For every month from 1 to 12 the two calculators disagree on the
    branch of the month: the branch of [bazi-calculator.ts] is one place
    further in the cycle of twelve than the branch of
    [CompleteBaZiCalculator], and two places further on February 1 to 3. *)
Theorem month_branches_one_apart year year' month day yearStem :
  yearStem ∈ Complete.tianGan → 1 <= month <= 12 →
  ∃ r, Complete.calculateMonthPillar year month day yearStem = Some r
       ∧ branchIndexOf (Bazi.calculateMonthPillar year' month)
         = (zhiIndexOf (Complete.m_branch r)
            + (if bool_decide (month = 2 ∧ day < 4) then 2 else 1)) mod 12
       ∧ Bazi.branch (Bazi.calculateMonthPillar year' month)
         ≠ Some (Complete.m_branch r).
Proof.
  intros Hs Hm. pose proof (month_checked yearStem month day Hs Hm) as Hc.
  rewrite complete_month_pillar_day. unfold monthChecked in Hc.
  destruct (Complete.calculateMonthPillar 0 month _ yearStem) as [r |];
    [| discriminate].
  repeat (apply andb_true_iff in Hc as [Hc ?]).
  assert (Hbranch : Bazi.branch (Bazi.calculateMonthPillar year' month)
                    = Bazi.branch (Bazi.calculateMonthPillar 0 month))
    by reflexivity.
  assert (Hidx : branchIndexOf (Bazi.calculateMonthPillar year' month)
                 = (zhiIndexOf (Complete.m_branch r)
                    + (if bool_decide (month = 2 ∧ day < 4) then 2 else 1))
                   mod 12).
  { unfold branchIndexOf. rewrite Hbranch.
    match goal with H : bool_decide (branchIndexOf _ = _) = true |- _ =>
      apply bool_decide_eq_true in H; unfold branchIndexOf in H; rewrite H
    end.
    do 2 f_equal. destruct (Z.ltb_spec day 4);
      repeat case_bool_decide; try reflexivity; lia. }
  exists r. split; [reflexivity |]. split; [exact Hidx |].
  intros Heq. unfold branchIndexOf in Hidx. rewrite Heq in Hidx.
  fold (zhiIndexOf (Complete.m_branch r)) in Hidx.
  assert (Hin : Complete.m_branch r ∈ Complete.diZhi)
    by (by apply bool_decide_eq_true in Hc).
  assert (Hrange : 0 <= zhiIndexOf (Complete.m_branch r) < 12).
  { revert Hin. generalize (Complete.m_branch r). unfold Complete.diZhi.
    intros b Hb.
    repeat (apply elem_of_cons in Hb as [-> | Hb]; [by vm_compute |]).
    by apply elem_of_nil in Hb. }
  change (Js.indexOf Bazi.EARTHLY_BRANCHES (Some (Complete.m_branch r)))
    with (zhiIndexOf (Complete.m_branch r)) in Hidx.
  destruct (bool_decide (month = 2 ∧ day < 4)); lia.
Qed.

Lemma month_branches_one_apart_witness :
  "甲" ∈ Complete.tianGan ∧ 1 <= 12 <= 12
  ∧ ∃ r, Complete.calculateMonthPillar 2024 12 15 "甲" = Some r
       ∧ branchIndexOf (Bazi.calculateMonthPillar 2024 12)
         = (zhiIndexOf (Complete.m_branch r)
            + (if bool_decide (12 = 2 ∧ 15 < 4) then 2 else 1)) mod 12
       ∧ Bazi.branch (Bazi.calculateMonthPillar 2024 12)
         ≠ Some (Complete.m_branch r).
Proof.
  assert (H : "甲" ∈ Complete.tianGan) by (unfold Complete.tianGan; set_solver).
  split; [exact H |]. split; [lia |].
  apply (month_branches_one_apart 2024 2024 12 15 "甲" H). lia.
Defined.

Lemma hour_table_checked : hourTableChecked = true.
Proof. vm_compute. reflexivity. Qed.

Lemma hour_checked dayStem hour :
  dayStem ∈ Complete.tianGan → 0 <= hour <= 23 →
  hourChecked dayStem hour = true.
Proof.
  intros Hs Hh. pose proof hour_table_checked as Hall.
  unfold hourTableChecked in Hall. rewrite forallb_forall in Hall.
  apply list_elem_of_In in Hs. specialize (Hall dayStem Hs).
  rewrite forallb_forall in Hall. apply Hall.
  apply list_elem_of_In, elem_of_seqZ. lia.
Qed.


Lemma complete_day_pillar_unfold year month day :
  Complete.calculateDayPillar year month day
  = let correctedDays := dayCount year month day - 12 in
    let finalGan := Complete.normalize (Js.rem (6 + correctedDays) 10) 10 in
    let finalZhi := Complete.normalize (Js.rem (0 + correctedDays) 12) 12 in
    {| Complete.d_stem := Js.index Complete.tianGan finalGan;
       Complete.d_branch := Js.index Complete.diZhi finalZhi;
       Complete.d_pillar :=
         Complete.plus (Js.index Complete.tianGan finalGan)
                       (Js.index Complete.diZhi finalZhi);
       Complete.daysDiff := correctedDays;
       Complete.d_stemIndex := finalGan;
       Complete.d_branchIndex := finalZhi |}.
Proof.
  unfold Complete.calculateDayPillar, dayCount. cbv zeta. reflexivity.
Qed.

Lemma normalize_minus_6 D :
  Complete.normalize (Js.rem (6 + (D - 12)) 10) 10 = (D - 6) mod 10.
Proof.
  unfold Complete.normalize, Js.rem.
  destruct (Z.ltb_spec (Z.rem (6 + (D - 12)) 10) 0); lia.
Qed.

Lemma normalize_minus_12 D :
  Complete.normalize (Js.rem (0 + (D - 12)) 12) 12 = D mod 12.
Proof.
  unfold Complete.normalize, Js.rem.
  destruct (Z.ltb_spec (Z.rem (0 + (D - 12)) 12) 0); lia.
Qed.

Lemma complete_day_pillar_at year month day :
  Complete.calculateDayPillar year month day
  = let D := dayCount year month day in
    {| Complete.d_stem := Js.index Complete.tianGan ((D - 6) mod 10);
       Complete.d_branch := Js.index Complete.diZhi (D mod 12);
       Complete.d_pillar :=
         Complete.plus (Js.index Complete.tianGan ((D - 6) mod 10))
                       (Js.index Complete.diZhi (D mod 12));
       Complete.daysDiff := D - 12;
       Complete.d_stemIndex := (D - 6) mod 10;
       Complete.d_branchIndex := D mod 12 |}.
Proof.
  rewrite complete_day_pillar_unfold. cbv zeta.
  by rewrite normalize_minus_6, normalize_minus_12.
Qed.






Lemma tianGan_at i :
  0 <= i < 10 →
  ∃ gan, Js.index Complete.tianGan i = Some gan ∧ gan ∈ Complete.tianGan
         ∧ ganIndexOf (Some gan) = i.
Proof.
  intros Hr.
  assert (i = 0 ∨ i = 1 ∨ i = 2 ∨ i = 3 ∨ i = 4 ∨ i = 5 ∨ i = 6 ∨ i = 7
          ∨ i = 8 ∨ i = 9) as Hc by lia.
  clear Hr.
  repeat destruct Hc as [-> | Hc]; try subst i;
    (eexists; split; [reflexivity |];
     split; [unfold Complete.tianGan; set_solver | reflexivity]).
Qed.

Lemma diZhi_at i :
  0 <= i < 12 →
  ∃ zhi, Js.index Complete.diZhi i = Some zhi ∧ zhi ∈ Complete.diZhi
         ∧ zhiIndexOf zhi = i.
Proof.
  intros Hr.
  assert (i = 0 ∨ i = 1 ∨ i = 2 ∨ i = 3 ∨ i = 4 ∨ i = 5 ∨ i = 6 ∨ i = 7
          ∨ i = 8 ∨ i = 9 ∨ i = 10 ∨ i = 11) as Hc by lia.
  clear Hr.
  repeat destruct Hc as [-> | Hc]; try subst i;
    (eexists; split; [reflexivity |];
     split; [unfold Complete.diZhi; set_solver | reflexivity]).
Qed.







(** X15.  For a day stem of the ten and every hour from 0 to 23,
    [calculateHourPillar] of [CompleteBaZiCalculator] returns a pillar
    whose branch is at position [(hour + 1) / 2] modulo 12, so that each
    odd hour opens a two-hour slot and 23 and 0 share one, and whose stem
    is defined and at position [2 * i + branch] modulo 10 for the position
    [i] of the day stem. *)
Theorem complete_hour_pillar_slots dayStem hour minute :
  dayStem ∈ Complete.tianGan → 0 <= hour <= 23 →
  ∃ r gan, Complete.calculateHourPillar dayStem hour minute = Some r
       ∧ zhiIndexOf (Complete.h_branch r) = (hour + 1) / 2 mod 12
       ∧ Complete.h_stem r = Some gan
       ∧ ganIndexOf (Some gan)
         = (2 * ganIndexOf (Some dayStem) + zhiIndexOf (Complete.h_branch r))
           mod 10
       ∧ Complete.h_pillar r = (gan ++ Complete.h_branch r)%string.
Proof.
  intros Hs Hh. pose proof (hour_checked dayStem hour Hs Hh) as Hc.
  unfold hourChecked in Hc.
  change (Complete.calculateHourPillar dayStem hour minute)
    with (Complete.calculateHourPillar dayStem hour 0).
  assert (Hp : ∀ r, Complete.calculateHourPillar dayStem hour 0 = Some r →
               Complete.h_pillar r
               = (Js.show (Complete.h_stem r) ++ Complete.h_branch r)%string).
  { unfold Complete.calculateHourPillar.
    destruct (Complete.findHourInfo hour) as [slot |]; [| discriminate].
    cbn [mbind option_bind]. intros r [= <-]. reflexivity. }
  destruct (Complete.calculateHourPillar dayStem hour 0) as [r |];
    [| discriminate].
  specialize (Hp r eq_refl).
  repeat (apply andb_true_iff in Hc as [Hc ?]).
  repeat match goal with H : bool_decide _ = true |- _ =>
    apply bool_decide_eq_true in H end.
  match goal with H : is_Some _ |- _ => destruct H as [gan Hgan] end.
  exists r, gan. rewrite Hp, Hgan. rewrite Hgan in *.
  repeat split; assumption.
Qed.

Lemma complete_hour_pillar_slots_witness :
  "甲" ∈ Complete.tianGan ∧ 0 <= 13 <= 23
  ∧ ∃ r gan, Complete.calculateHourPillar "甲" 13 30 = Some r
       ∧ zhiIndexOf (Complete.h_branch r) = (13 + 1) / 2 mod 12
       ∧ Complete.h_stem r = Some gan
       ∧ ganIndexOf (Some gan)
         = (2 * ganIndexOf (Some "甲") + zhiIndexOf (Complete.h_branch r))
           mod 10
       ∧ Complete.h_pillar r = (gan ++ Complete.h_branch r)%string.
Proof.
  assert (H : "甲" ∈ Complete.tianGan) by (unfold Complete.tianGan; set_solver).
  split; [exact H |]. split; [lia |].
  apply (complete_hour_pillar_slots "甲" 13 30 H). lia.
Defined.

(** X16.  For a day stem of the ten and every hour from 0 to 23 the two
    calculators return the same branch of the hour but never the same
    stem: [bazi-calculator.ts] starts the stems of the day two places
    further than the table [dayGanToHourGan] of [CompleteBaZiCalculator]. *)
Theorem hour_pillars_same_branch_other_stem dayStem hour minute :
  dayStem ∈ Complete.tianGan → 0 <= hour <= 23 →
  ∃ r, Complete.calculateHourPillar dayStem hour minute = Some r
       ∧ Bazi.branch (Bazi.calculateHourPillar (Some dayStem) hour)
         = Some (Complete.h_branch r)
       ∧ Bazi.stem (Bazi.calculateHourPillar (Some dayStem) hour)
         ≠ Complete.h_stem r.
Proof.
  intros Hs Hh. pose proof (hour_checked dayStem hour Hs Hh) as Hc.
  unfold hourChecked in Hc.
  change (Complete.calculateHourPillar dayStem hour minute)
    with (Complete.calculateHourPillar dayStem hour 0).
  destruct (Complete.calculateHourPillar dayStem hour 0) as [r |];
    [| discriminate].
  repeat (apply andb_true_iff in Hc as [Hc ?]).
  repeat match goal with H : bool_decide _ = true |- _ =>
    apply bool_decide_eq_true in H end.
  exists r. repeat split; assumption.
Qed.

Lemma hour_pillars_same_branch_other_stem_witness :
  "甲" ∈ Complete.tianGan ∧ 0 <= 13 <= 23
  ∧ ∃ r, Complete.calculateHourPillar "甲" 13 30 = Some r
       ∧ Bazi.branch (Bazi.calculateHourPillar (Some "甲") 13)
         = Some (Complete.h_branch r)
       ∧ Bazi.stem (Bazi.calculateHourPillar (Some "甲") 13)
         ≠ Complete.h_stem r.
Proof.
  assert (H : "甲" ∈ Complete.tianGan) by (unfold Complete.tianGan; set_solver).
  split; [exact H |]. split; [lia |].
  apply (hour_pillars_same_branch_other_stem "甲" 13 30 H). lia.
Defined.

End CompletePillars.

(** * True solar time: when it is returned, and what it holds *)

Section SolarTimeFields.

Import Terms.
Open Scope Q_scope.

(** Every entry of [CHINESE_CITIES] is stored under its own name, lies in
    the zone of 8 hours, and has a longitude between those of 乌鲁木齐 and
    哈尔滨. *)
Lemma listed_city cityName location :
  Astro.getLocationByCity cityName = Some location →
  Astro.name location = cityName
  ∧ Astro.timezone location == 8
  ∧ 876168 # 10000 <= Astro.longitude location <= 1266424 # 10000.
Proof.
  unfold Astro.getLocationByCity, Astro.CHINESE_CITIES. intros Hcity.
  apply elem_of_list_to_map_2 in Hcity.
  repeat (apply elem_of_cons in Hcity as [[= -> ->] | Hcity];
          [by vm_compute |]).
  by apply elem_of_nil in Hcity.
Qed.

Lemma Qfloor_minus_Z (x : Q) (n : Z) :
  Qfloor (x - inject_Z n) = (Qfloor x - n)%Z.
Proof.
  pose proof (Qfloor_le x) as Hlo. pose proof (Qlt_floor x) as Hhi.
  assert (H : (Qfloor x - n <= Qfloor (x - inject_Z n) < Qfloor x - n + 1)%Z).
  { apply Qfloor_between.
    - unfold Z.sub. rewrite inject_Z_plus, inject_Z_opp. lra.
    - replace (Qfloor x - n + 1)%Z with (Qfloor x + 1 + - n)%Z by lia.
      rewrite inject_Z_plus, inject_Z_opp. lra. }
  lia.
Qed.

Lemma truncate_nonneg (x : Q) : 0 <= x → Astro.truncate x = Qfloor x.
Proof.
  intros Hx. unfold Astro.truncate, Qfloor. destruct x as [a b].
  cbn [Qnum Qden]. apply Z.quot_div_nonneg; [| lia].
  unfold Qle in Hx. cbn in Hx. lia.
Qed.

Lemma floor_of_sixtieth (x : Q) (h : Z) :
  Qfloor (x / 60) = h → inject_Z h * 60 <= x ∧ x < inject_Z h * 60 + 60.
Proof.
  intros <-. pose proof (Qfloor_le (x / 60)) as Hlo.
  pose proof (Qlt_floor (x / 60)) as Hhi.
  rewrite inject_Z_plus in Hhi. change (inject_Z 1) with 1 in Hhi.
  assert (Hx : x == x / 60 * 60) by (field).
  generalize dependent (x / 60). intros y Hlo Hhi Hx. lra.
Qed.

(** What a returned true solar time holds: the date that was given, the
    hour [Math.floor(totalMinutes / 60)], which is within the day, and the
    minute and second of [totalMinutes]. *)
Lemma true_solar_time_fields sin PI year month day hour minute location r :
  Astro.calculateTrueSolarTime sin PI year month day hour minute location
  = Some r →
  0 <= totalMinutesAt sin PI year month day hour minute location
  ∧ (Astro.hour r * 60 + Astro.minute r
     = Qfloor (totalMinutesAt sin PI year month day hour minute location))%Z
  ∧ (0 <= Astro.minute r < 60)%Z
  ∧ (0 <= Astro.second r < 60)%Z.
Proof.
  intros Hr.
  pose proof (true_solar_time_keeps_date _ _ _ _ _ _ _ _ _ Hr)
    as (_ & _ & _ & Hrange & Hhour & _).
  assert (Hmin : Astro.minute r
                 = Qfloor (Astro.fmod
                     (totalMinutesAt sin PI year month day hour minute location)
                     60)
               ∧ Astro.second r
                 = Qfloor (Astro.fmod
                     (totalMinutesAt sin PI year month day hour minute location)
                     1 * 60)).
  { revert Hr. unfold Astro.calculateTrueSolarTime. cbn zeta.
    fold (totalMinutesAt sin PI year month day hour minute location).
    generalize (totalMinutesAt sin PI year month day hour minute location).
    intros tm.
    generalize (Astro.equationOfTime sin PI
                  (Astro.julianDay year month day hour minute 0)).
    generalize (Astro.julianDay year month day hour minute 0).
    generalize (Js.getDay (Js.Date_new year (month - 1) day 0 0)).
    generalize (Astro.longitudeCorrection location).
    intros lon dow jd eot.
    destruct (Astro.dateCrossing _ _ _ _) as [[? ?] ?].
    destruct (_ || _); [discriminate |]. intros Heq.
    injection Heq as Heq. subst r.
    cbn [Astro.minute Astro.second]. split; reflexivity. }
  destruct Hmin as [Hmin Hsec]. unfold trueHourAt in Hhour.
  set (tm := totalMinutesAt sin PI year month day hour minute location) in *.
  clearbody tm. clear Hr.
  destruct (floor_of_sixtieth tm (Astro.hour r) (eq_sym Hhour)) as [Hlo Hhi].
  assert (H0 : 0 <= inject_Z (Astro.hour r)).
  { change 0 with (inject_Z 0). rewrite <- Zle_Qle. lia. }
  assert (Htm : 0 <= tm) by lra.
  assert (Hdiv : 0 <= tm / 60) by (apply Qle_shift_div_l; lra).
  assert (Hfmod : Astro.fmod tm 60 == tm - inject_Z (60 * Astro.hour r)).
  { unfold Astro.fmod. rewrite truncate_nonneg by exact Hdiv.
    rewrite <- Hhour, inject_Z_mult. reflexivity. }
  assert (Hfmod1 : Astro.fmod tm 1 == tm - inject_Z (Qfloor tm)).
  { unfold Astro.fmod.
    assert (Hone : tm / 1 == tm) by field.
    rewrite truncate_nonneg by (rewrite Hone; exact Htm).
    rewrite Hone. ring. }
  rewrite Hfmod, Qfloor_minus_Z in Hmin.
  pose proof (Qfloor_le tm) as Hfl. pose proof (Qlt_floor tm) as Hfl'.
  rewrite inject_Z_plus in Hfl'. change (inject_Z 1) with 1 in Hfl'.
  split; [exact Htm |]. split; [lia |]. split.
  - assert (60 * Astro.hour r <= Qfloor tm < 60 * Astro.hour r + 60)%Z;
      [| lia].
    apply Qfloor_between.
    + rewrite inject_Z_mult. change (inject_Z 60) with 60. lra.
    + rewrite inject_Z_plus, inject_Z_mult. change (inject_Z 60) with 60. lra.
  - rewrite Hsec. apply Qfloor_between.
    + rewrite Hfmod1. change (inject_Z 0) with 0. lra.
    + rewrite Hfmod1. change (inject_Z 60) with 60. lra.
Qed.

(** X17.  [calculateTrueSolarTime] throws exactly when the corrected hour
    [Math.floor(totalMinutes / 60)] leaves the day.  When it returns, the
    date is the one it was given, the hour is that corrected hour, minute
    and second are between 0 and 59, and hour and minute together are the
    whole minutes of [totalMinutes]. *)
Theorem true_solar_time_well_formed sin PI year month day hour minute location :
  (Astro.calculateTrueSolarTime sin PI year month day hour minute location
   = None
   ↔ (trueHourAt sin PI year month day hour minute location < 0
      ∨ 24 <= trueHourAt sin PI year month day hour minute location)%Z)
  ∧ ∀ r,
      Astro.calculateTrueSolarTime sin PI year month day hour minute location
      = Some r →
      Astro.year r = year ∧ Astro.month r = month ∧ Astro.day r = day
      ∧ Astro.hour r = trueHourAt sin PI year month day hour minute location
      ∧ (0 <= Astro.hour r < 24)%Z
      ∧ (0 <= Astro.minute r < 60)%Z
      ∧ (0 <= Astro.second r < 60)%Z
      ∧ (Astro.hour r * 60 + Astro.minute r
         = Qfloor (totalMinutesAt sin PI year month day hour minute location))%Z.
Proof.
  split.
  - split.
    + intros Hnone.
      destruct (Z_lt_dec
                  (trueHourAt sin PI year month day hour minute location) 0);
        [by left |].
      destruct (Z_le_dec 24
                  (trueHourAt sin PI year month day hour minute location));
        [by right |].
      destruct (true_solar_time_returns sin PI year month day hour minute
                  location) as [r Hr]; [lia |].
      rewrite Hr in Hnone. discriminate.
    + intros Hout. apply true_solar_time_throws. lia.
  - intros r Hr.
    pose proof (true_solar_time_keeps_date _ _ _ _ _ _ _ _ _ Hr)
      as (Hy & Hm & Hd & Hrange & Hhour & _).
    pose proof (true_solar_time_fields _ _ _ _ _ _ _ _ _ Hr)
      as (_ & Hsum & Hmin & Hsec).
    repeat split; try assumption; lia.
Qed.

Lemma listed_city_total_minutes sin PI cityName location
    year month day hour minute :
  BoundedSine sin →
  Astro.getLocationByCity cityName = Some location →
  inject_Z (hour * 60 + minute + 346)
  <= totalMinutesAt sin PI year month day hour minute location
  ∧ totalMinutesAt sin PI year month day hour minute location
    < inject_Z (hour * 60 + minute + 511).
Proof.
  intros Hsin Hcity. destruct (listed_city _ _ Hcity) as (_ & Htz & Hlo & Hhi).
  unfold totalMinutesAt, Astro.longitudeCorrection, Astro.standardLongitude.
  pose proof (equationOfTime_bound sin PI
                (Astro.julianDay year month day hour minute 0) Hsin)
    as [Helo Hehi].
  generalize dependent (Astro.equationOfTime sin PI
                          (Astro.julianDay year month day hour minute 0)).
  intros eot Helo Hehi.
  rewrite !inject_Z_plus, inject_Z_mult.
  change (inject_Z 60) with 60. change (inject_Z 346) with 346.
  change (inject_Z 511) with 511.
  generalize dependent (Astro.longitude location).
  generalize dependent (Astro.timezone location).
  generalize (inject_Z hour) (inject_Z minute). intros. lra.
Qed.

(** X18.  For every city of [CHINESE_CITIES], as [getLocationByCity]
    returns it, and every sine bounded by 1, [calculateTrueSolarTime] moves
    the clock forward by between 346 and 510 minutes: it throws for every
    clock time from 18:14 on, and a time it returns is that much later than
    the time it was given. *)
Theorem listed_city_clock_shift sin PI cityName location
    year month day hour minute :
  BoundedSine sin →
  Astro.getLocationByCity cityName = Some location →
  ((1094 <= hour * 60 + minute)%Z →
   Astro.calculateTrueSolarTime sin PI year month day hour minute location
   = None)
  ∧ ∀ r,
      Astro.calculateTrueSolarTime sin PI year month day hour minute location
      = Some r →
      (hour * 60 + minute + 346 <= Astro.hour r * 60 + Astro.minute r
       <= hour * 60 + minute + 510)%Z.
Proof.
  intros Hsin Hcity.
  destruct (listed_city_total_minutes sin PI cityName location
              year month day hour minute Hsin Hcity) as [Hlo Hhi].
  split.
  - intros Hlate. apply true_solar_time_throws. left.
    unfold trueHourAt. rewrite <- (Qfloor_Z 24). apply Qfloor_resp_le.
    apply Qle_shift_div_l; [reflexivity |].
    assert (inject_Z 1094 <= inject_Z (hour * 60 + minute))
      by (by rewrite <- Zle_Qle).
    rewrite inject_Z_plus in Hlo. change (inject_Z 24) with 24.
    change (inject_Z 1094) with 1094 in *. change (inject_Z 346) with 346 in *.
    lra.
  - intros r Hr.
    pose proof (true_solar_time_fields _ _ _ _ _ _ _ _ _ Hr)
      as (_ & Hsum & _ & _).
    rewrite Hsum.
    assert (hour * 60 + minute + 346
            <= Qfloor (totalMinutesAt sin PI year month day hour minute
                         location)
            < hour * 60 + minute + 511)%Z; [| lia].
    by apply Qfloor_between.
Qed.

Lemma listed_city_clock_shift_witness :
  BoundedSine flatSine
  ∧ Astro.getLocationByCity "北京" = Some beijing
  ∧ ((1094 <= 19 * 60 + 0)%Z →
     Astro.calculateTrueSolarTime flatSine PI_approx 2024 5 15 19 0 beijing
     = None)
  ∧ ∀ r,
      Astro.calculateTrueSolarTime flatSine PI_approx 2024 5 15 19 0 beijing
      = Some r →
      (19 * 60 + 0 + 346 <= Astro.hour r * 60 + Astro.minute r
       <= 19 * 60 + 0 + 510)%Z.
Proof.
  assert (Hsin : BoundedSine flatSine) by (intros x; split; discriminate).
  assert (Hcity : Astro.getLocationByCity "北京" = Some beijing)
    by reflexivity.
  split; [exact Hsin |]. split; [exact Hcity |].
  exact (listed_city_clock_shift flatSine PI_approx "北京" beijing
           2024 5 15 19 0 Hsin Hcity).
Defined.

End SolarTimeFields.

(** * The Julian day against the calendar of [Date] *)

Section JulianDay.

Import Terms Compare.
Ltac Zify.zify_post_hook ::= Z.to_euclidean_division_equations.




Local Open Scope Q_scope.



End JulianDay.

(** * The ten gods of [CompleteBaZiCalculator] *)

Section CompleteTenGods.

Import Terms CompleteCalculate.

Lemma ten_gods_tables_checked : tenGodsTablesChecked = true.
Proof. vm_compute. reflexivity. Qed.

Lemma ten_gods_checked dayMaster :
  dayMaster ∈ Complete.tianGan → tenGodsChecked dayMaster = true.
Proof.
  intros Hd. pose proof ten_gods_tables_checked as Hall.
  unfold tenGodsTablesChecked in Hall. rewrite forallb_forall in Hall.
  apply Hall. by apply list_elem_of_In.
Qed.

Lemma relationships_unknown dayMaster :
  dayMaster ∉ Complete.tianGan → relationships !! dayMaster = None.
Proof.
  intros Hd. unfold relationships. apply not_elem_of_list_to_map_1.
  exact Hd.
Qed.

Lemma ten_gods_self dayMaster :
  dayMaster ∈ Complete.tianGan →
  calculateTenGods (Some dayMaster) !! "比肩" = Some [dayMaster].
Proof.
  unfold Complete.tianGan. intros Hd.
  repeat (apply elem_of_cons in Hd as [-> | Hd]; [by vm_compute |]).
  by apply elem_of_nil in Hd.
Qed.

(** X20.  [calculateTenGods] of [CompleteBaZiCalculator] is the table
    [TEN_GODS] of [bazi-calculator.ts] read the other way round: for a day
    master of the ten stems it lists exactly one stem under each of the ten
    names and nothing else, a stem is listed under a name exactly when
    [TEN_GODS] gives the stem that name, and the day master itself is
    listed under 比肩.  For any other day master, [undefined] included, it
    returns the ten names with empty lists. *)
Theorem complete_ten_gods_inverse dayMaster :
  (dayMaster ∈ Complete.tianGan →
   (∀ god stem,
      calculateTenGods (Some dayMaster) !! god = Some [stem]
      ↔ stem ∈ Complete.tianGan ∧ classify dayMaster stem = Some god)
   ∧ (∀ god,
        god ∈ Bazi.TEN_GOD_LABELS
        ↔ ∃ stem, calculateTenGods (Some dayMaster) !! god = Some [stem])
   ∧ (∀ god stems,
        calculateTenGods (Some dayMaster) !! god = Some stems →
        god ∈ Bazi.TEN_GOD_LABELS ∧ length stems = 1%nat)
   ∧ calculateTenGods (Some dayMaster) !! "比肩" = Some [dayMaster])
  ∧ (dayMaster ∉ Complete.tianGan →
     calculateTenGods (Some dayMaster) = emptyTenGods)
  ∧ calculateTenGods None = emptyTenGods.
Proof.
  split; [| split; [| reflexivity]].
  - intros Hd. pose proof (ten_gods_checked dayMaster Hd) as Hc.
    unfold tenGodsChecked in Hc.
    apply andb_true_iff in Hc as [Hc Hdom].
    apply andb_true_iff in Hc as [Hlisted Hnamed].
    apply bool_decide_eq_true in Hdom.
    rewrite forallb_forall in Hlisted. rewrite forallb_forall in Hnamed.
    assert (Hentry : ∀ god stems,
              calculateTenGods (Some dayMaster) !! god = Some stems →
              ∃ stem, stems = [stem] ∧ stem ∈ Complete.tianGan
                      ∧ classify dayMaster stem = Some god).
    { intros god stems Hgod.
      apply elem_of_map_to_list, list_elem_of_In in Hgod.
      specialize (Hlisted _ Hgod). cbn beta iota in Hlisted.
      destruct stems as [| stem [| ? ?]]; try discriminate.
      apply andb_true_iff in Hlisted as [H1 H2].
      apply bool_decide_eq_true in H1. apply bool_decide_eq_true in H2.
      eauto. }
    assert (Hstem : ∀ stem god,
              stem ∈ Complete.tianGan → classify dayMaster stem = Some god →
              calculateTenGods (Some dayMaster) !! god = Some [stem]).
    { intros stem god Hs Hgod. apply list_elem_of_In in Hs.
      specialize (Hnamed _ Hs). cbn beta in Hnamed. rewrite Hgod in Hnamed.
      by apply bool_decide_eq_true in Hnamed. }
    assert (Hlabel : ∀ god,
              god ∈ Bazi.TEN_GOD_LABELS
              ↔ is_Some (calculateTenGods (Some dayMaster) !! god)).
    { intros god. rewrite <- elem_of_dom, Hdom, elem_of_list_to_set.
      reflexivity. }
    split; [| split; [| split]].
    + intros god stem. split.
      * intros Hgod. destruct (Hentry _ _ Hgod) as (stem' & [= <-] & ? & ?).
        by split.
      * intros [Hs Hgod]. by apply Hstem.
    + intros god. rewrite Hlabel. split.
      * intros [stems Hgod]. destruct (Hentry _ _ Hgod) as (stem & -> & _).
        eauto.
      * intros [stem Hgod]. eauto.
    + intros god stems Hgod. split; [apply Hlabel; eauto |].
      by destruct (Hentry _ _ Hgod) as (stem & -> & _).
    + apply Hstem; [exact Hd |].
      by destruct (ten_gods_total dayMaster dayMaster Hd Hd) as [_ ?].
  - intros Hd. unfold calculateTenGods. cbn [Bazi.at_key mbind option_bind].
    by rewrite relationships_unknown.
Qed.

End CompleteTenGods.

(** * [analyzeFiveElements] counts characters *)

Section AnalyzeFiveElements.

Import Terms CompleteCalculate.

Lemma split_head c r :
  ∃ piece pieces, Complete.split (String c r) = String c piece :: pieces.
Proof.
  cbn [Complete.split]. destruct (Complete.split r) as [| [| c' piece] pieces];
    [eauto | eauto |].
  destruct (Complete.continuation c'); eauto.
Qed.

Lemma split_char_app tail : ∀ c s,
  allContinuation tail = true → startsChar s = true →
  Complete.split (String c tail ++ s) = String c tail :: Complete.split s.
Proof.
  induction tail as [| t tail IH]; intros c s Htail Hs.
  - change (String c "" ++ s) with (String c s).
    destruct s as [| c' r]; [reflexivity |].
    cbn [startsChar] in Hs. apply negb_true_iff in Hs.
    destruct (split_head c' r) as (piece & pieces & Hsplit).
    change (Complete.split (String c (String c' r)))
      with (match Complete.split (String c' r) with
            | String c' piece :: pieces =>
                if Complete.continuation c'
                then String c (String c' piece) :: pieces
                else String c "" :: String c' piece :: pieces
            | pieces => String c "" :: pieces
            end).
    rewrite Hsplit, Hs. reflexivity.
  - cbn [allContinuation] in Htail. apply andb_true_iff in Htail as [Ht Htail].
    change (String c (String t tail) ++ s)
      with (String c (String t tail ++ s)).
    change (Complete.split (String c (String t tail ++ s)))
      with (match Complete.split (String t tail ++ s) with
            | String c' piece :: pieces =>
                if Complete.continuation c'
                then String c (String c' piece) :: pieces
                else String c "" :: String c' piece :: pieces
            | pieces => String c "" :: pieces
            end).
    rewrite (IH t s Htail Hs), Ht. reflexivity.
Qed.

Lemma join_startsChar chars :
  forallb isChar chars = true → startsChar (join chars) = true.
Proof.
  destruct chars as [| [| c tail] rest]; [reflexivity | discriminate |].
  intros Hall. cbn [forallb isChar] in Hall.
  apply andb_true_iff in Hall as [Hch _].
  apply andb_true_iff in Hch as [Hc _]. exact Hc.
Qed.

(** Cutting the concatenation of characters gives the characters back. *)
Lemma split_join chars :
  forallb isChar chars = true → Complete.split (join chars) = chars.
Proof.
  induction chars as [| ch rest IH]; [reflexivity |].
  intros Hall. cbn [forallb] in Hall. apply andb_true_iff in Hall as [Hch Hrest].
  destruct ch as [| c tail]; [discriminate |].
  cbn [isChar] in Hch. apply andb_true_iff in Hch as [_ Htail].
  cbn [join]. rewrite split_char_app;
    [by rewrite IH | exact Htail | by apply join_startsChar].
Qed.

Lemma wuXing_entry ch element :
  Complete.wuXing !! ch = Some element →
  Complete.isWhiteSpace ch = false ∧ element ∈ ELEMENTS.
Proof.
  unfold Complete.wuXing. intros Hch. apply elem_of_list_to_map_2 in Hch.
  repeat (apply elem_of_cons in Hch as [[= -> ->] | Hch];
          [split; [by vm_compute | unfold ELEMENTS; set_solver] |]).
  by apply elem_of_nil in Hch.
Qed.

Local Open Scope Q_scope.

(** One step of the count, bucket by bucket. *)
Lemma count_buckets e ch :
  let hit element : Q :=
    if decide (Complete.wuXing !! ch = Some element) then 1 else 0 in
  Bazi.wood (Complete.count e ch) == Bazi.wood e + hit "木"%string
  ∧ Bazi.fire (Complete.count e ch) == Bazi.fire e + hit "火"%string
  ∧ Bazi.earth (Complete.count e ch) == Bazi.earth e + hit "土"%string
  ∧ Bazi.metal (Complete.count e ch) == Bazi.metal e + hit "金"%string
  ∧ Bazi.water (Complete.count e ch) == Bazi.water e + hit "水"%string.
Proof.
  cbv zeta. unfold Complete.count.
  destruct (Complete.wuXing !! ch) as [element |] eqn:Hch.
  - destruct (wuXing_entry _ _ Hch) as [_ Hel]. unfold ELEMENTS in Hel.
    repeat (apply elem_of_cons in Hel as [-> | Hel];
            [repeat case_decide; try discriminate; try done;
             cbn [Bazi.wood Bazi.fire Bazi.earth Bazi.metal Bazi.water];
             repeat split; ring |]).
    by apply elem_of_nil in Hel.
  - repeat case_decide; try discriminate. repeat split; ring.
Qed.

Lemma occurrences_cons element ch chars :
  inject_Z (Z.of_nat (occurrences element (ch :: chars)))
  == (if decide (Complete.wuXing !! ch = Some element) then 1 else 0)
     + inject_Z (Z.of_nat (occurrences element chars)).
Proof.
  unfold occurrences. rewrite filter_cons. case_decide.
  - cbn [length]. rewrite Nat2Z.inj_succ, <- Z.add_1_l, inject_Z_plus.
    reflexivity.
  - ring.
Qed.

Lemma foldl_count_buckets chars : ∀ e,
  let n element := inject_Z (Z.of_nat (occurrences element chars)) in
  Bazi.wood (foldl Complete.count e chars) == Bazi.wood e + n "木"%string
  ∧ Bazi.fire (foldl Complete.count e chars) == Bazi.fire e + n "火"%string
  ∧ Bazi.earth (foldl Complete.count e chars) == Bazi.earth e + n "土"%string
  ∧ Bazi.metal (foldl Complete.count e chars) == Bazi.metal e + n "金"%string
  ∧ Bazi.water (foldl Complete.count e chars) == Bazi.water e + n "水"%string.
Proof.
  induction chars as [| ch rest IH]; intros e; cbv zeta.
  - cbn [foldl]. unfold occurrences. cbn. repeat split; ring.
  - cbn [foldl]. destruct (IH (Complete.count e ch)) as (Hw & Hf & He & Hm & Ha).
    destruct (count_buckets e ch) as (Hw' & Hf' & He' & Hm' & Ha').
    cbv zeta in *. rewrite !occurrences_cons.
    rewrite Hw, Hf, He, Hm, Ha, Hw', Hf', He', Hm', Ha'.
    repeat split; ring.
Qed.

(** White space is no key of [wuXing]: removing it changes no count. *)
Lemma occurrences_no_space element chars :
  occurrences element (filter (λ ch, Complete.isWhiteSpace ch = false) chars)
  = occurrences element chars.
Proof.
  unfold occurrences. induction chars as [| ch rest IH]; [reflexivity |].
  rewrite !filter_cons. destruct (decide (Complete.isWhiteSpace ch = false)) as [Hws | Hws].
  - rewrite filter_cons. case_decide; cbn [length]; by rewrite IH.
  - case_decide as Hch; [| exact IH].
    destruct (wuXing_entry _ _ Hch) as [Hno _]. contradiction.
Qed.

Lemma known_sum chars :
  known chars
  = (occurrences "木" chars + occurrences "火" chars + occurrences "土" chars
     + occurrences "金" chars + occurrences "水" chars)%nat.
Proof.
  unfold known, occurrences. induction chars as [| ch rest IH]; [reflexivity |].
  rewrite !filter_cons.
  destruct (Complete.wuXing !! ch) as [element |] eqn:Hch.
  - destruct (wuXing_entry _ _ Hch) as [_ Hel]. unfold ELEMENTS in Hel.
    repeat (apply elem_of_cons in Hel as [-> | Hel];
            [repeat case_decide; try discriminate; try done;
             try (exfalso; eauto; fail); cbn [length]; lia |]).
    by apply elem_of_nil in Hel.
  - repeat case_decide; try discriminate;
      try (match goal with H : is_Some None |- _ => by destruct H end).
    exact IH.
Qed.

Lemma analyze_join_buckets chars :
  forallb isChar chars = true →
  let e := Complete.analyzeFiveElements (join chars) in
  Bazi.wood e == inject_Z (Z.of_nat (occurrences "木" chars))
  ∧ Bazi.fire e == inject_Z (Z.of_nat (occurrences "火" chars))
  ∧ Bazi.earth e == inject_Z (Z.of_nat (occurrences "土" chars))
  ∧ Bazi.metal e == inject_Z (Z.of_nat (occurrences "金" chars))
  ∧ Bazi.water e == inject_Z (Z.of_nat (occurrences "水" chars)).
Proof.
  intros Hchars e. subst e. unfold Complete.analyzeFiveElements. cbv zeta.
  rewrite (split_join chars Hchars).
  destruct (foldl_count_buckets
              (filter (λ ch, Complete.isWhiteSpace ch = false) chars)
              (Bazi.mkElements 0 0 0 0 0)) as (Hw & Hf & He & Hm & Ha).
  cbv zeta in *. rewrite !occurrences_no_space in *.
  cbn [Bazi.wood Bazi.fire Bazi.earth Bazi.metal Bazi.water] in *.
  rewrite Hw, Hf, He, Hm, Ha. repeat split; ring.
Qed.

Lemma analyze_join_total chars :
  forallb isChar chars = true →
  total (Complete.analyzeFiveElements (join chars))
  == inject_Z (Z.of_nat (known chars)).
Proof.
  intros Hchars.
  destruct (analyze_join_buckets chars Hchars) as (Hw & Hf & He & Hm & Ha).
  cbv zeta in *. unfold total.
  rewrite known_sum, !Nat2Z.inj_add, !inject_Z_plus.
  rewrite Hw, Hf, He, Hm, Ha. reflexivity.
Qed.

(** X21.  [analyzeFiveElements] of [CompleteBaZiCalculator], given the
    concatenation of any characters, counts in each of the five buckets
    the characters that [wuXing] maps to that element: stems and branches
    count one each, white space and every other character count nothing,
    and the five buckets add up to the number of stems and branches in the
    string. *)
Theorem analyze_counts_characters chars :
  forallb isChar chars = true →
  let e := Complete.analyzeFiveElements (join chars) in
  Bazi.wood e == inject_Z (Z.of_nat (occurrences "木" chars))
  ∧ Bazi.fire e == inject_Z (Z.of_nat (occurrences "火" chars))
  ∧ Bazi.earth e == inject_Z (Z.of_nat (occurrences "土" chars))
  ∧ Bazi.metal e == inject_Z (Z.of_nat (occurrences "金" chars))
  ∧ Bazi.water e == inject_Z (Z.of_nat (occurrences "水" chars))
  ∧ total e == inject_Z (Z.of_nat (known chars)).
Proof.
  intros Hchars e. subst e.
  destruct (analyze_join_buckets chars Hchars) as (Hw & Hf & He & Hm & Ha).
  pose proof (analyze_join_total chars Hchars) as Ht.
  cbv zeta in *. repeat split; assumption.
Qed.

Lemma analyze_counts_characters_witness :
  forallb isChar ["甲"; "子"; " "; "x"; "寅"]%string = true
  ∧ let e := Complete.analyzeFiveElements
               (join ["甲"; "子"; " "; "x"; "寅"]%string) in
    Bazi.wood e
    == inject_Z (Z.of_nat (occurrences "木" ["甲"; "子"; " "; "x"; "寅"]%string))
    ∧ Bazi.fire e
      == inject_Z (Z.of_nat (occurrences "火" ["甲"; "子"; " "; "x"; "寅"]%string))
    ∧ Bazi.earth e
      == inject_Z (Z.of_nat (occurrences "土" ["甲"; "子"; " "; "x"; "寅"]%string))
    ∧ Bazi.metal e
      == inject_Z (Z.of_nat (occurrences "金" ["甲"; "子"; " "; "x"; "寅"]%string))
    ∧ Bazi.water e
      == inject_Z (Z.of_nat (occurrences "水" ["甲"; "子"; " "; "x"; "寅"]%string))
    ∧ total e
      == inject_Z (Z.of_nat (known ["甲"; "子"; " "; "x"; "寅"]%string)).
Proof.
  assert (H : forallb isChar ["甲"; "子"; " "; "x"; "寅"]%string = true)
    by reflexivity.
  split; [exact H |].
  exact (analyze_counts_characters ["甲"; "子"; " "; "x"; "寅"]%string H).
Defined.

End AnalyzeFiveElements.

(** * [calculate] of [CompleteBaZiCalculator] *)

Section CompleteCalculateResult.

Import Terms Cycle Compare CompleteCalculate CompleteChart.

Lemma append_assoc (a b c : string) : ((a ++ b) ++ c = a ++ (b ++ c))%string.
Proof.
  induction a as [| x a IH]; [reflexivity |].
  change (String x ((a ++ b) ++ c) = String x (a ++ (b ++ c)))%string.
  by rewrite IH.
Qed.

Lemma append_empty (a : string) : (a ++ "" = a)%string.
Proof.
  induction a as [| x a IH]; [reflexivity |].
  change (String x (a ++ "") = String x a)%string. by rewrite IH.
Qed.

(** The chart string is the concatenation of its characters. *)
Lemma chart_chars g1 z1 ms z2 g3 z3 g4 z4 :
  Complete.fullBaZi (Some (g1 ++ z1)) (Js.show ms ++ z2)
    (Some (g3 ++ z3)) (g4 ++ z4)
  = join ([g1; z1; " "] ++ stemChars ms
          ++ [z2; " "; g3; z3; " "; g4; z4])%list.
Proof.
  unfold Complete.fullBaZi, Js.show.
  destruct ms as [gan |]; cbn [default stemChars app join]; unfold id;
    rewrite !append_assoc, ?append_empty; reflexivity.
Qed.

(** Stems and branches are characters that [wuXing] knows; a blank and the
    letters of [undefined] are characters it does not know. *)
Lemma vocabulary_char ch :
  ch ∈ Complete.tianGan ∨ ch ∈ Complete.diZhi →
  isChar ch = true ∧ is_Some (Complete.wuXing !! ch).
Proof.
  unfold Complete.tianGan, Complete.diZhi. intros [Hch | Hch];
    repeat (apply elem_of_cons in Hch as [-> | Hch];
            [split; [reflexivity | by eexists] |]);
    by apply elem_of_nil in Hch.
Qed.

Lemma known_cons_known ch chars :
  is_Some (Complete.wuXing !! ch) → known (ch :: chars) = S (known chars).
Proof. intros H. unfold known. rewrite filter_cons. by case_decide. Qed.

Lemma known_cons_unknown ch chars :
  Complete.wuXing !! ch = None → known (ch :: chars) = known chars.
Proof.
  intros H. unfold known. rewrite filter_cons, H.
  case_decide as Hs; [by destruct Hs | reflexivity].
Qed.

Local Open Scope Q_scope.

(** The five buckets of a chart add up to the number of its stems and
    branches: eight, or seven when the month stem is missing. *)
Lemma chart_total g1 z1 ms z2 g3 z3 g4 z4 :
  g1 ∈ Complete.tianGan → z1 ∈ Complete.diZhi →
  (∀ gan, ms = Some gan → gan ∈ Complete.tianGan) →
  z2 ∈ Complete.diZhi →
  g3 ∈ Complete.tianGan → z3 ∈ Complete.diZhi →
  g4 ∈ Complete.tianGan → z4 ∈ Complete.diZhi →
  total (Complete.analyzeFiveElements
           (Complete.fullBaZi (Some (g1 ++ z1)) (Js.show ms ++ z2)
              (Some (g3 ++ z3)) (g4 ++ z4)))
  == match ms with Some _ => 8 | None => 7 end.
Proof.
  intros Hg1 Hz1 Hms Hz2 Hg3 Hz3 Hg4 Hz4.
  destruct (vocabulary_char g1 (or_introl Hg1)) as [Cg1 Kg1].
  destruct (vocabulary_char z1 (or_intror Hz1)) as [Cz1 Kz1].
  destruct (vocabulary_char z2 (or_intror Hz2)) as [Cz2 Kz2].
  destruct (vocabulary_char g3 (or_introl Hg3)) as [Cg3 Kg3].
  destruct (vocabulary_char z3 (or_intror Hz3)) as [Cz3 Kz3].
  destruct (vocabulary_char g4 (or_introl Hg4)) as [Cg4 Kg4].
  destruct (vocabulary_char z4 (or_intror Hz4)) as [Cz4 Kz4].
  rewrite chart_chars.
  assert (Hblank : Complete.wuXing !! " "%string = None) by reflexivity.
  destruct ms as [gan |].
  - destruct (vocabulary_char gan (or_introl (Hms gan eq_refl))) as [Cg Kg].
    rewrite analyze_join_total.
    + cbn [stemChars app].
      rewrite !known_cons_known, !(known_cons_unknown " "),
        !known_cons_known, !(known_cons_unknown " "),
        !known_cons_known, !(known_cons_unknown " "),
        !known_cons_known by assumption.
      reflexivity.
    + cbn [stemChars app forallb].
      rewrite Cg1, Cz1, Cg, Cz2, Cg3, Cz3, Cg4, Cz4. reflexivity.
  - rewrite analyze_join_total.
    + cbn [stemChars app].
      rewrite !known_cons_known, !(known_cons_unknown " ") by assumption.
      rewrite !(known_cons_unknown "u"), !(known_cons_unknown "n"),
        !(known_cons_unknown "d"), !(known_cons_unknown "e"),
        !(known_cons_unknown "f"), !(known_cons_unknown "i"),
        !(known_cons_unknown "n"), !(known_cons_unknown "e"),
        !(known_cons_unknown "d") by reflexivity.
      rewrite !known_cons_known, !(known_cons_unknown " "),
        !known_cons_known, !(known_cons_unknown " "),
        !known_cons_known by assumption.
      reflexivity.
    + cbn [stemChars app forallb].
      rewrite Cg1, Cz1, Cz2, Cg3, Cz3, Cg4, Cz4. reflexivity.
Qed.

Local Close Scope Q_scope.

Lemma index_Some_elem {A} (arr : list A) i x :
  Js.index arr i = Some x → x ∈ arr.
Proof.
  unfold Js.index. destruct (i <? 0); [discriminate |].
  apply list_elem_of_lookup_2.
Qed.

Lemma year_pillar_chars year month day :
  ∃ gan zhi,
    Complete.y_stem (Complete.calculateYearPillar year month day) = Some gan
    ∧ gan ∈ Complete.tianGan
    ∧ Complete.y_branch (Complete.calculateYearPillar year month day)
      = Some zhi
    ∧ zhi ∈ Complete.diZhi
    ∧ Complete.y_pillar (Complete.calculateYearPillar year month day)
      = Some (gan ++ zhi)%string.
Proof.
  destruct (complete_year_indices_normalized year month day)
    as (_ & _ & _ & _ & (gan & Hgan & Hin) & (zhi & Hzhi & Hin')).
  exists gan, zhi.
  assert (Hp : Complete.y_pillar (Complete.calculateYearPillar year month day)
               = Complete.plus
                   (Complete.y_stem (Complete.calculateYearPillar year month day))
                   (Complete.y_branch
                      (Complete.calculateYearPillar year month day)))
    by reflexivity.
  rewrite Hp, Hgan, Hzhi. repeat split; assumption.
Qed.

Lemma day_pillar_chars year month day :
  ∃ gan zhi,
    Complete.d_stem (Complete.calculateDayPillar year month day) = Some gan
    ∧ gan ∈ Complete.tianGan
    ∧ Complete.d_branch (Complete.calculateDayPillar year month day)
      = Some zhi
    ∧ zhi ∈ Complete.diZhi
    ∧ Complete.d_pillar (Complete.calculateDayPillar year month day)
      = Some (gan ++ zhi)%string.
Proof.
  rewrite complete_day_pillar_at. cbv zeta.
  cbn [Complete.d_stem Complete.d_branch Complete.d_pillar].
  generalize (dayCount year month day). intros D.
  destruct (tianGan_at ((D - 6) mod 10)) as (gan & Hgan & Hin & _);
    [apply Z.mod_pos_bound; lia |].
  destruct (diZhi_at (D mod 12)) as (zhi & Hzhi & Hin' & _);
    [apply Z.mod_pos_bound; lia |].
  exists gan, zhi. rewrite Hgan, Hzhi. repeat split; assumption.
Qed.

Lemma month_pillar_chars year month day yearStem r :
  Complete.calculateMonthPillar year month day yearStem = Some r →
  Complete.m_pillar r
  = (Js.show (Complete.m_stem r) ++ Complete.m_branch r)%string
  ∧ ∀ gan, Complete.m_stem r = Some gan → gan ∈ Complete.tianGan.
Proof.
  unfold Complete.calculateMonthPillar.
  destruct (if month =? 1 then _ else _) as [[monthZhi monthZhiIndex] |];
    [| discriminate].
  cbn [mbind option_bind]. intros [= <-].
  cbn [Complete.m_pillar Complete.m_stem Complete.m_branch].
  split; [reflexivity |]. intros gan.
  destruct (Complete.yearGanToMonthGan !! yearStem); cbn [mbind option_bind];
    [apply index_Some_elem | discriminate].
Qed.

Lemma hour_pillar_chars dayStem hour minute :
  dayStem ∈ Complete.tianGan →
  ∃ r gan,
    Complete.calculateHourPillar dayStem hour minute = Some r
    ∧ Complete.h_stem r = Some gan ∧ gan ∈ Complete.tianGan
    ∧ Complete.h_branch r ∈ Complete.diZhi
    ∧ Complete.h_pillar r = (gan ++ Complete.h_branch r)%string.
Proof.
  intros Hd.
  assert (Hclamp : ∃ h, 0 <= h <= 23
                        ∧ Complete.calculateHourPillar dayStem hour minute
                          = Complete.calculateHourPillar dayStem h 0).
  { destruct (decide (1 <= hour < 23)) as [Hin | Hout].
    - exists hour. split; [lia | reflexivity].
    - exists 0. split; [lia |]. unfold Complete.calculateHourPillar.
      assert (Hslot : Complete.findHourInfo hour = Complete.findHourInfo 0).
      { unfold Complete.findHourInfo.
        replace ((hour >=? 23) || (hour <? 1)) with true
          by (symmetry; apply orb_true_iff; lia).
        reflexivity. }
      by rewrite Hslot. }
  destruct Hclamp as (h & Hh & ->).
  pose proof (hour_checked dayStem h Hd Hh) as Hc. unfold hourChecked in Hc.
  assert (Hp : ∀ r, Complete.calculateHourPillar dayStem h 0 = Some r →
               Complete.h_pillar r
               = (Js.show (Complete.h_stem r) ++ Complete.h_branch r)%string
               ∧ ∀ gan, Complete.h_stem r = Some gan →
                        gan ∈ Complete.tianGan).
  { unfold Complete.calculateHourPillar.
    destruct (Complete.findHourInfo h) as [slot |]; [| discriminate].
    cbn [mbind option_bind]. intros r [= <-].
    cbn [Complete.h_pillar Complete.h_stem Complete.h_branch].
    split; [reflexivity |]. intros gan.
    destruct (Complete.dayGanToHourGan !! dayStem); cbn [mbind option_bind];
      [apply index_Some_elem | discriminate]. }
  destruct (Complete.calculateHourPillar dayStem h 0) as [r |];
    [| discriminate].
  destruct (Hp r eq_refl) as [Hpillar Hgan].
  repeat (apply andb_true_iff in Hc as [Hc ?]).
  repeat match goal with H : bool_decide _ = true |- _ =>
    apply bool_decide_eq_true in H end.
  match goal with H : is_Some _ |- _ => destruct H as [gan Hstem] end.
  exists r, gan. rewrite Hpillar, Hstem.
  repeat split; try assumption. by apply Hgan.
Qed.

(** [calculate] without true solar time, step by step. *)
Lemma calculate_plain_steps sin PI year month day hour minute location :
  calculate sin PI year month day hour minute location false
  = (monthResult ←
       Complete.calculateMonthPillar year month day
         (Js.show (Complete.y_stem
                     (Complete.calculateYearPillar year month day)));
     hourResult ←
       Complete.calculateHourPillar
         (Js.show (Complete.d_stem
                     (Complete.calculateDayPillar year month day)))
         hour minute;
     Some {| yearPillar := Complete.calculateYearPillar year month day;
             monthPillar := monthResult;
             dayPillar := Complete.calculateDayPillar year month day;
             hourPillar := hourResult;
             fiveElements :=
               Complete.analyzeFiveElements
                 (chartOf (Complete.calculateYearPillar year month day)
                    monthResult
                    (Complete.calculateDayPillar year month day) hourResult);
             tenGods :=
               calculateTenGods
                 (Complete.d_stem (Complete.calculateDayPillar year month day));
             dayMaster :=
               Complete.d_stem (Complete.calculateDayPillar year month day);
             birthInfo :=
               {| originalDate := Js.Date_new year (month - 1) day hour minute;
                  trueSolarTime := Js.Date_new year (month - 1) day hour minute;
                  location := location;
                  useTrueSolarTime := false |} |}).
Proof. reflexivity. Qed.

(** With true solar time, [calculate] is the calculation of the same date
    at the corrected hour and minute, when there is one. *)
Lemma calculate_solar_steps sin PI year month day hour minute location :
  calculate sin PI year month day hour minute location true
  = (t ← Astro.calculateTrueSolarTime sin PI year month day hour minute
           location;
     r ← calculate sin PI year month day (Astro.hour t) (Astro.minute t)
           location false;
     Some {| yearPillar := yearPillar r;
             monthPillar := monthPillar r;
             dayPillar := dayPillar r;
             hourPillar := hourPillar r;
             fiveElements := fiveElements r;
             tenGods := tenGods r;
             dayMaster := dayMaster r;
             birthInfo :=
               {| originalDate := Js.Date_new year (month - 1) day hour minute;
                  trueSolarTime :=
                    Js.Date_new year (month - 1) day
                      (Astro.hour t) (Astro.minute t);
                  location := location;
                  useTrueSolarTime := true |} |}).
Proof.
  unfold calculate at 1.
  destruct (Astro.calculateTrueSolarTime sin PI year month day hour minute
              location) as [t |] eqn:Ht; [| reflexivity].
  destruct (true_solar_time_keeps_date _ _ _ _ _ _ _ _ _ Ht)
    as (Hy & Hm & Hd & _).
  cbn [mbind option_bind]. rewrite Hy, Hm, Hd.
  rewrite calculate_plain_steps.
  generalize (Complete.calculateYearPillar year month day).
  generalize (Complete.calculateDayPillar year month day).
  generalize (Js.Date_new year (month - 1) day hour minute).
  generalize (Js.Date_new year (month - 1) day (Astro.hour t) (Astro.minute t)).
  intros solarDate date dayResult yearResult.
  destruct (Complete.calculateMonthPillar year month day _) as [monthResult |];
    [| reflexivity].
  cbn [mbind option_bind].
  destruct (Complete.calculateHourPillar _ (Astro.hour t) (Astro.minute t))
    as [hourResult |]; [| reflexivity].
  cbn [mbind option_bind yearPillar monthPillar dayPillar hourPillar
       fiveElements tenGods dayMaster].
  reflexivity.
Qed.

(** What a chart returned without true solar time holds. *)
Lemma calculate_plain_result sin PI year month day hour minute location :
  (is_Some (calculate sin PI year month day hour minute location false)
   ↔ 1 <= month <= 12)
  ∧ ∀ r,
      calculate sin PI year month day hour minute location false = Some r →
      yearPillar r = Complete.calculateYearPillar year month day
      ∧ Complete.calculateMonthPillar year month day
          (Js.show (Complete.y_stem (yearPillar r)))
        = Some (monthPillar r)
      ∧ dayPillar r = Complete.calculateDayPillar year month day
      ∧ Complete.calculateHourPillar (Js.show (dayMaster r)) hour minute
        = Some (hourPillar r)
      ∧ (∃ gan, dayMaster r = Some gan ∧ gan ∈ Complete.tianGan
                ∧ tenGods r !! "比肩" = Some [gan])
      ∧ is_Some (Complete.h_stem (hourPillar r))
      ∧ (total (fiveElements r)
         == match Complete.m_stem (monthPillar r) with
            | Some _ => 8
            | None => 7
            end)%Q.
Proof.
  rewrite calculate_plain_steps.
  destruct (year_pillar_chars year month day)
    as (g1 & z1 & Hg1 & Hin1 & Hz1 & Hin1' & Hp1).
  destruct (day_pillar_chars year month day)
    as (g3 & z3 & Hg3 & Hin3 & Hz3 & Hin3' & Hp3).
  destruct (hour_pillar_chars g3 hour minute Hin3)
    as (hr & g4 & Hhour & Hg4 & Hin4 & Hin4' & Hp4).
  pose proof (complete_month_pillar_is_Some year month day g1) as Hmonth.
  rewrite Hg1. cbn [Js.show default]. unfold id.
  destruct (Complete.calculateMonthPillar year month day g1) as [mr |] eqn:Hmr.
  - cbn [mbind option_bind]. rewrite Hg3. cbn [Js.show default]. unfold id.
    rewrite Hhour. cbn [mbind option_bind].
    split; [split; [intros _; by apply Hmonth | eauto] |].
    intros r [= <-].
    cbn [yearPillar monthPillar dayPillar hourPillar fiveElements tenGods
         dayMaster].
    rewrite ?Hg1, ?Hg3, ?Hg4. cbn [Js.show default]. unfold id.
    split; [reflexivity |]. split; [exact Hmr |]. split; [reflexivity |].
    split; [exact Hhour |].
    split; [exists g3; split; [reflexivity |]; split;
            [exact Hin3 | by apply ten_gods_self] |].
    split; [eauto |].
    destruct (month_pillar_chars _ _ _ _ _ Hmr) as [Hp2 Hin2].
    assert (Hin2' : Complete.m_branch mr ∈ Complete.diZhi).
    { pose proof (month_checked g1 month day Hin1 (proj1 Hmonth ltac:(eauto)))
        as Hc.
      rewrite complete_month_pillar_day in Hmr. unfold monthChecked in Hc.
      rewrite Hmr in Hc. repeat (apply andb_true_iff in Hc as [Hc ?]).
      by apply bool_decide_eq_true in Hc. }
    unfold chartOf. rewrite Hp1, Hp2, Hp3, Hp4.
    apply chart_total; assumption.
  - cbn [mbind option_bind]. split; [| discriminate].
    split; [intros [x Hx]; discriminate |].
    intros Hin. apply Hmonth in Hin. destruct Hin as [x Hx]. discriminate.
Qed.


(** X23.  With true solar time, [calculate] throws exactly when the month
    is outside 1 to 12 or the corrected hour leaves the day.  A chart it
    returns for a date that [Date] can hold is the chart of the same date without true solar time, taken
    at the corrected hour and minute: year, month and day pillar are those
    of the date as given, and only the hour pillar follows the
    correction. *)
Theorem complete_calculate_solar sin PI year month day hour minute location :
  (calculate sin PI year month day hour minute location true = None
   ↔ ¬ (1 <= month <= 12)
     ∨ trueHourAt sin PI year month day hour minute location < 0
     ∨ 24 <= trueHourAt sin PI year month day hour minute location)
  ∧ ∀ r,
      calculate sin PI year month day hour minute location true = Some r →
      inDateRange year month day →
      ∃ t r',
        Astro.calculateTrueSolarTime sin PI year month day hour minute location
        = Some t
        ∧ Astro.hour t = trueHourAt sin PI year month day hour minute location
        ∧ calculate sin PI year month day (Astro.hour t) (Astro.minute t)
            location false = Some r'
        ∧ yearPillar r = yearPillar r' ∧ monthPillar r = monthPillar r'
        ∧ dayPillar r = dayPillar r' ∧ hourPillar r = hourPillar r'
        ∧ fiveElements r = fiveElements r' ∧ tenGods r = tenGods r'
        ∧ dayMaster r = dayMaster r'
        ∧ yearPillar r = Complete.calculateYearPillar year month day
        ∧ dayPillar r = Complete.calculateDayPillar year month day.
Proof.
  rewrite calculate_solar_steps.
  destruct (Astro.calculateTrueSolarTime sin PI year month day hour minute
              location) as [t |] eqn:Ht.
  - pose proof (true_solar_time_keeps_date _ _ _ _ _ _ _ _ _ Ht)
      as (_ & _ & _ & Hrange & Hhour & _).
    destruct (calculate_plain_result sin PI year month day
                (Astro.hour t) (Astro.minute t) location) as [Hsome Hfields].
    cbn [mbind option_bind].
    destruct (calculate sin PI year month day (Astro.hour t) (Astro.minute t)
                location false) as [r' |] eqn:Hr'.
    + cbn [mbind option_bind]. split.
      * split; [discriminate |]. intros [Hout | Hout]; [| lia].
        exfalso. apply Hout, Hsome. eauto.
      * intros r [= <-] _.
        destruct (Hfields r' eq_refl) as (Hy & _ & Hd & _).
        exists t, r'.
        cbn [yearPillar monthPillar dayPillar hourPillar fiveElements tenGods
             dayMaster].
        repeat split; first [assumption | reflexivity].
    + cbn [mbind option_bind]. split; [| discriminate].
      split; [| reflexivity]. intros _. left. intros Hin.
      apply Hsome in Hin. destruct Hin as [x Hx]. discriminate.
  - cbn [mbind option_bind]. split; [| discriminate].
    split; [| reflexivity]. intros _. right.
    destruct (Z_lt_dec
                (trueHourAt sin PI year month day hour minute location) 0);
      [by left |].
    destruct (Z_le_dec 24
                (trueHourAt sin PI year month day hour minute location));
      [by right |].
    destruct (true_solar_time_returns sin PI year month day hour minute
                location) as [t' Ht']; [lia |].
    rewrite Ht' in Ht. discriminate.
Qed.

(** X24.  For every city of [CHINESE_CITIES], every sine bounded by 1 and
    a minute from 0 to 59, [calculate] with true solar time (its default)
    throws for every clock time from 18:14 on; and when it returns, for
    a date that [Date] can hold, the hour pillar is the one of an hour that is 5 to 9 hours later than the
    clock hour. *)
Theorem complete_calculate_listed_city sin PI cityName location
    year month day hour minute :
  BoundedSine sin →
  Astro.getLocationByCity cityName = Some location →
  0 <= minute <= 59 →
  (1094 <= hour * 60 + minute →
   calculate sin PI year month day hour minute location true = None)
  ∧ ∀ r,
      calculate sin PI year month day hour minute location true = Some r →
      inDateRange year month day →
      ∃ trueHour,
        hour + 5 <= trueHour <= hour + 9
        ∧ Complete.calculateHourPillar (Js.show (dayMaster r)) trueHour minute
          = Some (hourPillar r).
Proof.
  intros Hsin Hcity Hminute. rewrite calculate_solar_steps. split.
  - intros Hlate.
    assert (Hnone : Astro.calculateTrueSolarTime sin PI year month day
                      hour minute location = None).
    { apply true_solar_time_throws. left.
      destruct (listed_city_total_minutes sin PI cityName location
                  year month day hour minute Hsin Hcity) as [Hlo _].
      unfold trueHourAt. rewrite <- (Qfloor_Z 24). apply Qfloor_resp_le.
      apply Qle_shift_div_l; [reflexivity |].
      assert (inject_Z 1094 <= inject_Z (hour * 60 + minute))%Q
        by (by rewrite <- Zle_Qle).
      rewrite inject_Z_plus in Hlo. change (inject_Z 24) with 24%Q.
      change (inject_Z 1094) with 1094%Q in *.
      change (inject_Z 346) with 346%Q in *. lra. }
    by rewrite Hnone.
  - intros r.
    destruct (Astro.calculateTrueSolarTime sin PI year month day hour minute
                location) as [t |] eqn:Ht; [| discriminate].
    cbn [mbind option_bind].
    destruct (calculate_plain_result sin PI year month day
                (Astro.hour t) (Astro.minute t) location) as [_ Hfields].
    destruct (calculate sin PI year month day (Astro.hour t) (Astro.minute t)
                location false) as [r' |]; [| discriminate].
    cbn [mbind option_bind]. intros [= <-] _.
    destruct (Hfields r' eq_refl) as (_ & _ & _ & Hhour & _).
    cbn [hourPillar dayMaster]. exists (Astro.hour t). split; [| exact Hhour].
    pose proof (true_solar_time_fields _ _ _ _ _ _ _ _ _ Ht)
      as (_ & Hsum & Hmin & _).
    destruct (listed_city_total_minutes sin PI cityName location
                year month day hour minute Hsin Hcity) as [Hlo Hhi].
    assert (hour * 60 + minute + 346
            <= Qfloor (totalMinutesAt sin PI year month day hour minute
                         location)
            < hour * 60 + minute + 511); [by apply Qfloor_between | lia].
Qed.

Lemma complete_calculate_listed_city_witness :
  BoundedSine flatSine
  ∧ Astro.getLocationByCity "北京" = Some beijing
  ∧ 0 <= 30 <= 59
  ∧ (1094 <= 19 * 60 + 30 →
     calculate flatSine PI_approx 2024 5 15 19 30 beijing true = None)
  ∧ ∀ r,
      calculate flatSine PI_approx 2024 5 15 19 30 beijing true = Some r →
      inDateRange 2024 5 15 →
      ∃ trueHour,
        19 + 5 <= trueHour <= 19 + 9
        ∧ Complete.calculateHourPillar (Js.show (dayMaster r)) trueHour 30
          = Some (hourPillar r).
Proof.
  assert (Hsin : BoundedSine flatSine) by (intros x; split; discriminate).
  assert (Hcity : Astro.getLocationByCity "北京" = Some beijing)
    by reflexivity.
  assert (Hminute : 0 <= 30 <= 59) by lia.
  split; [exact Hsin |]. split; [exact Hcity |]. split; [exact Hminute |].
  exact (complete_calculate_listed_city flatSine PI_approx "北京" beijing
           2024 5 15 19 30 Hsin Hcity Hminute).
Defined.

End CompleteCalculateResult.

(** * [calculateBazi] as a whole *)

Section CalculateBazi.

Import Bazi Terms Cycle Birth.

Ltac Zify.zify_post_hook ::= Z.to_euclidean_division_equations.

(** The month that [civilFromDays] reads off a day number is a month. *)
Lemma civil_month_range days :
  1 <= (Js.civilFromDays days).1.2 <= 12.
Proof.
  unfold Js.civilFromDays. cbv zeta. cbn [fst snd].
  set (z := days + 719468).
  set (era := z / 146097).
  set (doe := z - era * 146097).
  assert (Hdoe : 0 <= doe <= 146096) by (subst doe era; lia).
  clearbody doe. clear era z.
  set (yoe := (doe - doe / 1460 + doe / 36524 - doe / 146096) / 365).
  assert (Hyoe : 0 <= yoe <= 399) by (subst yoe; lia).
  set (doy := doe - (365 * yoe + yoe / 4 - yoe / 100)).
  assert (Hdoy : 0 <= doy <= 365) by (subst doy yoe; lia).
  clearbody doy.
  destruct (Z.ltb_spec ((5 * doy + 2) / 153) 10); lia.
Qed.

(** [setHours] with a time of the day stays on the day and sets the
    hour. *)
Lemma working_time ms hours minutes :
  0 <= hours <= 23 → 0 <= minutes <= 59 →
  (ms / Js.msPerDay * Js.msPerDay + hours * 3600000 + minutes * 60000)
    / Js.msPerDay = ms / Js.msPerDay
  ∧ (ms / Js.msPerDay * Js.msPerDay + hours * 3600000 + minutes * 60000)
      mod Js.msPerDay / 3600000 = hours.
Proof.
  intros Hh Hm. unfold Js.msPerDay. change (1000 * 60 * 60 * 24) with 86400000.
  generalize (ms / 86400000). intros n. lia.
Qed.

(** The day pillar looks at the day of the date only. *)
Lemma legacy_day_pillar_of_day ms :
  calculateDayPillar (Js.DateAt ms)
  = mkPillar
      (Js.index HEAVENLY_STEMS
         (Js.rem (Js.rem (dayNumber ms + 25537 + 36) 60) 10))
      (Js.index EARTHLY_BRANCHES
         (Js.rem (Js.rem (dayNumber ms + 25537 + 36) 60) 12)).
Proof.
  unfold calculateDayPillar, dayNumber.
  change (Js.getTime (Js.Date_new 1900 0 31 0 0)) with (Some (-2206396800000)).
  cbn [Js.getTime mbind option_bind]. unfold Js.floorDiv, Js.msPerDay.
  change (1000 * 60 * 60 * 24) with 86400000.
  replace ((ms - -2206396800000) / 86400000) with (ms / 86400000 + 25537)
    by lia.
  reflexivity.
Qed.

Lemma legacy_month_pillar_valid year month :
  1 <= month <= 12 → ValidPillar (calculateMonthPillar year month).
Proof.
  intros Hm. unfold calculateMonthPillar, Js.rem.
  pose proof (indexOf_stems (stem (calculateYearPillar year))) as Hi.
  set (y := Js.indexOf HEAVENLY_STEMS (stem (calculateYearPillar year))) in *.
  apply pillar_of_indices; lia.
Qed.

Lemma legacy_day_pillar_valid ms :
  legacyDayOrigin <= ms → ValidPillar (calculateDayPillar (Js.DateAt ms)).
Proof.
  unfold legacyDayOrigin.
  change ((Js.MakeDay 1900 0 31 - 36) * Js.msPerDay) with (-2209507200000).
  intros Hms. rewrite legacy_day_pillar_of_day. unfold dayNumber, Js.msPerDay, Js.rem.
  change (1000 * 60 * 60 * 24) with 86400000.
  assert (0 <= ms / 86400000 + 25537 + 36) by lia.
  generalize dependent (ms / 86400000 + 25537 + 36). intros d Hd.
  apply pillar_of_indices; lia.
Qed.

Lemma legacy_hour_pillar_valid dayStem hour :
  0 <= hour <= 23 → ValidPillar (calculateHourPillar dayStem hour).
Proof.
  intros Hh. unfold calculateHourPillar, Js.rem, Js.floorDiv.
  pose proof (indexOf_stems dayStem) as Hi.
  set (y := Js.indexOf HEAVENLY_STEMS dayStem) in *.
  apply pillar_of_indices; lia.
Qed.

Lemma legacy_year_pillar_valid year :
  1984 <= year → ValidPillar (calculateYearPillar year).
Proof.
  intros Hy. unfold calculateYearPillar, Js.rem. apply pillar_of_indices; lia.
Qed.

Lemma legacy_year_branch_known year :
  knownBranch (calculateYearPillar year)
  ↔ 1984 <= year ∨ (1984 - year) mod 12 = 0.
Proof.
  rewrite knownBranch_vocabulary. unfold calculateYearPillar, Js.rem.
  cbn [branch]. split.
  - intros (b & Hb & _).
    assert (Hsome : is_Some (Js.index EARTHLY_BRANCHES
                               (Z.rem (Z.rem (year - 1984) 60) 12)))
      by eauto.
    apply index_is_Some in Hsome. cbn [length EARTHLY_BRANCHES] in Hsome. lia.
  - intros Hy.
    assert (Hr : 0 <= Z.rem (Z.rem (year - 1984) 60) 12 < 12) by lia.
    destruct (pillar_of_indices 0 _ ltac:(lia) Hr) as [_ Hb]. exact Hb.
Qed.

Lemma valid_known p : ValidPillar p → knownBranch p.
Proof. intros [_ Hb]. by apply knownBranch_vocabulary. Qed.

Lemma getFullYear_at ms :
  Js.getFullYear (Js.DateAt ms) = Some (Js.civilFromDays (dayNumber ms)).1.1.
Proof. reflexivity. Qed.

Lemma getMonth_at ms :
  Js.getMonth (Js.DateAt ms) = Some ((Js.civilFromDays (dayNumber ms)).1.2 - 1).
Proof. reflexivity. Qed.

Lemma getHours_at ms :
  Js.getHours (Js.DateAt ms) = Some (ms mod Js.msPerDay / 3600000).
Proof. reflexivity. Qed.

Lemma setHours_at ms hours minutes :
  Js.setHours (Js.DateAt ms) hours minutes
  = Js.DateAt (ms / Js.msPerDay * Js.msPerDay + hours * 3600000
               + minutes * 60000).
Proof. reflexivity. Qed.

Lemma dayNumber_of_day ms : dayNumber (dayNumber ms * Js.msPerDay) = dayNumber ms.
Proof.
  unfold dayNumber, Js.msPerDay. change (1000 * 60 * 60 * 24) with 86400000.
  generalize (ms / 86400000). intros n. lia.
Qed.

(** The fields [calculateBazi] reads off its working date. *)
Lemma working_date ms hours minutes :
  0 <= hours <= 23 → 0 <= minutes <= 59 →
  Js.getFullYear (Js.setHours (Js.DateAt ms) hours minutes)
  = Some (Js.civilFromDays (dayNumber ms)).1.1
  ∧ Js.getMonth (Js.setHours (Js.DateAt ms) hours minutes)
    = Some ((Js.civilFromDays (dayNumber ms)).1.2 - 1)
  ∧ Js.getHours (Js.setHours (Js.DateAt ms) hours minutes) = Some hours
  ∧ calculateDayPillar (Js.setHours (Js.DateAt ms) hours minutes)
    = calculateDayPillar (Js.DateAt (dayNumber ms * Js.msPerDay)).
Proof.
  intros Hh Hm. destruct (working_time ms hours minutes Hh Hm) as [Hday Hhour].
  assert (Hday' : dayNumber (ms / Js.msPerDay * Js.msPerDay + hours * 3600000
                             + minutes * 60000) = dayNumber ms)
    by exact Hday.
  rewrite setHours_at, getFullYear_at, getMonth_at, getHours_at.
  rewrite !legacy_day_pillar_of_day, dayNumber_of_day, Hday', Hhour.
  repeat split; reflexivity.
Qed.

(** [calculateBazi] on a valid date, step by step: the chart depends on
    the day number of the date and on the hour only. *)
Lemma calculate_bazi_steps birthInfo hours minutes ms :
  calculationDate birthInfo = Some (Js.DateAt ms) →
  0 <= hours <= 23 → 0 <= minutes <= 59 →
  calculateBazi birthInfo hours minutes
  = let fullYear := (Js.civilFromDays (dayNumber ms)).1.1 in
    let month := (Js.civilFromDays (dayNumber ms)).1.2 in
    let yearPillar := calculateYearPillar fullYear in
    let monthPillar := calculateMonthPillar fullYear month in
    let dayPillar := calculateDayPillar (Js.DateAt (dayNumber ms * Js.msPerDay)) in
    let hourPillar := calculateHourPillar (stem dayPillar) hours in
    let pillars := [yearPillar; monthPillar; dayPillar; hourPillar] in
    fiveElements ← calculateFiveElements pillars;
    tenGods ← calculateTenGods (stem dayPillar) pillars;
    Some {| yearPillar := yearPillar;
            monthPillar := monthPillar;
            dayPillar := dayPillar;
            hourPillar := hourPillar;
            fiveElements := fiveElements;
            tenGods := tenGods;
            dayMaster := stem dayPillar |}.
Proof.
  intros Hdate Hh Hm.
  destruct (working_date ms hours minutes Hh Hm) as (Hy & Hmo & Hho & Hd).
  revert Hy Hmo Hho Hd.
  generalize (Js.civilFromDays (dayNumber ms)).1.1.
  generalize (Js.civilFromDays (dayNumber ms)).1.2.
  generalize (calculateDayPillar (Js.DateAt (dayNumber ms * Js.msPerDay))).
  intros dayPillar month fullYear Hy Hmo Hho Hd.
  unfold calculateBazi. fold (calculationDate birthInfo). rewrite Hdate.
  cbn [default]. unfold id. cbv zeta.
  rewrite Hy, Hmo, Hho. cbn [mbind option_bind]. rewrite Hd.
  replace (month - 1 + 1) with month by (clear; lia). reflexivity.
Qed.



(** X26.  For a valid date from 1899-12-26 on, well inside the range of
    [Date], and a time of the day,
    [calculateBazi] throws exactly when the year of the date is before
    1984 and not a multiple of twelve years before 1984: the year branch is
    then [undefined].  When it returns, the year pillar is the one of the
    year of the date, the month, day and hour pillars are over the
    vocabulary, the day master is the day stem, and from 1984 on the year
    pillar is over the vocabulary too. *)
Theorem calculate_bazi_returns_iff birthInfo hours minutes ms year :
  calculationDate birthInfo = Some (Js.DateAt ms) →
  Js.getFullYear (Js.DateAt ms) = Some year →
  legacyDayOrigin <= ms <= 8000000000000000 →
  0 <= hours <= 23 → 0 <= minutes <= 59 →
  (calculateBazi birthInfo hours minutes = None
   ↔ year < 1984 ∧ (1984 - year) mod 12 ≠ 0)
  ∧ ∀ r,
      calculateBazi birthInfo hours minutes = Some r →
      yearPillar r = calculateYearPillar year
      ∧ ValidPillar (monthPillar r)
      ∧ ValidPillar (dayPillar r)
      ∧ ValidPillar (hourPillar r)
      ∧ dayMaster r = stem (dayPillar r)
      ∧ (1984 <= year → ValidPillar (yearPillar r)).
Proof.
  intros Hdate Hyear [Horigin _] Hh Hm.
  rewrite (calculate_bazi_steps birthInfo hours minutes ms Hdate Hh Hm).
  rewrite getFullYear_at in Hyear. apply (inj Some) in Hyear. rewrite Hyear.
  cbv zeta.
  pose proof (civil_month_range (dayNumber ms)) as Hmonth.
  set (month := (Js.civilFromDays (dayNumber ms)).1.2) in *. clearbody month.
  assert (Horigin' : legacyDayOrigin <= dayNumber ms * Js.msPerDay).
  { revert Horigin. unfold legacyDayOrigin, dayNumber.
    change ((Js.MakeDay 1900 0 31 - 36) * Js.msPerDay) with (-2209507200000).
    unfold Js.msPerDay. change (1000 * 60 * 60 * 24) with 86400000. lia. }
  pose proof (legacy_month_pillar_valid year month Hmonth) as Vm.
  pose proof (legacy_day_pillar_valid _ Horigin') as Vd.
  set (dayPillar := calculateDayPillar (Js.DateAt (dayNumber ms * Js.msPerDay)))
    in *.
  clearbody dayPillar.
  pose proof (legacy_hour_pillar_valid (stem dayPillar) hours Hh) as Vh.
  pose proof (legacy_year_branch_known year) as Ky.
  set (pillars := [calculateYearPillar year; calculateMonthPillar year month;
                   dayPillar; calculateHourPillar (stem dayPillar) hours]).
  destruct Vd as [(dayStem & Hstem & Hin) Vd'].
  assert (Vd : ValidPillar dayPillar) by (split; eauto).
  assert (Hknown : Forall knownBranch pillars
                   ↔ 1984 <= year ∨ (1984 - year) mod 12 = 0).
  { subst pillars. rewrite !Forall_cons, Forall_nil, Ky.
    pose proof (valid_known _ Vm). pose proof (valid_known _ Vd).
    pose proof (valid_known _ Vh). tauto. }
  destruct (decide (1984 <= year ∨ (1984 - year) mod 12 = 0)) as [Hy | Hy].
  - assert (Hall : Forall knownBranch pillars) by (by apply Hknown).
    destruct (calculateFiveElements pillars) as [five |] eqn:Hfive.
    + destruct (proj2 (ten_gods_is_Some dayStem pillars Hin)) as [gods Hgods];
        [split; [subst pillars; cbn [length]; lia | exact Hall] |].
      rewrite Hstem, Hgods. cbn [mbind option_bind].
      split; [split; [discriminate | lia] |].
      intros r [= <-].
      cbn [yearPillar monthPillar Bazi.dayPillar hourPillar dayMaster].
      split; [reflexivity |]. split; [exact Vm |]. split; [exact Vd |].
      split; [rewrite <- Hstem; exact Vh |]. split; [by rewrite Hstem |].
      apply legacy_year_pillar_valid.
    + exfalso. unfold calculateFiveElements in Hfive.
      apply tallyPillars_None, Exists_exists in Hfive
        as (p & Hp & Hbad).
      rewrite Forall_forall in Hall. by apply Hbad, Hall.
  - assert (Hfive : calculateFiveElements pillars = None).
    { unfold calculateFiveElements. apply tallyPillars_None.
      subst pillars. apply Exists_cons_hd. by rewrite Ky. }
    rewrite Hfive. cbn [mbind option_bind].
    split; [split; [lia | reflexivity] | discriminate].
Qed.

Lemma calculate_bazi_returns_iff_witness :
  calculationDate
    (mkBirthInfo (Some (Js.Date_new 1980 5 15 0 0)) (Some "12:00")
       (Some "male") (Some "solar") None)
  = Some (Js.DateAt 329875200000)
  ∧ Js.getFullYear (Js.DateAt 329875200000) = Some 1980
  ∧ legacyDayOrigin <= 329875200000 <= 8000000000000000
  ∧ 0 <= 12 <= 23 ∧ 0 <= 0 <= 59
  ∧ (calculateBazi
       (mkBirthInfo (Some (Js.Date_new 1980 5 15 0 0)) (Some "12:00")
          (Some "male") (Some "solar") None) 12 0 = None
     ↔ 1980 < 1984 ∧ (1984 - 1980) mod 12 ≠ 0)
  ∧ ∀ r,
      calculateBazi
        (mkBirthInfo (Some (Js.Date_new 1980 5 15 0 0)) (Some "12:00")
           (Some "male") (Some "solar") None) 12 0 = Some r →
      yearPillar r = calculateYearPillar 1980
      ∧ ValidPillar (monthPillar r)
      ∧ ValidPillar (dayPillar r)
      ∧ ValidPillar (hourPillar r)
      ∧ dayMaster r = stem (dayPillar r)
      ∧ (1984 <= 1980 → ValidPillar (yearPillar r)).
Proof.
  assert (H1 : calculationDate
                 (mkBirthInfo (Some (Js.Date_new 1980 5 15 0 0)) (Some "12:00")
                    (Some "male") (Some "solar") None)
               = Some (Js.DateAt 329875200000)) by reflexivity.
  assert (H2 : Js.getFullYear (Js.DateAt 329875200000) = Some 1980)
    by reflexivity.
  assert (H3 : legacyDayOrigin <= 329875200000 <= 8000000000000000)
    by (split; vm_compute; discriminate).
  assert (H4 : 0 <= 12 <= 23) by lia.
  assert (H5 : 0 <= 0 <= 59) by lia.
  split; [exact H1 |]. split; [exact H2 |]. split; [exact H3 |].
  split; [exact H4 |]. split; [exact H5 |].
  exact (calculate_bazi_returns_iff _ 12 0 _ 1980 H1 H2 H3 H4 H5).
Defined.

(** X27.  A birth record that [validateBirthInfo] accepts without any
    error can still make [calculateBazi] throw: this happens for every
    valid birth date in a year from 1900 to 1983 that is not a multiple of
    twelve years before 1984, with a well-formed time, a gender and a
    calendar type. *)
Theorem validated_birth_not_calculated birthInfo hours minutes ms year :
  birthDate birthInfo = Some (Js.DateAt ms) →
  calibratedDate birthInfo = None →
  Js.getFullYear (Js.DateAt ms) = Some year →
  1900 <= year < 1984 → (1984 - year) mod 12 ≠ 0 →
  timeCheck birthInfo = true →
  Js.truthy (gender birthInfo) = true →
  Js.truthy (calendarType birthInfo) = true →
  0 <= hours <= 23 → 0 <= minutes <= 59 →
  validateBirthInfo birthInfo = mkValidation true []
  ∧ calculateBazi birthInfo hours minutes = None.
Proof.
  intros Hdate Hcal Hyear Hrange Hmod Htime Hgender Hcalendar Hh Hm.
  split.
  - assert (Hvalid : birthDate birthInfo ≠ Some Js.InvalidDate)
      by (rewrite Hdate; discriminate).
    destruct (validate_checks birthInfo Hvalid) as [Hv Hlen].
    assert (Hcheck : dateCheck birthInfo = true).
    { unfold dateCheck. rewrite Hdate, Hyear. apply andb_true_iff. lia. }
    unfold failedChecks in Hlen.
    rewrite Hcheck, Htime, Hgender, Hcalendar in Hv, Hlen.
    destruct (validateBirthInfo birthInfo) as [v e].
    cbn [valid errors] in Hv, Hlen. apply nil_length_inv in Hlen.
    by rewrite Hv, Hlen.
  - assert (Hchosen : calculationDate birthInfo = Some (Js.DateAt ms))
      by (unfold calculationDate; by rewrite Hcal).
    rewrite (calculate_bazi_steps birthInfo hours minutes ms Hchosen Hh Hm).
    rewrite getFullYear_at in Hyear. apply (inj Some) in Hyear.
    rewrite Hyear. cbv zeta.
    assert (Hfive : ∀ rest, calculateFiveElements
                              (calculateYearPillar year :: rest) = None).
    { intros rest. unfold calculateFiveElements. apply tallyPillars_None.
      apply Exists_cons_hd. rewrite legacy_year_branch_known. lia. }
    by rewrite Hfive.
Qed.

Lemma validated_birth_not_calculated_witness :
  birthDate (bornOn 1980 6 15) = Some (Js.DateAt 329875200000)
  ∧ calibratedDate (bornOn 1980 6 15) = None
  ∧ Js.getFullYear (Js.DateAt 329875200000) = Some 1980
  ∧ 1900 <= 1980 < 1984 ∧ (1984 - 1980) mod 12 ≠ 0
  ∧ timeCheck (bornOn 1980 6 15) = true
  ∧ Js.truthy (gender (bornOn 1980 6 15)) = true
  ∧ Js.truthy (calendarType (bornOn 1980 6 15)) = true
  ∧ 0 <= 12 <= 23 ∧ 0 <= 0 <= 59
  ∧ validateBirthInfo (bornOn 1980 6 15) = mkValidation true []
  ∧ calculateBazi (bornOn 1980 6 15) 12 0 = None.
Proof.
  assert (H1 : birthDate (bornOn 1980 6 15) = Some (Js.DateAt 329875200000))
    by reflexivity.
  assert (H2 : calibratedDate (bornOn 1980 6 15) = None) by reflexivity.
  assert (H3 : Js.getFullYear (Js.DateAt 329875200000) = Some 1980)
    by reflexivity.
  assert (H4 : 1900 <= 1980 < 1984) by lia.
  assert (H5 : (1984 - 1980) mod 12 ≠ 0) by (vm_compute; discriminate).
  assert (H6 : timeCheck (bornOn 1980 6 15) = true) by reflexivity.
  assert (H7 : Js.truthy (gender (bornOn 1980 6 15)) = true) by reflexivity.
  assert (H8 : Js.truthy (calendarType (bornOn 1980 6 15)) = true)
    by reflexivity.
  assert (H9 : 0 <= 12 <= 23) by lia.
  assert (H10 : 0 <= 0 <= 59) by lia.
  repeat (split; [assumption |]).
  exact (validated_birth_not_calculated _ 12 0 _ 1980
           H1 H2 H3 H4 H5 H6 H7 H8 H9 H10).
Defined.

End CalculateBazi.

(** * The interpretation of a chart *)

Section Interpretation.

Import Terms Fortune.

(** The strong, weak and missing elements are keys of the buckets. *)
Lemma bucket_keys (P : string * Q → Prop) `{∀ entry, Decision (P entry)}
    elements key :
  key ∈ (filter P (entries elements)).*1 → key ∈ BUCKETS.
Proof.
  intros Hkey. apply list_elem_of_fmap in Hkey as ([k v] & -> & Hin).
  apply list_elem_of_filter in Hin as [_ Hin]. unfold entries in Hin.
  cbn [fst]. unfold BUCKETS.
  repeat (apply elem_of_cons in Hin as [[= -> _] | Hin]; [set_solver |]).
  by apply elem_of_nil in Hin.
Qed.

Lemma no_element_name (arr : list string) element :
  (∀ key, key ∈ arr → key ∈ BUCKETS) →
  element ∈ ELEMENTS → includes arr element = false.
Proof.
  intros Hkeys Hel. unfold includes. apply bool_decide_eq_false.
  intros Hin. apply Hkeys in Hin. unfold ELEMENTS in Hel. unfold BUCKETS in Hin.
  repeat (apply elem_of_cons in Hel as [-> | Hel];
          [repeat (apply elem_of_cons in Hin as [Hin | Hin];
                   [discriminate |]);
           by apply elem_of_nil in Hin |]).
  by apply elem_of_nil in Hel.
Qed.

(** With lists that hold bucket keys, no adjustment of
    [generatePersonalityTraits] applies. *)
Lemma personality_of_keys dayMaster strong weak :
  (∀ key, key ∈ strong → key ∈ BUCKETS) →
  (∀ key, key ∈ weak → key ∈ BUCKETS) →
  generatePersonalityTraits dayMaster strong weak
  = generatePersonalityTraits dayMaster [] [].
Proof.
  intros Hstrong Hweak. unfold generatePersonalityTraits.
  assert (Hs : ∀ element, element ∈ ELEMENTS → includes strong element = false)
    by (intros; by apply no_element_name).
  assert (Hw : ∀ element, element ∈ ELEMENTS → includes weak element = false)
    by (intros; by apply no_element_name).
  rewrite !Hs, !Hw
    by (unfold ELEMENTS;
        repeat first [apply list_elem_of_here | apply list_elem_of_further]).
  reflexivity.
Qed.

(** X28.  The personality that [generateBasicInterpretation] returns does
    not depend on the five elements of the chart: the lists of strong and
    weak elements hold the keys [wood] .. [water], the adjustments test for
    the names 木 .. 水, and so none of them ever applies.  Main traits,
    strengths and challenges are those of the day master in
    [dayMasterTraits], or the default ones. *)
Theorem personality_ignores_elements showNumber baziData :
  (∀ stem, Bazi.dayMaster baziData = Some stem → stem ∈ Bazi.HEAVENLY_STEMS) →
  let p := personality (generateBasicInterpretation showNumber baziData) in
  let info :=
    default defaultInfo
      (dayMasterTraits !! Js.show (Bazi.dayMaster baziData)) in
  p = generatePersonalityTraits (Bazi.dayMaster baziData) [] []
  ∧ mainTraits p = traits info
  ∧ strengths p = i_strengths info
  ∧ challenges p = i_challenges info.
Proof.
  intros _ p info. subst p info. unfold generateBasicInterpretation.
  cbv zeta. cbn [personality].
  rewrite personality_of_keys by (intros key; apply bucket_keys).
  repeat split.
Qed.

Lemma personality_ignores_elements_witness :
  (∀ stem, Bazi.dayMaster woodChart = Some stem → stem ∈ Bazi.HEAVENLY_STEMS)
  ∧ let p := personality (generateBasicInterpretation (λ _, "") woodChart) in
    let info :=
      default defaultInfo
        (dayMasterTraits !! Js.show (Bazi.dayMaster woodChart)) in
    p = generatePersonalityTraits (Bazi.dayMaster woodChart) [] []
    ∧ mainTraits p = traits info
    ∧ strengths p = i_strengths info
    ∧ challenges p = i_challenges info.
Proof.
  assert (H : ∀ stem, Bazi.dayMaster woodChart = Some stem →
                      stem ∈ Bazi.HEAVENLY_STEMS).
  { intros stem [= <-]. unfold Bazi.HEAVENLY_STEMS. set_solver. }
  split; [exact H |].
  exact (personality_ignores_elements (λ _, "") woodChart H).
Defined.

Lemma detailed_as_map showNumber baziData questions :
  detailed (generateCompleteInterpretation showNumber baziData questions)
  = map (generateDetailedInterpretation showNumber baziData) (asked questions).
Proof.
  unfold generateCompleteInterpretation. cbn [detailed].
  assert (Hfold : ∀ l acc,
            foldl (λ detailed question,
                     (detailed
                      ++ [generateDetailedInterpretation showNumber baziData
                            question])%list) acc l
            = (acc ++ map (generateDetailedInterpretation showNumber baziData)
                        l)%list).
  { induction l as [| q l IH]; intros acc; cbn [foldl map].
    - by rewrite app_nil_r.
    - by rewrite IH, <- app_assoc. }
  by rewrite Hfold.
Qed.

Lemma answer_checked showNumber baziData question :
  (∀ stem, Bazi.dayMaster baziData = Some stem → stem ∈ Bazi.HEAVENLY_STEMS) →
  question ∈ CATEGORIES →
  answerChecked question
    (generateDetailedInterpretation showNumber baziData question) = true.
Proof.
  intros Hdm Hq. destruct baziData as [yp mp dp hp fe tg dm].
  cbn [Bazi.dayMaster] in Hdm.
  assert (Hcases : dm = None ∨ ∃ stem, dm = Some stem
                                       ∧ stem ∈ Bazi.HEAVENLY_STEMS).
  { destruct dm as [stem |]; [right; eauto | by left]. }
  clear Hdm. unfold CATEGORIES in Hq.
  destruct Hcases as [-> | (stem & -> & Hstem)].
  - repeat (apply elem_of_cons in Hq as [-> | Hq]; [by vm_compute |]).
    by apply elem_of_nil in Hq.
  - unfold Bazi.HEAVENLY_STEMS in Hstem.
    repeat (apply elem_of_cons in Hstem as [-> | Hstem];
            [repeat (apply elem_of_cons in Hq as [-> | Hq]; [by vm_compute |]);
             by apply elem_of_nil in Hq |]).
    by apply elem_of_nil in Hstem.
Qed.

(** X29.  For a day master that is one of the ten stems or [undefined],
    and questions among the five categories, [generateCompleteInterpretation]
    answers the questions of the request one by one and in order, or the
    five categories when the request has none.  Every answer carries the
    category of its question, and names two lucky and two unlucky elements
    among the five elements, none of them both lucky and unlucky. *)
Theorem complete_interpretation_answers showNumber baziData questions :
  (∀ stem, Bazi.dayMaster baziData = Some stem → stem ∈ Bazi.HEAVENLY_STEMS) →
  (∀ question, question ∈ asked questions → question ∈ CATEGORIES) →
  let r := generateCompleteInterpretation showNumber baziData questions in
  length (detailed r) = length (asked questions)
  ∧ ∀ i question,
      asked questions !! i = Some question →
      ∃ d, detailed r !! i = Some d
           ∧ category d = question
           ∧ length (luckyElements d) = 2%nat
           ∧ length (unluckyElements d) = 2%nat
           ∧ (∀ e, e ∈ luckyElements d →
                   e ∈ ELEMENTS ∧ e ∉ unluckyElements d)
           ∧ (∀ e, e ∈ unluckyElements d → e ∈ ELEMENTS).
Proof.
  intros Hdm Hqs r. subst r. rewrite detailed_as_map.
  split; [by rewrite length_map |].
  intros i question Hi.
  exists (generateDetailedInterpretation showNumber baziData question).
  split; [by rewrite list_lookup_fmap, Hi |].
  assert (Hq : question ∈ CATEGORIES)
    by (apply Hqs; by eapply list_elem_of_lookup_2).
  pose proof (answer_checked showNumber baziData question Hdm Hq) as Hc.
  unfold answerChecked in Hc.
  apply andb_true_iff in Hc as [Hc Hunlucky].
  apply andb_true_iff in Hc as [Hc Hlucky].
  apply andb_true_iff in Hc as [Hc Hlen'].
  apply andb_true_iff in Hc as [Hcat Hlen].
  apply bool_decide_eq_true in Hcat, Hlen, Hlen'.
  rewrite forallb_forall in Hlucky. rewrite forallb_forall in Hunlucky.
  split; [exact Hcat |]. split; [exact Hlen |]. split; [exact Hlen' |].
  split.
  - intros e He. apply list_elem_of_In in He. specialize (Hlucky e He).
    apply andb_true_iff in Hlucky as [H1 H2].
    apply bool_decide_eq_true in H1. apply negb_true_iff in H2.
    unfold includes in H2. apply bool_decide_eq_false in H2. by split.
  - intros e He. apply list_elem_of_In in He. specialize (Hunlucky e He).
    by apply bool_decide_eq_true in Hunlucky.
Qed.

Lemma complete_interpretation_answers_witness :
  (∀ stem, Bazi.dayMaster woodChart = Some stem → stem ∈ Bazi.HEAVENLY_STEMS)
  ∧ (∀ question, question ∈ asked (Some ["wealth"; "health"]) →
                 question ∈ CATEGORIES)
  ∧ let r := generateCompleteInterpretation (λ _, "") woodChart
               (Some ["wealth"; "health"]) in
    length (detailed r) = length (asked (Some ["wealth"; "health"]))
    ∧ ∀ i question,
        asked (Some ["wealth"; "health"]) !! i = Some question →
        ∃ d, detailed r !! i = Some d
             ∧ category d = question
             ∧ length (luckyElements d) = 2%nat
             ∧ length (unluckyElements d) = 2%nat
             ∧ (∀ e, e ∈ luckyElements d →
                     e ∈ ELEMENTS ∧ e ∉ unluckyElements d)
             ∧ (∀ e, e ∈ unluckyElements d → e ∈ ELEMENTS).
Proof.
  assert (H : ∀ stem, Bazi.dayMaster woodChart = Some stem →
                      stem ∈ Bazi.HEAVENLY_STEMS).
  { intros stem [= <-]. unfold Bazi.HEAVENLY_STEMS. set_solver. }
  assert (H' : ∀ question, question ∈ asked (Some ["wealth"; "health"]) →
                           question ∈ CATEGORIES).
  { intros question Hq. cbn [asked] in Hq. unfold CATEGORIES.
    repeat (apply elem_of_cons in Hq as [-> | Hq];
            [repeat first [apply list_elem_of_here
                          | apply list_elem_of_further] |]).
    by apply elem_of_nil in Hq. }
  split; [exact H |]. split; [exact H' |].
  exact (complete_interpretation_answers (λ _, "") woodChart
           (Some ["wealth"; "health"]) H H').
Defined.

End Interpretation.

(** * The calibrated birth time and the chart *)

Section CalibratedBirthTime.

Import Bazi Terms Cycle Birth Calibration.

Ltac Zify.zify_post_hook ::= Z.to_euclidean_division_equations.

Open Scope Q_scope.

(** Every city of [CHINA_CITIES] is in the zone [Asia/Shanghai], between
    the longitudes of 成都 and 哈尔滨. *)
Lemma china_city city :
  city ∈ CHINA_CITIES →
  timezone city = "Asia/Shanghai"%string
  ∧ utcOffset city = 480%Z
  ∧ 1040668 # 10000 <= longitude city <= 1265340 # 10000.
Proof.
  unfold CHINA_CITIES. intros Hcity.
  repeat (apply elem_of_cons in Hcity as [-> | Hcity]; [by vm_compute |]).
  by apply elem_of_nil in Hcity.
Qed.

(** The equation of time of [timezone-calculator.ts] stays within 18.9
    minutes. *)
Lemma legacy_equation_of_time_bound sin cos PI ms :
  BoundedSine sin → BoundedSine cos →
  ∃ e, calculateEquationOfTime sin cos PI (Js.DateAt ms) = Some e
       ∧ - 1134000 <= e <= 1134000.
Proof.
  intros Hsin Hcos. unfold calculateEquationOfTime.
  cbn [Js.getTime mbind option_bind]. cbv zeta. eexists. split; [reflexivity |].
  match goal with
  | |- _ <= (_ * sin ?a - _ * cos ?b - _ * sin ?c) * _ * _ <= _ =>
      pose proof (Hsin a); pose proof (Hcos b); pose proof (Hsin c);
      generalize dependent (sin a); generalize dependent (cos b);
      generalize dependent (sin c)
  end.
  intros. lra.
Qed.

Lemma truncate_near (v : Q) :
  v - 1 <= inject_Z (Astro.truncate v) <= v + 1.
Proof.
  unfold Astro.truncate. destruct v as [n d]. cbn [Qnum Qden].
  unfold Qle, Qplus, Qminus, Qopp, inject_Z. cbn [Qnum Qden Qplus Qopp].
  assert (Hq : (Z.quot n (Z.pos d) * Z.pos d <= n + Z.pos d
                ∧ n - Z.pos d <= Z.quot n (Z.pos d) * Z.pos d)%Z) by lia.
  nia.
Qed.

(** The calibrated time of a city of the table, where the zone is eight
    hours ahead: between 397 and 526 minutes after the birth time. *)
Lemma calibrated_time_shift sin cos PI zoneOffset city ms :
  BoundedSine sin → BoundedSine cos →
  city ∈ CHINA_CITIES →
  zoneOffset (timezone city) ms = Some 480%Z →
  (- 8000000000000000 <= ms <= 8000000000000000)%Z →
  ∃ ms',
    calibratedTime (getCalibratedBirthTime sin cos PI zoneOffset
                      (Js.DateAt ms) city) = Js.DateAt ms'
    ∧ (ms + 397 * 60000 <= ms' <= ms + 526 * 60000)%Z.
Proof.
  intros Hsin Hcos Hcity Hzone Hms.
  destruct (china_city city Hcity) as (_ & _ & Hlo & Hhi).
  destruct (legacy_equation_of_time_bound sin cos PI ms Hsin Hcos)
    as (e & He & Helo & Hehi).
  unfold getCalibratedBirthTime, calculateSolarTimeAdjustment. cbv zeta.
  cbn [calibratedTime Js.getTime mbind option_bind].
  rewrite Hzone, He. cbn [mbind option_bind].
  unfold Tz.calculateLongitudeOffset.
  set (v := inject_Z ms
            + (inject_Z 480 * 60 * 1000
               + (e + (longitude city - 120) * 4 * 60 * 1000))).
  assert (Hv : inject_Z ms + 23842000 <= v <= inject_Z ms + 31503000).
  { subst v. change (inject_Z 480) with 480.
    generalize dependent (longitude city). intros lon Hlo Hhi.
    generalize (inject_Z ms). intros. lra. }
  clearbody v.
  assert (Hlow : inject_Z (- 8000000000000000) <= inject_Z ms)
    by (rewrite <- Zle_Qle; lia).
  assert (Hhigh : inject_Z ms <= inject_Z 8000000000000000)
    by (rewrite <- Zle_Qle; lia).
  change (inject_Z (- 8000000000000000)) with (- 8000000000000000) in Hlow.
  change (inject_Z 8000000000000000) with 8000000000000000 in Hhigh.
  unfold Date_of_number.
  assert (Hin : Qle_bool (- (8640000000000000)) v
                && Qle_bool v 8640000000000000 = true).
  { apply andb_true_iff. split; apply Qle_bool_iff; lra. }
  rewrite Hin. eexists. split; [reflexivity |].
  pose proof (truncate_near v) as [Hn Hn'].
  split; rewrite Zle_Qle, !inject_Z_plus, ?inject_Z_mult;
    [change (inject_Z 397 * inject_Z 60000) with 23820000
    | change (inject_Z 526 * inject_Z 60000) with 31560000]; lra.
Qed.

Close Scope Q_scope.

(** X30.  For a birth in a city of [CHINA_CITIES], with sine and cosine
    bounded by 1 and the zone eight hours ahead, [getCalibratedBirthTime]
    returns a time between 397 and 526 minutes after the birth time it
    was given.  [calculateBaziWithTimezone] hands that time to
    [calculateBazi], which reads only its day: for a birth time early
    enough in the day that 526 minutes later is the same day, the chart is
    the one computed without any calibration. *)
Theorem calibration_moves_the_day_only sin cos PI zoneOffset birthData
    hours minutes ms :
  BoundedSine sin → BoundedSine cos →
  birthLocation birthData ∈ CHINA_CITIES →
  birthDate birthData = Js.DateAt ms →
  zoneOffset (timezone (birthLocation birthData)) ms = Some 480 →
  - 8000000000000000 <= ms <= 8000000000000000 →
  0 <= hours <= 23 → 0 <= minutes <= 59 →
  ∃ ms',
    calibratedTime (getCalibratedBirthTime sin cos PI zoneOffset
                      (Js.DateAt ms) (birthLocation birthData))
    = Js.DateAt ms'
    ∧ ms + 397 * 60000 <= ms' <= ms + 526 * 60000
    ∧ (ms mod Js.msPerDay + 526 * 60000 < Js.msPerDay →
       bazi <$> calculateBaziWithTimezone sin cos PI zoneOffset birthData
                  hours minutes
       = calculateBazi (uncalibrated birthData) hours minutes).
Proof.
  intros Hsin Hcos Hcity Hdate Hzone Hms Hh Hm.
  destruct (calibrated_time_shift sin cos PI zoneOffset
              (birthLocation birthData) ms Hsin Hcos Hcity Hzone Hms)
    as (ms' & Hcal & Hshift).
  exists ms'. split; [exact Hcal |]. split; [exact Hshift |].
  intros Hearly. unfold calculateBaziWithTimezone. cbv zeta.
  rewrite Hdate, Hcal.
  assert (Hday : dayNumber ms' = dayNumber ms).
  { revert Hearly Hshift. unfold dayNumber, Js.msPerDay.
    change (1000 * 60 * 60 * 24) with 86400000. lia. }
  rewrite (calculate_bazi_steps
             (mkBirthInfo (Some (Js.DateAt ms)) (Some (birthTime birthData))
                (Some (gender birthData)) (Some (calendarType birthData))
                (Some (Js.DateAt ms')))
             hours minutes ms' eq_refl Hh Hm).
  assert (Hplain : calculationDate (uncalibrated birthData)
                   = Some (Js.DateAt ms))
    by (unfold calculationDate, uncalibrated; cbn; by rewrite Hdate).
  rewrite (calculate_bazi_steps _ hours minutes ms Hplain Hh Hm).
  rewrite Hday. cbv zeta.
  destruct (calculateFiveElements _) as [five |]; [| reflexivity].
  cbn [mbind option_bind].
  destruct (calculateTenGods _ _) as [gods |]; reflexivity.
Qed.

Lemma calibration_moves_the_day_only_witness :
  BoundedSine flatSine ∧ BoundedSine flatSine
  ∧ birthLocation morningBirth ∈ CHINA_CITIES
  ∧ birthDate morningBirth = Js.DateAt 1715763600000
  ∧ eightHours (timezone (birthLocation morningBirth)) 1715763600000
    = Some 480
  ∧ - 8000000000000000 <= 1715763600000 <= 8000000000000000
  ∧ 0 <= 9 <= 23 ∧ 0 <= 0 <= 59
  ∧ ∃ ms',
      calibratedTime (getCalibratedBirthTime flatSine flatSine PI_approx
                        eightHours (Js.DateAt 1715763600000)
                        (birthLocation morningBirth))
      = Js.DateAt ms'
      ∧ 1715763600000 + 397 * 60000 <= ms' <= 1715763600000 + 526 * 60000
      ∧ (1715763600000 mod Js.msPerDay + 526 * 60000 < Js.msPerDay →
         bazi <$> calculateBaziWithTimezone flatSine flatSine PI_approx
                    eightHours morningBirth 9 0
         = calculateBazi (uncalibrated morningBirth) 9 0).
Proof.
  assert (Hsin : BoundedSine flatSine) by (intros x; split; discriminate).
  assert (Hcity : birthLocation morningBirth ∈ CHINA_CITIES)
    by (apply list_elem_of_here).
  assert (Hdate : birthDate morningBirth = Js.DateAt 1715763600000)
    by reflexivity.
  assert (Hzone : eightHours (timezone (birthLocation morningBirth))
                    1715763600000 = Some 480) by reflexivity.
  assert (Hms : - 8000000000000000 <= 1715763600000 <= 8000000000000000)
    by lia.
  assert (Hh : 0 <= 9 <= 23) by lia.
  assert (Hm : 0 <= 0 <= 59) by lia.
  split; [exact Hsin |]. split; [exact Hsin |]. split; [exact Hcity |].
  split; [exact Hdate |]. split; [exact Hzone |]. split; [exact Hms |].
  split; [exact Hh |]. split; [exact Hm |].
  exact (calibration_moves_the_day_only flatSine flatSine PI_approx eightHours
           morningBirth 9 0 1715763600000
           Hsin Hsin Hcity Hdate Hzone Hms Hh Hm).
Defined.

End CalibratedBirthTime.
